(** * The pure market making worker (strategy version 1.0.0)

    A shallow embedding of [hummingbot/strategies/pure_market_making/v_1_0_0/worker.py]
    and the properties of its price oracle, proposal builder, budget adjuster,
    order reconciler and tick scheduling.

    Conventions of the embedding.
    - Every decimal the worker reads (configuration, market, order book, ticker,
      balances) is finite and is represented by an exact rational of [Q]; the
      rounding of Python's [Decimal] context and of binary floats is not
      represented.  The worker's own arithmetic can leave the finite range (a
      missing last fill is [DECIMAL_NAN], numpy divides by zero without raising);
      such values live in [Decimal].
    - A method of the worker is a computation of the monad [M]: it reads and
      updates the worker's tracking lists, appends to the trace of gateway
      commands and warnings, and either returns or raises.
    - The venue gateway is a record of answers, [Gateway]. *)

From Stdlib Require Import ZArith QArith Qround Qpower Lia Lqa List String Sorted Permutation.
From stdpp Require Import base gmap sets list strings pretty.

Local Open Scope Z_scope.

(** ** Decimal values *)

(** A [decimal.Decimal] is a number, finite or a signed infinity, or a quiet
    NaN.  Under the default context every invalid operation raises, so the
    arithmetic of numbers stays within numbers. *)
Inductive Number : Type :=
| Fin (q : Q)
| Inf (negative : bool).

Inductive Decimal : Type :=
| Num (n : Number)
| NaN.

(** Modelled from the spec: [hummingbot.constants] is missing from the sources;
    its [DECIMAL_ZERO] and [DECIMAL_NAN] are the "decimal zero/NaN sentinels for
    missing prices".  ([FLOAT_ZERO] and [FLOAT_INFINITY] only occur in defaults
    that are never read, see [best_price].) *)
Definition DECIMAL_ZERO : Decimal := Num (Fin 0).
Definition DECIMAL_NAN : Decimal := NaN.

(** ** Exceptions *)

Inductive exn : Type :=
| InvalidPrice (used_price : option Decimal)  (* ValueError("Invalid price: ...") *)
| AttributeError                              (* an attribute that is not there *)
| InvalidOperation                            (* decimal.InvalidOperation *)
| DivisionByZero                              (* decimal.DivisionByZero *)
| ZeroDivisionError                           (* integer modulo by zero *)
| KeyError (key : string)                     (* a key missing from a bag *)
| GatewayError (message : string).            (* a failed gateway request *)

Inductive result (A : Type) : Type :=
| Ok (a : A)
| Raise (e : exn).
Arguments Ok {A} a.
Arguments Raise {A} e.

Definition is_raise {A} (r : result A) : Prop :=
  match r with Ok _ => False | Raise _ => True end.

(** ** Time *)

(** [_calculate_waiting_time]: [time.time()] is an input, already converted to
    whole milliseconds. *)
Definition _calculate_waiting_time
    (number : Z) (current_timestamp_in_milliseconds : Z) : result Z :=
  if number =? 0 then Raise ZeroDivisionError
  else Ok (number - current_timestamp_in_milliseconds mod number).

(** ** Data model *)

Inductive OrderSide : Type := BUY | SELL.

(** Modelled from the spec: [hummingbot.types] is missing from the sources; the
    order type is "LIMIT (configurable)", the price strategy one of TICKER,
    MIDDLE, LAST_FILL and the middle price strategy one of SAP, WAP, VWAP.  An
    enumeration member is truthy. *)
Inductive OrderType : Type := LIMIT | OtherOrderType (name : string).
Inductive PriceStrategy : Type := TICKER | MIDDLE | LAST_FILL.
Inductive MiddlePriceStrategy : Type := SAP | WAP | VWAP.

(** A level of the order book, [{price, amount}]. *)
Module Level.
Record t : Type := mk { price : Q; amount : Q }.
End Level.

(** The raw book of the gateway: its levels in the order of the response. *)
Module OrderBook.
Record t : Type := mk { bids : list Level.t; asks : list Level.t }.
End OrderBook.

(** A proposed (candidate) order, the class [Order]. *)
Module Order.
Record t : Type := mk {
  client_id : string;
  market_name : string;
  type : OrderType;
  side : OrderSide;
  amount : Q;
  price : Number }.
End Order.

(** An order as the venue reports it: the venue's [id] and the [clientId] it
    echoes back. *)
Module VenueOrder.
Record t : Type := mk { id : string; clientId : string; price : Q }.
End VenueOrder.

(** The wire shape of an order in a [postOrders] request. *)
Module WireOrder.
Record t : Type := mk {
  clientId : string;
  marketId : string;
  ownerAddress : string;
  side : OrderSide;
  price : Number;
  amount : Q;
  type : OrderType }.
End WireOrder.

Module Token.
Record t : Type := mk { id : string; name : string }.
End Token.

Module Market.
Record t : Type := mk {
  id : string;
  baseToken : Token.t;
  quoteToken : Token.t;
  minimumPriceIncrement : Q;
  minimumOrderSize : Q }.
End Market.

(** The balances of the wallet: for each token id its free amount. *)
Module Balances.
Record t : Type := mk { tokens : gmap string Q }.
End Balances.

(** One side of a layer and a layer of the ladder. *)
Module LayerSide.
Record t : Type := mk {
  quantity : Z;
  spread_percentage : Q;
  max_liquidity_in_dollars : Q }.
End LayerSide.

Module Layer.
Record t : Type := mk { bid : LayerSide.t; ask : LayerSide.t }.
End Layer.

(** [configuration.strategy]; a key that [.get] reads with a default is an
    option. *)
Module Strategy.
Record t : Type := mk {
  tick_interval : Z;
  price_strategy : option PriceStrategy;
  middle_price_strategy : option MiddlePriceStrategy;
  kujira_order_type : option OrderType;
  layers : list Layer.t }.
End Strategy.

Module Configuration.
Record t : Type := mk {
  market : string;
  wallet : string;
  strategy : Strategy.t }.
End Configuration.

(** ** The worker, its trace and its monad *)

Inductive SkipReason : Type :=
| PriceTooLow (market_price : Number)
| SizeTooLow (size : Q).

(** What the worker leaves behind: the warnings it logs and the commands it
    sends to the venue (requests that only read are not recorded). *)
Inductive Event : Type :=
| WarnSkipLayer (index : nat) (side : OrderSide) (reason : SkipReason)
| WarnNoOrder
| IgnoredException (e : exn)
| PostOrders (orders : list WireOrder.t)
| DeleteOrders (ids : list string).

Record Worker : Type := mkWorker {
  _currently_tracked_orders_ids : list string;
  _tracked_orders_ids : list string;
  _balances : option Balances.t;                        (* None: the empty bag of __init__ *)
  _open_orders : option (list (string * VenueOrder.t)); (* None: attribute not yet set *)
  _filled_orders : option (list (string * VenueOrder.t));
  trace : list Event }.

(** The answers of the venue. *)
Record Gateway : Type := mkGateway {
  kujira_get_order_book : result OrderBook.t;
  kujira_get_ticker : result Q;
  kujira_get_open_orders : result (list (string * VenueOrder.t));
  kujira_get_filled_orders : result (list (string * VenueOrder.t));
  kujira_get_balances : result Balances.t;
  kujira_post_orders : list WireOrder.t -> result (list (string * VenueOrder.t));
  kujira_delete_orders : list string -> result (list (string * VenueOrder.t)) }.

Definition M (A : Type) : Type := Worker -> result A * Worker.

Definition ret {A} (a : A) : M A := fun w => (Ok a, w).
Definition raise {A} (e : exn) : M A := fun w => (Raise e, w).
Definition lift {A} (r : result A) : M A := fun w => (r, w).
Definition bind {A B} (m : M A) (k : A -> M B) : M B :=
  fun w => match m w with
           | (Ok a, w') => k a w'
           | (Raise e, w') => (Raise e, w')
           end.
Definition try_except {A} (m : M A) (handler : exn -> M A) : M A :=
  fun w => match m w with
           | (Ok a, w') => (Ok a, w')
           | (Raise e, w') => handler e w'
           end.
Definition get : M Worker := fun w => (Ok w, w).
Definition emit (ev : Event) : M unit :=
  fun w => (Ok tt, mkWorker (_currently_tracked_orders_ids w) (_tracked_orders_ids w)
                            (_balances w) (_open_orders w) (_filled_orders w)
                            (trace w ++ [ev])).

Notation "'let!' x := m 'in' k" := (bind m (fun x => k))
  (at level 10, x name, m at level 100, k at level 200).

(** The same sequencing for computations that only return or raise. *)
Definition rbind {A B} (r : result A) (k : A -> result B) : result B :=
  match r with Ok a => k a | Raise e => Raise e end.
Notation "'let?' x := r 'in' k" := (rbind r (fun x => k))
  (at level 10, x name, r at level 100, k at level 200).

(** ** Decimal arithmetic *)

Definition Qltb (x y : Q) : bool := negb (Qle_bool y x).

(** [a < b] and [a <= b] on numbers. *)
Definition Number_lt (a b : Number) : bool :=
  match a, b with
  | Fin x, Fin y => Qltb x y
  | Fin _, Inf negative => negb negative
  | Inf negative, Fin _ => negative
  | Inf n1, Inf n2 => n1 && negb n2
  end.

Definition Number_le (a b : Number) : bool := negb (Number_lt b a).

(** An ordering comparison of decimals signals on NaN. *)
Definition Decimal_le (a b : Decimal) : result bool :=
  match a, b with
  | Num x, Num y => Ok (Number_le x y)
  | _, _ => Raise InvalidOperation
  end.

(** The builtins [min(a, b)] and [max(a, b)]: the first argument wins ties. *)
Definition py_min (a b : Number) : Number := if Number_lt b a then b else a.
Definition py_max (a b : Number) : Number := if Number_lt a b then b else a.

(** [a * b]: zero times infinity is invalid.  The product of two finite
    numbers is the exact one: the decimal context rounds it to 28 significant
    digits, which is not represented. *)
Definition Number_mul (a b : Number) : result Number :=
  match a, b with
  | Fin x, Fin y => Ok (Fin (x * y))
  | Fin x, Inf negative | Inf negative, Fin x =>
      if Qeq_bool x 0 then Raise InvalidOperation
      else Ok (Inf (xorb negative (Qltb x 0)))
  | Inf n1, Inf n2 => Ok (Inf (xorb n1 n2))
  end.

(** [x / d] for a finite dividend: dividing by zero raises, dividing by an
    infinity gives zero. *)
Definition Q_div_Number (x : Q) (d : Number) : result Q :=
  match d with
  | Fin y =>
      if Qeq_bool y 0
      then (if Qeq_bool x 0 then Raise InvalidOperation else Raise DivisionByZero)
      else Ok (x / y)%Q
  | Inf _ => Ok 0%Q
  end.

(** A float division of numpy: it does not raise, it yields nan or an infinity.
    The quotient of two finite numbers is the exact one: the rounding of binary
    floats is not represented. *)
Definition np_divide (x y : Q) : Decimal :=
  if Qeq_bool y 0
  then (if Qeq_bool x 0 then NaN else Num (Inf (Qltb x 0)))
  else Num (Fin (x / y)%Q).

(** ** Lists the way Python handles them *)

(** [list.sort(key=...)], a stable sort; [leb a b] says that the key of [a] is
    at most the key of [b]. *)
Fixpoint insert_sorted {A} (leb : A -> A -> bool) (x : A) (l : list A) : list A :=
  match l with
  | [] => [x]
  | y :: l' => if leb x y then x :: y :: l' else y :: insert_sorted leb x l'
  end.

Definition sort_by {A} (leb : A -> A -> bool) (l : list A) : list A :=
  fold_right (insert_sorted leb) [] l.

(** The slice [l[:n]]; a negative [n] counts from the end. *)
Definition slice_to {A} (n : Z) (l : list A) : list A :=
  if 0 <=? n then firstn (Z.to_nat n) l
  else firstn (Z.to_nat (Z.of_nat (length l) + n)) l.

(** [min(l)] and [max(l)] of a list of floats starting from its head; the
    earliest extremum is the one returned. *)
Definition min_list (x : Q) (l : list Q) : Q :=
  fold_left (fun m y => if Qltb y m then y else m) l x.
Definition max_list (x : Q) (l : list Q) : Q :=
  fold_left (fun m y => if Qltb m y then y else m) l x.

(** [l.index(x)]; the callers look up a member of the list. *)
Fixpoint index_of (x : Q) (l : list Q) : nat :=
  match l with
  | [] => O
  | y :: l' => if Qeq_bool y x then O else S (index_of x l')
  end.

Fixpoint cumsum_from (acc : Q) (l : list Q) : list Q :=
  match l with
  | [] => []
  | x :: l' => (acc + x)%Q :: cumsum_from (acc + x)%Q l'
  end.
Definition cumsum (l : list Q) : list Q := cumsum_from 0%Q l.

(** [np.percentile(a, q)] with the default linear interpolation, for a
    non-empty [a]. *)
Definition np_percentile (a : list Q) (q : Q) : Q :=
  let sorted := sort_by Qle_bool a in
  let h := (inject_Z (Z.of_nat (length a) - 1) * q / 100)%Q in
  let i := Z.to_nat (Qfloor h) in
  let lo := nth i sorted 0%Q in
  let hi := nth (Nat.min (S i) (length a - 1)) sorted 0%Q in
  (lo + (h - inject_Z (Qfloor h)) * (hi - lo))%Q.

(** ** Order-book normalizer and middle prices *)

(** [_parse_order_book]: bids by descending price, asks by ascending price. *)
Definition _parse_order_book (orderbook : OrderBook.t) : list Level.t * list Level.t :=
  let bids_list := OrderBook.bids orderbook in
  let asks_list := OrderBook.asks orderbook in
  (sort_by (fun x y => Qle_bool (Level.price y) (Level.price x)) bids_list,
   sort_by (fun x y => Qle_bool (Level.price x) (Level.price y)) asks_list).

Section MiddlePrice.

(** [VWAP_THRESHOLD] of [hummingbot.constants], a percentage; the module is
    missing from the sources and the constant is a parameter. *)
Variable VWAP_THRESHOLD : Q.

Definition _split_percentage (bids asks : list Level.t) : list Level.t * list Level.t :=
  let asks' :=
    slice_to (Qceiling ((VWAP_THRESHOLD / 100) * inject_Z (Z.of_nat (length asks)))) asks in
  let bids' :=
    slice_to (Qceiling ((VWAP_THRESHOLD / 100) * inject_Z (Z.of_nat (length bids)))) bids in
  (bids', asks').

(** The running quotient [cumsum(amounts * prices) / cumsum(amounts)]. *)
Definition _compute_volume_weighted_average_price (book : list Level.t) : list Decimal :=
  let prices := map Level.price book in
  let amounts := map Level.amount book in
  let weighted := map (fun pa => (snd pa * fst pa)%Q) (combine prices amounts) in
  map (fun xy => np_divide (fst xy) (snd xy)) (combine (cumsum weighted) (cumsum amounts)).

Definition _remove_outliers (order_book : list Level.t) (side : OrderSide) : list Level.t :=
  let prices := map Level.price order_book in
  let q75 := np_percentile prices 75 in
  let q25 := np_percentile prices 25 in
  let max_threshold := (q75 * (3 # 2))%Q in
  let min_threshold := (q25 * (1 # 2))%Q in
  match side with
  | SELL => List.filter (fun order => Qltb (Level.price order) max_threshold) order_book
  | BUY => List.filter (fun order => Qltb min_threshold (Level.price order)) order_book
  end.

Definition _calculate_middle_price
    (bids asks : list Level.t) (strategy : MiddlePriceStrategy) : result Decimal :=
  match strategy with
  | SAP =>
      let bid_prices := map Level.price bids in
      let ask_prices := map Level.price asks in
      let best_ask_price := match ask_prices with [] => 0%Q | p :: l => min_list p l end in
      let best_bid_price := match bid_prices with [] => 0%Q | p :: l => max_list p l end in
      Ok (Num (Fin ((best_ask_price + best_bid_price) / 2)%Q))
  | WAP =>
      let bid_prices := map Level.price bids in
      let ask_prices := map Level.price asks in
      let zero := Level.mk 0 0 in
      let best_ask :=
        match ask_prices with
        | [] => zero
        | p :: l => nth (index_of (min_list p l) ask_prices) asks zero
        end in
      let best_bid :=
        match bid_prices with
        | [] => zero
        | p :: l => nth (index_of (max_list p l) bid_prices) bids zero
        end in
      let best_ask_price := Level.price best_ask in
      let best_ask_volume := Level.amount best_ask in
      let best_bid_price := Level.price best_bid in
      let best_bid_amount := Level.amount best_bid in
      if Qltb 0 (best_ask_volume + best_bid_amount)
      then Ok (Num (Fin ((best_ask_price * best_ask_volume + best_bid_price * best_bid_amount)
                         / (best_ask_volume + best_bid_amount))%Q))
      else Ok DECIMAL_ZERO
  | VWAP =>
      let '(bids1, asks1) := _split_percentage bids asks in
      let bids2 := match bids1 with [] => bids1 | _ => _remove_outliers bids1 BUY end in
      let asks2 := match asks1 with [] => asks1 | _ => _remove_outliers asks1 SELL end in
      let book := bids2 ++ asks2 in
      match book with
      | [] => Ok DECIMAL_ZERO
      | _ => Ok (List.last (_compute_volume_weighted_average_price book) NaN)
      end
  end.

End MiddlePrice.

(** ** Reading the venue *)

Section Worker.

Variable VWAP_THRESHOLD : Q.
Variable gateway : Gateway.
Variable configuration : Configuration.t.
(** [self._market], fetched once at initialization. *)
Variable market : Market.t.

Definition set_balances (b : Balances.t) : M unit :=
  fun w => (Ok tt, mkWorker (_currently_tracked_orders_ids w) (_tracked_orders_ids w)
                            (Some b) (_open_orders w) (_filled_orders w) (trace w)).
Definition set_open_orders (o : list (string * VenueOrder.t)) : M unit :=
  fun w => (Ok tt, mkWorker (_currently_tracked_orders_ids w) (_tracked_orders_ids w)
                            (_balances w) (Some o) (_filled_orders w) (trace w)).
Definition set_filled_orders (o : list (string * VenueOrder.t)) : M unit :=
  fun w => (Ok tt, mkWorker (_currently_tracked_orders_ids w) (_tracked_orders_ids w)
                            (_balances w) (_open_orders w) (Some o) (trace w)).
Definition set_tracked (currently tracked : list string) : M unit :=
  fun w => (Ok tt, mkWorker currently tracked
                            (_balances w) (_open_orders w) (_filled_orders w) (trace w)).

(** [_get_balances]: [self._balances] is never [None], so with [use_cache] the
    cache is what is returned, even when it is still the empty bag. *)
Definition _get_balances (use_cache : bool) : M (option Balances.t) :=
  if use_cache then
    let! w := get in ret (_balances w)
  else
    let! response := lift (kujira_get_balances gateway) in
    let! _ := set_balances response in
    ret (Some response).

Definition _get_order_book : M OrderBook.t := lift (kujira_get_order_book gateway).

(** [_get_ticker(use_cache=False)] followed by [Decimal(ticker.price)]. *)
Definition _get_base_ticker_price : M Decimal :=
  let! price := lift (kujira_get_ticker gateway) in ret (Num (Fin price)).

Definition _get_market_price : M Decimal := _get_base_ticker_price.

(** [_get_open_orders] and [_get_filled_orders]: reading the cache before the
    first fetch reads an attribute that was never assigned. *)
Definition _get_open_orders (use_cache : bool) : M (list (string * VenueOrder.t)) :=
  let! w := get in
  if use_cache then
    match _open_orders w with
    | Some response => ret response
    | None => raise AttributeError
    end
  else
    let! response := lift (kujira_get_open_orders gateway) in
    let! _ := set_open_orders response in
    ret response.

Definition _get_filled_orders (use_cache : bool) : M (list (string * VenueOrder.t)) :=
  let! w := get in
  if use_cache then
    match _filled_orders w with
    | Some response => ret response
    | None => raise AttributeError
    end
  else
    let! response := lift (kujira_get_filled_orders gateway) in
    let! _ := set_filled_orders response in
    ret response.

Definition _get_last_filled_order : M (option VenueOrder.t) :=
  let! filled_orders := _get_filled_orders true in
  match filled_orders with
  | (_, order) :: _ => ret (Some order)
  | [] => ret None
  end.

Definition _get_last_filled_order_price : M Decimal :=
  let! last_filled_order := _get_last_filled_order in
  match last_filled_order with
  | Some order => ret (Num (Fin (VenueOrder.price order)))
  | None => ret DECIMAL_NAN
  end.

(** ** Price oracle *)

(** The nested handlers of [_get_market_middle_price], for any way
    [calculate] of computing a middle price and any [market_price]. *)
Definition middle_price_fallback
    (calculate : MiddlePriceStrategy -> result Decimal) (market_price : M Decimal) : M Decimal :=
  try_except (lift (calculate VWAP)) (fun _ =>
    try_except (lift (calculate WAP)) (fun _ =>
      try_except (lift (calculate SAP)) (fun _ =>
        market_price))).

Definition _get_market_middle_price
    (bids asks : list Level.t) (strategy : option MiddlePriceStrategy) : M Decimal :=
  match strategy with
  | Some strategy => lift (_calculate_middle_price VWAP_THRESHOLD bids asks strategy)
  | None =>
      middle_price_fallback (_calculate_middle_price VWAP_THRESHOLD bids asks)
                            _get_market_price
  end.

(** Modelled from the spec: [ignore_exception] belongs to [WorkerBase], which
    is missing from the sources; "any error is logged and swallowed". *)
Definition ignore_exception (exception : exn) : M unit :=
  emit (IgnoredException exception).

(** The first part of [_create_proposal]: the value of [used_price] for the
    parsed book. *)
Definition used_price (bids asks : list Level.t) : M Decimal :=
  let! ticker_price := _get_market_price in
  let! last_filled_order_price :=
    try_except _get_last_filled_order_price
               (fun exception => let! _ := ignore_exception exception in ret DECIMAL_ZERO) in
  let price_strategy :=
    default TICKER (Strategy.price_strategy (Configuration.strategy configuration)) in
  match price_strategy with
  | TICKER => ret ticker_price
  | MIDDLE =>
      let middle_price_strategy :=
        default SAP (Strategy.middle_price_strategy (Configuration.strategy configuration)) in
      _get_market_middle_price bids asks (Some middle_price_strategy)
  | LAST_FILL => ret last_filled_order_price
  end.

(** The guard [if used_price is None or used_price <= DECIMAL_ZERO]. *)
Definition check_used_price (used_price : option Decimal) : result Number :=
  match used_price with
  | None => Raise (InvalidPrice None)
  | Some d =>
      let? not_positive := Decimal_le d DECIMAL_ZERO in
      if not_positive : bool then Raise (InvalidPrice (Some d))
      else match d with Num n => Ok n | NaN => Raise InvalidOperation end
  end.

(** ** Proposal builder *)

(** [Decimal(next(iter(levels), {"price": ...}).price)]: the best level is the
    head of the side; the default for an empty side is a plain dict, and
    reading its attribute [price] raises. *)
Definition best_price (levels : list Level.t) : result Number :=
  match levels with
  | level :: _ => Ok (Fin (Level.price level))
  | [] => Raise AttributeError
  end.

Definition bid_market_price
    (used_price : Number) (asks : list Level.t) (layer : Layer.t) : result Number :=
  let? best_ask := best_price asks in
  let bid_spread_percentage := LayerSide.spread_percentage (Layer.bid layer) in
  Number_mul (Fin ((100 - bid_spread_percentage) / 100)%Q) (py_min used_price best_ask).

Definition ask_market_price
    (used_price : Number) (bids : list Level.t) (layer : Layer.t) : result Number :=
  let? best_bid := best_price bids in
  let ask_spread_percentage := LayerSide.spread_percentage (Layer.ask layer) in
  Number_mul (Fin ((100 + ask_spread_percentage) / 100)%Q) (py_max used_price best_bid).

(** [max_liquidity_in_dollars / market_price / quantity if quantity > 0 else 0] *)
Definition layer_size (side : LayerSide.t) (market_price : Number) : result Q :=
  let quantity := LayerSide.quantity side in
  if 0 <? quantity then
    let? per_price := Q_div_Number (LayerSide.max_liquidity_in_dollars side) market_price in
    Ok (per_price / inject_Z quantity)%Q
  else Ok 0%Q.

(** The orders of [for i in range(quantity)], numbered from [client_id]. *)
Definition new_orders
    (side : OrderSide) (quantity : Z) (client_id : N) (size : Q) (market_price : Number)
  : list Order.t :=
  map (fun i => Order.mk (pretty (client_id + N.of_nat i)%N) (Configuration.market configuration)
                         LIMIT side size market_price)
      (seq 0 (Z.to_nat quantity)).

(** The two gates and the emission for one side of one layer; the state is
    the client id counter and the orders of this side so far. *)
Definition place_layer
    (side : OrderSide) (index : nat) (quantity : Z) (market_price : Number) (size : Q)
    (st : N * list Order.t) : M (N * list Order.t) :=
  let minimum_price_increment := Market.minimumPriceIncrement market in
  let minimum_order_size := Market.minimumOrderSize market in
  if Number_lt market_price (Fin minimum_price_increment) then
    let! _ := emit (WarnSkipLayer index side (PriceTooLow market_price)) in ret st
  else if Qltb size minimum_order_size then
    let! _ := emit (WarnSkipLayer index side (SizeTooLow size)) in ret st
  else
    ret ((fst st + N.of_nat (Z.to_nat quantity))%N,
         snd st ++ new_orders side quantity (fst st) size market_price).

Definition bid_layer (used_price : Number) (asks : list Level.t)
    (index : nat) (layer : Layer.t) (st : N * list Order.t) : M (N * list Order.t) :=
  let! market_price := lift (bid_market_price used_price asks layer) in
  let! bid_size := lift (layer_size (Layer.bid layer) market_price) in
  place_layer BUY index (LayerSide.quantity (Layer.bid layer)) market_price bid_size st.

Definition ask_layer (used_price : Number) (bids : list Level.t)
    (index : nat) (layer : Layer.t) (st : N * list Order.t) : M (N * list Order.t) :=
  let! market_price := lift (ask_market_price used_price bids layer) in
  let! ask_size := lift (layer_size (Layer.ask layer) market_price) in
  place_layer SELL index (LayerSide.quantity (Layer.ask layer)) market_price ask_size st.

(** [for index, layer in enumerate(layers, start=index)] *)
Fixpoint for_layers {St} (body : nat -> Layer.t -> St -> M St)
    (index : nat) (layers : list Layer.t) (st : St) : M St :=
  match layers with
  | [] => ret st
  | layer :: rest =>
      let! st' := body index layer st in for_layers body (S index) rest st'
  end.

Definition _create_proposal : M (list Order.t) :=
  let! order_book := _get_order_book in
  let bids := fst (_parse_order_book order_book) in
  let asks := snd (_parse_order_book order_book) in
  let! used := used_price bids asks in
  let! used := lift (check_used_price (Some used)) in
  let layers := Strategy.layers (Configuration.strategy configuration) in
  let! bid_state := for_layers (bid_layer used asks) 1 layers (1%N, []) in
  let! ask_state := for_layers (ask_layer used bids) 1 layers (fst bid_state, []) in
  ret ([] ++ snd bid_state ++ snd ask_state).

(** ** Budget adjuster *)

(** One turn of the walk; the state is the free base balance, the free quote
    balance and the adjusted proposal. *)
Definition adjust_order (st : Q * Q * list Order.t) (order : Order.t) : Q * Q * list Order.t :=
  let '(current_base_balance, current_quote_balance, adjusted_proposal) := st in
  match Order.side order with
  | BUY =>
      if Qltb (Order.amount order) current_quote_balance
      then (current_base_balance, (current_quote_balance - Order.amount order)%Q,
            adjusted_proposal ++ [order])
      else st
  | SELL =>
      if Qltb (Order.amount order) current_base_balance
      then ((current_base_balance - Order.amount order)%Q, current_quote_balance,
            adjusted_proposal ++ [order])
      else st
  end.

Definition adjust_walk (base_balance quote_balance : Q) (candidate_proposal : list Order.t)
  : list Order.t :=
  snd (fold_left adjust_order candidate_proposal (base_balance, quote_balance, [])).

Definition free_balance (tokens : gmap string Q) (token : Token.t) : result Q :=
  match tokens !! Token.id token with
  | Some free => Ok free
  | None => Raise (KeyError (Token.id token))
  end.

(** [balances.tokens] on the empty bag of [__init__], [DotMap({}, _dynamic=False)]:
    a bag that is not dynamic has no attribute [tokens], and reading it raises
    an attribute error. *)
Definition _adjust_proposal_to_budget (candidate_proposal : list Order.t) : M (list Order.t) :=
  let! balances := _get_balances true in
  let! tokens := match balances with
                 | Some b => ret (Balances.tokens b)
                 | None => raise AttributeError
                 end in
  let! base_balance := lift (free_balance tokens (Market.baseToken market)) in
  let! quote_balance := lift (free_balance tokens (Market.quoteToken market)) in
  ret (adjust_walk base_balance quote_balance candidate_proposal).

(** ** Order reconciler *)

(** The wire shape of a candidate. *)
Definition wire_order (candidate : Order.t) : WireOrder.t :=
  let order_type :=
    default LIMIT (Strategy.kujira_order_type (Configuration.strategy configuration)) in
  WireOrder.mk (Order.client_id candidate) (Market.id market)
               (Configuration.wallet configuration) (Order.side candidate)
               (Order.price candidate) (Order.amount candidate) order_type.

Definition _replace_orders (proposal : list Order.t) : M (list (string * VenueOrder.t)) :=
  let orders := map wire_order proposal in
  match orders with
  | _ :: _ =>
      let! _ := emit (PostOrders orders) in
      let! response := lift (kujira_post_orders gateway orders) in
      let currently_tracked := map fst response in
      let! w := get in
      let! _ := set_tracked currently_tracked (_tracked_orders_ids w ++ currently_tracked) in
      ret response
  | [] =>
      let! _ := emit WarnNoOrder in ret []
  end.

Definition _cancel_currently_untracked_orders (open_orders_ids : list string)
  : M (list (string * VenueOrder.t)) :=
  let! w := get in
  let untracked_orders_ids :=
    elements (((list_to_set (_tracked_orders_ids w) : gset string)
                 ∩ list_to_set open_orders_ids)
                ∖ list_to_set (_currently_tracked_orders_ids w)) in
  match untracked_orders_ids with
  | _ :: _ =>
      let! _ := emit (DeleteOrders untracked_orders_ids) in
      lift (kujira_delete_orders gateway untracked_orders_ids)
  | [] => ret []
  end.

(** [open_orders_map], a dict from client id to the list of its orders, in
    the order in which client ids first appear. *)
Fixpoint group_append (open_order : VenueOrder.t)
    (open_orders_map : list (string * list VenueOrder.t)) : list (string * list VenueOrder.t) :=
  match open_orders_map with
  | [] => [(VenueOrder.clientId open_order, [open_order])]
  | (client_id, orders) :: rest =>
      if String.eqb client_id (VenueOrder.clientId open_order)
      then (client_id, orders ++ [open_order]) :: rest
      else (client_id, orders) :: group_append open_order rest
  end.

Definition group_order (open_orders_map : list (string * list VenueOrder.t))
    (open_order : VenueOrder.t) : list (string * list VenueOrder.t) :=
  if String.eqb (VenueOrder.clientId open_order) "0" then open_orders_map
  else group_append open_order open_orders_map.

(** [orders.sort(key=lambda order: order.id)] then [orders[:-1]]. *)
Definition all_but_last_by_id (orders : list VenueOrder.t) : list string :=
  map VenueOrder.id
      (removelast (sort_by (fun a b => String.leb (VenueOrder.id a) (VenueOrder.id b)) orders)).

Definition duplicated_orders_ids_of (open_orders : list VenueOrder.t) : list string :=
  let open_orders_map := fold_left group_order open_orders [] in
  fold_left (fun duplicated_orders_ids orders => duplicated_orders_ids ++ all_but_last_by_id orders)
            (map snd open_orders_map) [].

Definition _get_duplicated_orders_ids : M (list string) :=
  let! open_orders := _get_open_orders true in
  ret (duplicated_orders_ids_of (map snd open_orders)).

(** ** One tick *)

(** [on_tick], without the optional market withdraw and the bookkeeping of
    the finalizer ([_refresh_timestamp], [_is_busy]). *)
Definition on_tick : M unit :=
  try_except
    (let! open_orders := _get_open_orders false in
     let! _ := _get_filled_orders false in
     let! _ := _get_balances false in
     let open_orders_ids := map fst open_orders in
     let! _ := _cancel_currently_untracked_orders open_orders_ids in
     let! proposed_orders := _create_proposal in
     let! candidate_orders := _adjust_proposal_to_budget proposed_orders in
     let! _ := _replace_orders candidate_orders in
     ret tt)
    ignore_exception.

End Worker.

(** ** Vocabulary of the specification *)

(** The order of the extended line on numbers. *)
Definition Number_Le (a b : Number) : Prop :=
  match a, b with
  | Fin x, Fin y => (x <= y)%Q
  | Inf true, _ => True
  | _, Inf false => True
  | _, _ => False
  end.


Definition spec_best_bid (bids : list Level.t) : Number :=
  match bids with
  | [] => Fin 0
  | level :: _ => Fin (Level.price level)
  end.

(** The budget rule, following the words of the specification: walking the
    proposal with the free base and quote balances, a BUY is kept when the
    free quote balance is strictly greater than its amount, a SELL when the
    free base balance is; a kept order decrements its balance by its
    amount, any other order is skipped. *)
Inductive Affords : Q -> Q -> list Order.t -> list Order.t -> Prop :=
| Affords_nil free_base free_quote :
    Affords free_base free_quote [] []
| Affords_buy free_base free_quote order rest out :
    Order.side order = BUY ->
    (Order.amount order < free_quote)%Q ->
    Affords free_base (free_quote - Order.amount order)%Q rest out ->
    Affords free_base free_quote (order :: rest) (order :: out)
| Affords_buy_skip free_base free_quote order rest out :
    Order.side order = BUY ->
    ~ (Order.amount order < free_quote)%Q ->
    Affords free_base free_quote rest out ->
    Affords free_base free_quote (order :: rest) out
| Affords_sell free_base free_quote order rest out :
    Order.side order = SELL ->
    (Order.amount order < free_base)%Q ->
    Affords (free_base - Order.amount order)%Q free_quote rest out ->
    Affords free_base free_quote (order :: rest) (order :: out)
| Affords_sell_skip free_base free_quote order rest out :
    Order.side order = SELL ->
    ~ (Order.amount order < free_base)%Q ->
    Affords free_base free_quote rest out ->
    Affords free_base free_quote (order :: rest) out.

(** The least and the greatest price of a side, or 0 for an empty side. *)
Definition least_or_zero (x : Q) (l : list Q) : Prop :=
  (l = [] /\ x = 0%Q) \/ (In x l /\ forall y, In y l -> (x <= y)%Q).
Definition greatest_or_zero (x : Q) (l : list Q) : Prop :=
  (l = [] /\ x = 0%Q) \/ (In x l /\ forall y, In y l -> (y <= x)%Q).

(** The events a computation appended to the trace. *)
Definition appended (w w' : Worker) (events : list Event) : Prop :=
  trace w' = trace w ++ events.

Definition is_post_orders (ev : Event) : Prop :=
  match ev with PostOrders _ => True | _ => False end.

(** The open orders of a client id, in the order of the response. *)
Definition group_of (client_id : string) (orders : list VenueOrder.t) : list VenueOrder.t :=
  List.filter (fun order => String.eqb (VenueOrder.clientId order) client_id) orders.

(** What [open_orders_map] holds once [processed] has been scanned. *)
Definition groups_inv
    (open_orders_map : list (string * list VenueOrder.t)) (processed : list VenueOrder.t) : Prop :=
  NoDup (map fst open_orders_map)
  /\ (forall client_id orders,
        In (client_id, orders) open_orders_map ->
        client_id <> "0"%string /\ orders <> [] /\ orders = group_of client_id processed)
  /\ (forall order,
        In order processed -> VenueOrder.clientId order <> "0"%string ->
        In (VenueOrder.clientId order) (map fst open_orders_map)).

(** An order is a duplicate when it is not manual and an open order of the same
    client id has a greater venue id. *)
Definition is_duplicate (orders : list VenueOrder.t) (order : VenueOrder.t) : Prop :=
  VenueOrder.clientId order <> "0"%string
  /\ exists other,
       In other orders
       /\ VenueOrder.clientId other = VenueOrder.clientId order
       /\ VenueOrder.id other <> VenueOrder.id order
       /\ String.leb (VenueOrder.id order) (VenueOrder.id other) = true.

(** What one side of one layer does with the state of its loop and the trace,
    for the market price [p] and the size [sz] it computed: a warning for a
    price or a size below the minimum, the orders otherwise. *)
Definition layer_outcome
    (configuration : Configuration.t) (market : Market.t) (side : OrderSide)
    (index : nat) (quantity : Z) (p : Number) (sz : Q)
    (st st' : N * list Order.t) (w w' : Worker) : Prop :=
  (Number_lt p (Fin (Market.minimumPriceIncrement market)) = true /\ st' = st
   /\ appended w w' [WarnSkipLayer index side (PriceTooLow p)])
  \/ (Number_lt p (Fin (Market.minimumPriceIncrement market)) = false
      /\ Qltb sz (Market.minimumOrderSize market) = true /\ st' = st
      /\ appended w w' [WarnSkipLayer index side (SizeTooLow sz)])
  \/ (Number_lt p (Fin (Market.minimumPriceIncrement market)) = false
      /\ Qltb sz (Market.minimumOrderSize market) = false /\ w' = w
      /\ st' = ((fst st + N.of_nat (Z.to_nat quantity))%N,
                snd st ++ new_orders configuration side quantity (fst st) sz p)).

(** A price is zero. *)
Definition is_zero (p : Number) : Prop :=
  match p with Fin x => (x == 0)%Q | Inf _ => False end.

(** A computed price or size falls below the minimums of the market. *)
Definition below_minimums (market : Market.t) (p : Number) (sz : Q) : Prop :=
  ~ Number_Le (Fin (Market.minimumPriceIncrement market)) p
  \/ (sz < Market.minimumOrderSize market)%Q.

(** Between [w] and [w'] a warning about this side of the layer with this index
    was appended to the trace. *)
Definition warned (w w' : Worker) (index : nat) (side : OrderSide) : Prop :=
  exists events reason,
    appended w w' events /\ WarnSkipLayer index side reason ∈ events.

(** The worker with more events in its trace and nothing else changed. *)
Definition log_events (w : Worker) (events : list Event) : Worker :=
  mkWorker (_currently_tracked_orders_ids w) (_tracked_orders_ids w)
           (_balances w) (_open_orders w) (_filled_orders w) (trace w ++ events).

Definition is_ignored (ev : Event) : Prop :=
  match ev with IgnoredException _ => True | _ => False end.

(** ** A market used in the examples *)

Module Scenario.

Definition market : Market.t :=
  Market.mk "KUJI-USK" (Token.mk "kuji" "KUJI") (Token.mk "usk" "USK") (1 # 100) (1 # 10).

(** A worker that has just been created. *)
Definition worker : Worker := mkWorker [] [] None None None [].

(** A venue that answers every request: the given book, a ticker at 11, no
    open or filled order, 4 KUJI and 7 USK free; it places every order it is
    sent and cancels every id. *)
Definition gateway (book : OrderBook.t) : Gateway :=
  mkGateway (Ok book) (Ok 11%Q) (Ok []) (Ok [])
            (Ok (Balances.mk (<["kuji"%string := 4%Q]> (<["usk"%string := 7%Q]> ∅))))
            (fun orders =>
               Ok (map (fun order =>
                          (WireOrder.clientId order,
                           VenueOrder.mk (WireOrder.clientId order)
                                         (WireOrder.clientId order) 0))
                       orders))
            (fun ids => Ok []).

Definition configuration
    (price_strategy : option PriceStrategy)
    (middle_price_strategy : option MiddlePriceStrategy)
    (layers : list Layer.t) : Configuration.t :=
  Configuration.mk "KUJI-USK" "kujira1wallet"
                   (Strategy.mk 1000 price_strategy middle_price_strategy None layers).

(** A venue that is down. *)
Definition down_gateway : Gateway :=
  mkGateway (Raise (GatewayError "down")) (Raise (GatewayError "down"))
            (Raise (GatewayError "down")) (Raise (GatewayError "down"))
            (Raise (GatewayError "down"))
            (fun _ => Raise (GatewayError "down")) (fun _ => Raise (GatewayError "down")).

(** A worker whose cached balances hold 4 KUJI and 7 USK free. *)
Definition funded_worker : Worker :=
  mkWorker [] [] (Some (Balances.mk (<["kuji"%string := 4%Q]> (<["usk"%string := 7%Q]> ∅))))
           None None [].

(** The proposal of scenario S4: BUY 5 at 9, BUY 5 at 8, SELL 3 at 12. *)
Definition proposal_S4 : list Order.t :=
  [Order.mk "1" "KUJI-USK" LIMIT BUY 5 (Fin 9); Order.mk "2" "KUJI-USK" LIMIT BUY 5 (Fin 8);
   Order.mk "3" "KUJI-USK" LIMIT SELL 3 (Fin 12)].

(** A worker that has fetched five open orders: three of client id "1" and
    two placed by hand. *)
Definition scanned_worker : Worker :=
  mkWorker [] [] None
           (Some [("a3"%string, VenueOrder.mk "a3" "1" 9); ("a1"%string, VenueOrder.mk "a1" "1" 9);
                  ("m1"%string, VenueOrder.mk "m1" "0" 9); ("m2"%string, VenueOrder.mk "m2" "0" 9);
                  ("a2"%string, VenueOrder.mk "a2" "1" 9)])
           None [].

(** Bid 10 and ask 12, one unit each; the same with three units on the ask;
    the empty book. *)
Definition book : OrderBook.t := OrderBook.mk [Level.mk 10 1] [Level.mk 12 1].
Definition book_heavy_ask : OrderBook.t := OrderBook.mk [Level.mk 10 1] [Level.mk 12 3].
Definition empty_book : OrderBook.t := OrderBook.mk [] [].

(** One order per side at a spread of 10% with 100 dollars; two bids without
    any liquidity; a bid at a spread of 100%. *)
Definition layer : Layer.t := Layer.mk (LayerSide.mk 1 10 100) (LayerSide.mk 1 10 100).
Definition thin_layer : Layer.t := Layer.mk (LayerSide.mk 2 5 0) (LayerSide.mk 1 100 50).
Definition full_spread_layer : Layer.t :=
  Layer.mk (LayerSide.mk 1 100 100) (LayerSide.mk 1 10 100).

End Scenario.

(** ** Auxiliary methods *)

(** [_get_remaining_orders_ids]: the candidates and the created orders are
    compared by client id; [created_orders] is the response of a placement, a
    dict from the venue's id to the order. *)
Definition _get_remaining_orders_ids
    (candidate_orders : list Order.t) (created_orders : list (string * VenueOrder.t))
  : list VenueOrder.t :=
  let candidate_orders_client_ids := map Order.client_id candidate_orders in
  let created_orders_client_ids :=
    map (fun order => VenueOrder.clientId order) (map snd created_orders) in
  let remaining_orders_client_ids :=
    elements ((list_to_set candidate_orders_client_ids : gset string)
                ∖ list_to_set created_orders_client_ids) in
  List.filter (fun order => bool_decide (VenueOrder.clientId order ∈ remaining_orders_client_ids))
              (map snd created_orders).

(** ** Lifecycle *)

Module Lifecycle.

(** The switches of [configuration.strategy] that the lifecycle reads. *)
Record Switches : Type := mkSwitches {
  cancel_all_orders_on_start : bool;
  withdraw_market_on_start : bool;
  cancel_all_orders_on_stop : bool;
  withdraw_market_on_stop : bool;
  withdraw_market_on_tick : bool;
  run_only_once : bool }.

(** The answers of the venue to the requests of the lifecycle. *)
Record Venue : Type := mkVenue {
  kujira_get_market : result Market.t;
  kujira_delete_orders_all : result unit;
  kujira_post_market_withdraw : result unit }.

(** The commands of the lifecycle, in the order they were sent. *)
Inductive Command : Type := DeleteOrdersAll | PostMarketWithdraw.

(** The worker object with the attributes of its lifecycle; [worker] holds
    the attributes that the methods of a tick read and write. *)
Record Process : Type := mkProcess {
  worker : Worker;
  _market : option Market.t;          (* None: attribute not yet assigned *)
  initialized : bool;
  _can_run : bool;
  _is_busy : bool;
  _refresh_timestamp : Z;
  commands : list Command }.

(** The object that [__init__] leaves; [initialized] is first assigned by
    [initialize]. *)
Definition new_process : Process :=
  mkProcess (mkWorker [] [] None None None []) None false true false 0 [].

Definition L (A : Type) : Type := Process -> result A * Process.

Definition unit_ {A} (a : A) : L A := fun p => (Ok a, p).
Definition of_result {A} (r : result A) : L A := fun p => (r, p).
Definition and_then {A B} (m : L A) (k : A -> L B) : L B :=
  fun p => match m p with
           | (Ok a, p') => k a p'
           | (Raise e, p') => (Raise e, p')
           end.
Definition attempt {A} (m : L A) (handler : exn -> L A) : L A :=
  fun p => match m p with
           | (Ok a, p') => (Ok a, p')
           | (Raise e, p') => handler e p'
           end.
(** [try: m finally: finalizer]: an exception of the finalizer replaces the
    outcome of [m]. *)
Definition finally_ {A} (m : L A) (finalizer : L unit) : L A :=
  fun p => match m p with
           | (r, p') =>
               match finalizer p' with
               | (Ok _, p'') => (r, p'')
               | (Raise e, p'') => (Raise e, p'')
               end
           end.

Notation "'do!' x := m 'in' k" := (and_then m (fun x => k))
  (at level 10, x name, m at level 100, k at level 200).

(** A method of the worker, run on the worker of the process. *)
Definition of_worker {A} (m : M A) : L A :=
  fun p => match m (worker p) with
           | (r, w') =>
               (r, mkProcess w' (_market p) (initialized p) (_can_run p) (_is_busy p)
                             (_refresh_timestamp p) (commands p))
           end.

Definition set_market (market : Market.t) : L unit :=
  fun p => (Ok tt, mkProcess (worker p) (Some market) (initialized p) (_can_run p)
                             (_is_busy p) (_refresh_timestamp p) (commands p)).
Definition set_initialized (b : bool) : L unit :=
  fun p => (Ok tt, mkProcess (worker p) (_market p) b (_can_run p)
                             (_is_busy p) (_refresh_timestamp p) (commands p)).
Definition set_can_run (b : bool) : L unit :=
  fun p => (Ok tt, mkProcess (worker p) (_market p) (initialized p) b
                             (_is_busy p) (_refresh_timestamp p) (commands p)).
Definition set_is_busy (b : bool) : L unit :=
  fun p => (Ok tt, mkProcess (worker p) (_market p) (initialized p) (_can_run p)
                             b (_refresh_timestamp p) (commands p)).
Definition set_refresh_timestamp (t : Z) : L unit :=
  fun p => (Ok tt, mkProcess (worker p) (_market p) (initialized p) (_can_run p)
                             (_is_busy p) t (commands p)).
Definition send (command : Command) : L unit :=
  fun p => (Ok tt, mkProcess (worker p) (_market p) (initialized p) (_can_run p)
                             (_is_busy p) (_refresh_timestamp p) (commands p ++ [command])).

(** Reading [self._market], which [initialize] assigns. *)
Definition get_market : L Market.t :=
  fun p => match _market p with
           | Some market => (Ok market, p)
           | None => (Raise AttributeError, p)
           end.

Section Methods.

Variable VWAP_THRESHOLD : Q.
Variable gateway : Gateway.
Variable venue : Venue.
Variable configuration : Configuration.t.
Variable switches : Switches.

Definition ignore (exception : exn) : L unit := of_worker (ignore_exception exception).

Definition _get_market : L Market.t := of_result (kujira_get_market venue).

(** [_cancel_all_orders] and [_market_withdraw]: the request names
    [self._market.id]. *)
Definition _cancel_all_orders : L unit :=
  do! _ := get_market in
  do! _ := send DeleteOrdersAll in
  of_result (kujira_delete_orders_all venue).

Definition _market_withdraw : L unit :=
  do! _ := get_market in
  do! _ := send PostMarketWithdraw in
  of_result (kujira_post_market_withdraw venue).

Definition exit : L unit := unit_ tt.

(** [initialize]; the two readings of the clock are inputs: [time.time()] in
    whole milliseconds, and [current_timestamp()] of [hummingbot.utils], a
    module that is missing from the sources, as a whole number. *)
Definition initialize (current_timestamp_in_milliseconds current_timestamp : Z) : L unit :=
  attempt
    (do! _ := set_initialized false in
     do! market := _get_market in
     do! _ := set_market market in
     do! _ := (if cancel_all_orders_on_start switches
               then attempt _cancel_all_orders ignore
               else unit_ tt) in
     do! _ := (if withdraw_market_on_start switches
               then attempt _market_withdraw ignore
               else unit_ tt) in
     do! waiting_time :=
       of_result (_calculate_waiting_time
                    (Strategy.tick_interval (Configuration.strategy configuration))
                    current_timestamp_in_milliseconds) in
     do! _ := set_refresh_timestamp (waiting_time + current_timestamp) in
     do! _ := set_initialized true in
     set_can_run true)
    (fun exception => do! _ := ignore exception in exit).

(** [stop] while no tick is in flight: [self._tasks.on_tick] is [None] then,
    and calling its [cancel] raises an attribute error. *)
Definition stop : L unit :=
  finally_
    (do! _ := set_can_run false in
     do! _ := attempt (of_result (Raise AttributeError)) ignore in
     do! _ := (if cancel_all_orders_on_stop switches
               then attempt _cancel_all_orders ignore
               else unit_ tt) in
     if withdraw_market_on_stop switches
     then attempt _market_withdraw ignore
     else unit_ tt)
    exit.

(** [on_tick] as a whole: the optional withdraw, the body of the tick and the
    finalizer that re-arms the refresh timestamp.  The requests of the body
    name [self._market.id]. *)
Definition on_tick (current_timestamp_in_milliseconds current_timestamp : Z) : L unit :=
  finally_
    (attempt
       (do! _ := set_is_busy true in
        do! _ := (if withdraw_market_on_tick switches
                  then attempt _market_withdraw ignore
                  else unit_ tt) in
        do! market := get_market in
        do! open_orders := of_worker (_get_open_orders gateway false) in
        do! _ := of_worker (_get_filled_orders gateway false) in
        do! _ := of_worker (_get_balances gateway false) in
        let open_orders_ids := map fst open_orders in
        do! _ := of_worker (_cancel_currently_untracked_orders gateway open_orders_ids) in
        do! proposed_orders :=
          of_worker (_create_proposal VWAP_THRESHOLD gateway configuration market) in
        do! candidate_orders :=
          of_worker (_adjust_proposal_to_budget gateway market proposed_orders) in
        do! _ := of_worker (_replace_orders gateway configuration market candidate_orders) in
        unit_ tt)
       ignore)
    (do! waiting_time :=
       of_result (_calculate_waiting_time
                    (Strategy.tick_interval (Configuration.strategy configuration))
                    current_timestamp_in_milliseconds) in
     do! _ := set_refresh_timestamp (waiting_time + current_timestamp) in
     do! _ := set_is_busy false in
     if run_only_once switches then exit else unit_ tt).

End Methods.

End Lifecycle.

(** ** Vocabulary of the further properties *)

(** The levels of a side at a given price. *)
Definition same_price (p : Q) (level : Level.t) : bool := Qeq_bool (Level.price level) p.

(** The traded value and the volume of a list of levels, summed from the left
    as [np.cumsum] does. *)
Definition total_value (book : list Level.t) : Q :=
  fold_left Qplus (map (fun level => (Level.amount level * Level.price level)%Q) book) 0%Q.
Definition total_amount (book : list Level.t) : Q :=
  fold_left Qplus (map Level.amount book) 0%Q.

(** An order is on a side; the amounts of the orders of a side, added up. *)
Definition on_side (side : OrderSide) (order : Order.t) : bool :=
  match side, Order.side order with
  | BUY, BUY | SELL, SELL => true
  | _, _ => false
  end.
Definition spent (side : OrderSide) (orders : list Order.t) : Q :=
  fold_right Qplus 0%Q (map Order.amount (List.filter (on_side side) orders)).

(** An event that is a log line, not a command sent to the venue. *)
Definition is_log (ev : Event) : Prop :=
  match ev with
  | PostOrders _ | DeleteOrders _ => False
  | _ => True
  end.

(** Between [w] and [w'] the worker appended [events] to its trace and kept
    its two tracking lists (it may have refreshed its caches). *)
Definition same_tracking (w w' : Worker) (events : list Event) : Prop :=
  _currently_tracked_orders_ids w' = _currently_tracked_orders_ids w
  /\ _tracked_orders_ids w' = _tracked_orders_ids w
  /\ trace w' = trace w ++ events.

(** Every currently tracked order is a tracked order. *)
Definition tracking_invariant (w : Worker) : Prop :=
  forall id, id ∈ _currently_tracked_orders_ids w -> id ∈ _tracked_orders_ids w.

(** What one tick leaves behind: the events it appended, split into the delete
    request of the stale orders, the log lines, and the placement request with
    the record of its failure; the tracking lists change only when the venue
    accepted the placement. *)
Definition tick_outcome (gateway : Gateway) (w w' : Worker)
    (deletes logs posts : list Event) : Prop :=
  trace w' = trace w ++ deletes ++ logs ++ posts
  /\ (deletes = [] \/ exists ids, ids <> [] /\ deletes = [DeleteOrders ids])
  /\ Forall is_log logs
  /\ ((posts = []
       /\ _currently_tracked_orders_ids w' = _currently_tracked_orders_ids w
       /\ _tracked_orders_ids w' = _tracked_orders_ids w)
      \/ (exists orders e,
            posts = [PostOrders orders; IgnoredException e]
            /\ orders <> []
            /\ kujira_post_orders gateway orders = Raise e
            /\ _currently_tracked_orders_ids w' = _currently_tracked_orders_ids w
            /\ _tracked_orders_ids w' = _tracked_orders_ids w)
      \/ (exists orders response,
            posts = [PostOrders orders]
            /\ orders <> []
            /\ kujira_post_orders gateway orders = Ok response
            /\ _currently_tracked_orders_ids w' = map fst response
            /\ _tracked_orders_ids w' = _tracked_orders_ids w ++ map fst response)).



(** ** Books on which a bid crosses *)

Module Crossing.

(** A market whose price increment is negative, a book of negative prices (bid
    -2, ask -1) and a layer whose bid sits at a spread of 50% with a liquidity
    of -100. *)
Definition market : Market.t :=
  Market.mk "KUJI-USK" (Token.mk "kuji" "KUJI") (Token.mk "usk" "USK") (-1) (1 # 10).
Definition book : OrderBook.t := OrderBook.mk [Level.mk (-2) 1] [Level.mk (-1) 1].
Definition layer : Layer.t := Layer.mk (LayerSide.mk 1 50 (-100)) (LayerSide.mk 1 10 100).



End Crossing.

(** * Properties *)

(** ** Decimal comparisons *)

Lemma Qltb_lt (x y : Q) : Qltb x y = true <-> (x < y)%Q.
Proof.
  unfold Qltb. rewrite negb_true_iff, <- not_true_iff_false, Qle_bool_iff.
  split; [apply Qnot_le_lt | apply Qlt_not_le].
Qed.

Lemma Qltb_ge (x y : Q) : Qltb x y = false <-> (y <= x)%Q.
Proof.
  unfold Qltb. rewrite negb_false_iff. apply Qle_bool_iff.
Qed.

Lemma Qeq_bool_true (x y : Q) : Qeq_bool x y = true <-> (x == y)%Q.
Proof. apply Qeq_bool_iff. Qed.

Lemma Qeq_bool_false (x y : Q) : Qeq_bool x y = false <-> ~ (x == y)%Q.
Proof. rewrite <- not_true_iff_false, Qeq_bool_iff. tauto. Qed.

Lemma Number_le_Le (a b : Number) : Number_le a b = true <-> Number_Le a b.
Proof.
  unfold Number_le, Number_lt, Number_Le.
  destruct a as [x | [|]], b as [y | [|]]; simpl;
    rewrite ?negb_true_iff, ?Qltb_ge; intuition congruence.
Qed.

Lemma Number_lt_false_Le (a b : Number) : Number_lt a b = false <-> Number_Le b a.
Proof.
  rewrite <- Number_le_Le. unfold Number_le. symmetry. apply negb_true_iff.
Qed.

(** ** Tick scheduling *)

(** C6: for a positive tick interval the waiting time is
    [interval - (now mod interval)]; it lies in (0, interval] and the wake-up
    falls on the grid; with an interval of 1000 and a time ending in 345 it is
    655. *)
Theorem waiting_time_aligns_to_grid (interval now : Z) :
  0 < interval ->
  _calculate_waiting_time interval now = Ok (interval - now mod interval)
  /\ 0 < interval - now mod interval <= interval
  /\ (now + (interval - now mod interval)) mod interval = 0
  /\ (interval = 1000 -> now mod 1000 = 345 ->
      _calculate_waiting_time interval now = Ok 655).
Proof.
  intros Hpos.
  assert (Hz : (interval =? 0) = false) by (apply Z.eqb_neq; lia).
  pose proof (Z.mod_pos_bound now interval Hpos) as Hbound.
  unfold _calculate_waiting_time. rewrite Hz.
  repeat split; try lia.
  - replace (now + (interval - now mod interval))
      with (now - now mod interval + 1 * interval) by ring.
    rewrite Z.mod_add by lia.
    rewrite (Z.div_mod now interval) at 1 by lia.
    replace (interval * (now / interval) + now mod interval - now mod interval)
      with ((now / interval) * interval) by ring.
    apply Z.mod_mul. lia.
  - intros -> Hmod. now rewrite Hmod.
Qed.

Lemma waiting_time_aligns_to_grid_witness :
  0 < 1000
  /\ _calculate_waiting_time 1000 1699999999345 = Ok 655.
Proof.
  split; [lia |].
  apply (waiting_time_aligns_to_grid 1000 1699999999345); [lia | reflexivity | reflexivity].
Defined.

(** ** The monad *)

Lemma bind_Ok {A B} (m : M A) (k : A -> M B) w b w' :
  bind m k w = (Ok b, w') ->
  exists a w1, m w = (Ok a, w1) /\ k a w1 = (Ok b, w').
Proof.
  unfold bind. destruct (m w) as [[a | e] w1]; [eauto | discriminate].
Qed.

Lemma bind_step {A B} (m : M A) (k : A -> M B) w a w1 :
  m w = (Ok a, w1) -> bind m k w = k a w1.
Proof. unfold bind. now intros ->. Qed.

Lemma bind_raise {A B} (m : M A) (k : A -> M B) w e w1 :
  m w = (Raise e, w1) -> bind m k w = (Raise e, w1).
Proof. unfold bind. now intros ->. Qed.

Lemma lift_Ok {A} (r : result A) w a w' :
  lift r w = (Ok a, w') -> r = Ok a /\ w' = w.
Proof. unfold lift. intros [= -> ->]. auto. Qed.

(** A sequence that returned: its first computation returned [a] in the state
    [w], and [H] becomes the run of the rest. *)
Tactic Notation "inv_bind" hyp(H) "as" ident(a) ident(w) ident(Ha) :=
  apply bind_Ok in H as (a & w & Ha & H).

(** ** Budget adjuster *)

Lemma Affords_deterministic free_base free_quote proposal out1 :
  Affords free_base free_quote proposal out1 ->
  forall out2, Affords free_base free_quote proposal out2 -> out1 = out2.
Proof.
  induction 1; intros out2 H2; inversion H2; subst;
    try reflexivity; try congruence; try contradiction; auto.
  all: f_equal; auto.
Qed.

Lemma adjust_order_walk proposal :
  forall free_base free_quote adjusted,
  exists out,
    snd (fold_left adjust_order proposal (free_base, free_quote, adjusted)) = adjusted ++ out
    /\ Affords free_base free_quote proposal out.
Proof.
  induction proposal as [| order rest IH]; intros free_base free_quote adjusted; simpl.
  - exists []. split; [now rewrite app_nil_r | constructor].
  - destruct (Order.side order) eqn:Hside.
    + destruct (Qltb (Order.amount order) free_quote) eqn:Hcmp.
      * destruct (IH free_base (free_quote - Order.amount order)%Q (adjusted ++ [order]))
          as (out & Heq & Hadm).
        exists (order :: out). split.
        -- rewrite Heq, <- app_assoc. reflexivity.
        -- apply Affords_buy; [assumption | now apply Qltb_lt | assumption].
      * destruct (IH free_base free_quote adjusted) as (out & Heq & Hadm).
        exists out. split; [assumption |].
        apply Affords_buy_skip; [assumption | | assumption].
        rewrite <- Qltb_lt. congruence.
    + destruct (Qltb (Order.amount order) free_base) eqn:Hcmp.
      * destruct (IH (free_base - Order.amount order)%Q free_quote (adjusted ++ [order]))
          as (out & Heq & Hadm).
        exists (order :: out). split.
        -- rewrite Heq, <- app_assoc. reflexivity.
        -- apply Affords_sell; [assumption | now apply Qltb_lt | assumption].
      * destruct (IH free_base free_quote adjusted) as (out & Heq & Hadm).
        exists out. split; [assumption |].
        apply Affords_sell_skip; [assumption | | assumption].
        rewrite <- Qltb_lt. congruence.
Qed.

Lemma adjust_walk_Affords free_base free_quote proposal :
  Affords free_base free_quote proposal (adjust_walk free_base free_quote proposal).
Proof.
  unfold adjust_walk.
  destruct (adjust_order_walk proposal free_base free_quote []) as (out & -> & Hadm).
  exact Hadm.
Qed.

(** C4: with the free balances of the cached balances, the budget adjuster
    returns without error the proposal filtered by the budget rule (BUY against
    the free quote balance, SELL against the free base balance, strictly, each
    kept amount decrementing its balance, in input order), and leaves the
    worker as it was; for [BUY 5@9, BUY 5@8, SELL 3@12] with free quote 7 and
    free base 4 it returns [BUY 5@9, SELL 3@12]. *)
Theorem budget_adjuster_follows_rule
    (gateway : Gateway) (market : Market.t) (w : Worker) (balances : Balances.t)
    (free_base free_quote : Q) (proposal : list Order.t) :
  _balances w = Some balances ->
  Balances.tokens balances !! Token.id (Market.baseToken market) = Some free_base ->
  Balances.tokens balances !! Token.id (Market.quoteToken market) = Some free_quote ->
  exists out,
    _adjust_proposal_to_budget gateway market proposal w = (Ok out, w)
    /\ Affords free_base free_quote proposal out
    /\ (forall out', Affords free_base free_quote proposal out' -> out' = out)
    /\ (forall c1 c2 c3 m t,
          free_base = 4%Q -> free_quote = 7%Q ->
          proposal = [Order.mk c1 m t BUY 5 (Fin 9); Order.mk c2 m t BUY 5 (Fin 8);
                      Order.mk c3 m t SELL 3 (Fin 12)] ->
          out = [Order.mk c1 m t BUY 5 (Fin 9); Order.mk c3 m t SELL 3 (Fin 12)]).
Proof.
  intros Hcache Hbase Hquote.
  exists (adjust_walk free_base free_quote proposal).
  split; [| split; [| split]].
  - unfold _adjust_proposal_to_budget, _get_balances, bind, get, ret, lift, free_balance.
    rewrite Hcache. simpl. rewrite Hbase, Hquote. reflexivity.
  - apply adjust_walk_Affords.
  - intros out' Hadm. symmetry.
    eapply Affords_deterministic; [apply adjust_walk_Affords | exact Hadm].
  - intros c1 c2 c3 m t -> -> ->. reflexivity.
Qed.

Lemma budget_adjuster_follows_rule_witness :
  exists out,
    _adjust_proposal_to_budget Scenario.down_gateway Scenario.market Scenario.proposal_S4
                               Scenario.funded_worker
    = (Ok out, Scenario.funded_worker)
    /\ out = [Order.mk "1" "KUJI-USK" LIMIT BUY 5 (Fin 9);
              Order.mk "3" "KUJI-USK" LIMIT SELL 3 (Fin 12)].
Proof.
  edestruct (budget_adjuster_follows_rule
               Scenario.down_gateway Scenario.market Scenario.funded_worker
               (Balances.mk (<["kuji"%string := 4%Q]> (<["usk"%string := 7%Q]> ∅))) 4%Q 7%Q
               Scenario.proposal_S4)
    as (out & Hrun & _ & _ & Hexample);
    [reflexivity | vm_compute; reflexivity | vm_compute; reflexivity |].
  exists out. split; [exact Hrun |].
  apply (Hexample "1" "2" "3" "KUJI-USK" LIMIT)%string; reflexivity.
Defined.

(** ** Order reconciler *)

(** C1: the ids submitted for cancellation are exactly the ids that are
    tracked and open but not currently tracked; they are disjoint from the
    currently tracked ids and contain no id that was never tracked; when there
    is none, no delete request is issued and the worker is unchanged. *)
Theorem cancel_untracked_submits_stale_ids
    (gateway : Gateway) (open_orders_ids : list string) (w : Worker) :
  let to_cancel : gset string :=
    (list_to_set (_tracked_orders_ids w) ∩ list_to_set open_orders_ids)
      ∖ list_to_set (_currently_tracked_orders_ids w) in
  (to_cancel = ∅ /\
   _cancel_currently_untracked_orders gateway open_orders_ids w = (Ok [], w))
  \/
  (to_cancel <> ∅ /\
   exists ids w',
     _cancel_currently_untracked_orders gateway open_orders_ids w
       = (kujira_delete_orders gateway ids, w')
     /\ appended w w' [DeleteOrders ids]
     /\ _tracked_orders_ids w' = _tracked_orders_ids w
     /\ _currently_tracked_orders_ids w' = _currently_tracked_orders_ids w
     /\ NoDup ids
     /\ list_to_set ids = to_cancel
     /\ (forall id, id ∈ ids <->
            id ∈ _tracked_orders_ids w /\ id ∈ open_orders_ids
            /\ id ∉ _currently_tracked_orders_ids w)
     /\ (forall id, id ∈ ids -> id ∉ _currently_tracked_orders_ids w)
     /\ (forall id, id ∉ _tracked_orders_ids w -> id ∉ ids)).
Proof.
  intros to_cancel.
  assert (Hmem : forall id, id ∈ elements to_cancel <->
            id ∈ _tracked_orders_ids w /\ id ∈ open_orders_ids
            /\ id ∉ _currently_tracked_orders_ids w).
  { intros id. rewrite elem_of_elements. unfold to_cancel.
    rewrite elem_of_difference, elem_of_intersection, !elem_of_list_to_set. tauto. }
  unfold _cancel_currently_untracked_orders, bind, get. fold to_cancel.
  destruct (elements to_cancel) as [| id0 ids0] eqn:Hel.
  - left. split; [| reflexivity].
    now apply elements_empty_inv in Hel; apply leibniz_equiv in Hel.
  - right. split.
    + intros Hempty. rewrite Hempty, elements_empty in Hel. discriminate.
    + exists (id0 :: ids0), (mkWorker (_currently_tracked_orders_ids w) (_tracked_orders_ids w)
               (_balances w) (_open_orders w) (_filled_orders w)
               (trace w ++ [DeleteOrders (id0 :: ids0)])).
      split; [reflexivity |].
      split; [reflexivity |].
      split; [reflexivity |].
      split; [reflexivity |].
      split; [rewrite <- Hel; apply NoDup_elements |].
      split; [rewrite <- Hel; apply list_to_set_elements_L |].
      split; [exact Hmem |].
      split; intros id; rewrite Hmem; tauto.
Qed.

(** Scenario S5: tracked {A, B, C}, currently tracked {B}, open {A, B, D}:
    the request carries A only. *)
Example cancel_untracked_S5 (gateway : Gateway) :
  exists w',
    _cancel_currently_untracked_orders gateway ["A"; "B"; "D"]
      (mkWorker ["B"] ["A"; "B"; "C"] None None None [])
    = (kujira_delete_orders gateway ["A"], w')
    /\ trace w' = [DeleteOrders ["A"]].
Proof.
  eexists. split; [vm_compute; reflexivity | reflexivity].
Qed.

Lemma cancel_untracked_submits_stale_ids_witness :
  exists ids w',
    _cancel_currently_untracked_orders (Scenario.gateway Scenario.book) ["A"; "B"; "D"]
      (mkWorker ["B"] ["A"; "B"; "C"] None None None [])
    = (kujira_delete_orders (Scenario.gateway Scenario.book) ids, w')
    /\ trace w' = [DeleteOrders ids]
    /\ (forall id, id ∈ ids <-> id = "A"%string).
Proof.
  destruct (cancel_untracked_submits_stale_ids
              (Scenario.gateway Scenario.book) ["A"; "B"; "D"]
              (mkWorker ["B"] ["A"; "B"; "C"] None None None []))
    as [[Hempty _] | (_ & ids & w' & Hrun & Htrace & _ & _ & _ & _ & Hmem & _)].
  - exfalso. vm_compute in Hempty. discriminate.
  - exists ids, w'. split; [exact Hrun |]. split; [exact Htrace |].
    intros id. rewrite Hmem. cbn [_tracked_orders_ids _currently_tracked_orders_ids].
    rewrite !elem_of_cons, !elem_of_nil. split.
    + intros (Htracked & Hopen & Hcur).
      destruct Htracked as [-> | [-> | [-> | []]]]; [reflexivity | tauto |].
      destruct Hopen as [H | [H | [H | []]]]; discriminate.
    + intros ->. split; [now left |]. split; [now left |].
      intros [H | []]. discriminate.
Defined.

(** C8: on an empty proposal no order is posted and the tracking lists keep
    their values; on a non-empty proposal whose placement succeeds, the
    currently tracked ids become the keys of the response, these keys are
    appended to the tracked ids, and every currently tracked id is tracked. *)
Theorem replace_orders_updates_tracking
    (gateway : Gateway) (configuration : Configuration.t) (market : Market.t)
    (proposal : list Order.t) (w : Worker) :
  (proposal = [] ->
   exists w',
     _replace_orders gateway configuration market proposal w = (Ok [], w')
     /\ appended w w' [WarnNoOrder]
     /\ _currently_tracked_orders_ids w' = _currently_tracked_orders_ids w
     /\ _tracked_orders_ids w' = _tracked_orders_ids w)
  /\
  (proposal <> [] ->
   forall response,
     kujira_post_orders gateway (map (wire_order configuration market) proposal) = Ok response ->
     exists w',
       _replace_orders gateway configuration market proposal w = (Ok response, w')
       /\ appended w w' [PostOrders (map (wire_order configuration market) proposal)]
       /\ _currently_tracked_orders_ids w' = map fst response
       /\ _tracked_orders_ids w' = _tracked_orders_ids w ++ map fst response
       /\ (forall id, id ∈ _currently_tracked_orders_ids w' -> id ∈ _tracked_orders_ids w')).
Proof.
  split.
  - intros ->. eexists. split; [reflexivity |]. repeat split.
  - intros Hne response Hpost.
    destruct proposal as [| candidate rest]; [congruence |].
    unfold _replace_orders. cbn [map].
    cbn [map] in Hpost.
    unfold bind, emit, lift, get, set_tracked, ret. rewrite Hpost. cbn.
    eexists. split; [reflexivity |].
    split; [reflexivity |].
    split; [reflexivity |].
    split; [reflexivity |].
    intros id Hid. cbn in *. apply elem_of_app. now right.
Qed.

Lemma replace_orders_updates_tracking_witness :
  exists w',
    _replace_orders (Scenario.gateway Scenario.book)
      (Scenario.configuration None None []) Scenario.market
      [Order.mk "7" "KUJI-USK" LIMIT BUY 5 (Fin 9)]
      (mkWorker ["5"] ["4"; "5"] None None None [])
    = (Ok [("7"%string, VenueOrder.mk "7" "7" 0)], w')
    /\ _currently_tracked_orders_ids w' = ["7"]%string
    /\ _tracked_orders_ids w' = ["4"; "5"; "7"]%string.
Proof.
  destruct (replace_orders_updates_tracking
              (Scenario.gateway Scenario.book)
              (Scenario.configuration None None []) Scenario.market
              [Order.mk "7" "KUJI-USK" LIMIT BUY 5 (Fin 9)]
              (mkWorker ["5"] ["4"; "5"] None None None []))
    as [_ Hplaced].
  destruct (Hplaced ltac:(discriminate) [("7"%string, VenueOrder.mk "7" "7" 0)] eq_refl)
    as (w' & Hrun & _ & Hcur & Htracked & _).
  exists w'. split; [exact Hrun |]. split; [exact Hcur | exact Htracked].
Defined.

(** ** Sorting *)

Section Sorting.

Context {A : Type} (leb : A -> A -> bool).
Hypothesis leb_total : forall a b, leb a b = true \/ leb b a = true.
Hypothesis leb_trans : forall a b c, leb a b = true -> leb b c = true -> leb a c = true.

Lemma insert_sorted_perm x l : Permutation (insert_sorted leb x l) (x :: l).
Proof.
  induction l as [| y l IH]; simpl; [reflexivity |].
  destruct (leb x y); [reflexivity |].
  rewrite IH. apply perm_swap.
Qed.

Lemma sort_by_perm l : Permutation (sort_by leb l) l.
Proof.
  induction l as [| x l IH]; simpl; [reflexivity |].
  rewrite insert_sorted_perm. now apply perm_skip.
Qed.

Lemma insert_sorted_sorted x l :
  StronglySorted (fun a b => leb a b = true) l ->
  StronglySorted (fun a b => leb a b = true) (insert_sorted leb x l).
Proof.
  induction 1 as [| y l Hsorted IH Hall]; simpl.
  - repeat constructor.
  - destruct (leb x y) eqn:Hxy.
    + constructor; [now constructor |].
      constructor; [assumption |].
      eapply List.Forall_impl; [| exact Hall]. intros z Hyz. eauto.
    + constructor; [assumption |].
      assert (Hyx : leb y x = true).
      { destruct (leb_total x y); congruence. }
      rewrite (List.Forall_forall (fun b => leb y b = true)).
      intros z Hz.
      apply (Permutation_in _ (insert_sorted_perm x l)) in Hz.
      destruct Hz as [<- | Hz]; [assumption |].
      rewrite List.Forall_forall in Hall. now apply Hall.
Qed.

Lemma sort_by_sorted l : StronglySorted (fun a b => leb a b = true) (sort_by leb l).
Proof.
  induction l as [| x l IH]; simpl; [constructor |].
  now apply insert_sorted_sorted.
Qed.

(** In a sorted list every element is below the last one. *)
Lemma sorted_below_last l d :
  StronglySorted (fun a b => leb a b = true) l ->
  forall x, In x l -> leb x (List.last l d) = true.
Proof.
  induction 1 as [| y l Hsorted IH Hall]; intros x Hx; [destruct Hx |].
  destruct l as [| z l'].
  - destruct Hx as [<- | []]. simpl. destruct (leb_total y y); assumption.
  - change (List.last (y :: z :: l') d) with (List.last (z :: l') d).
    destruct Hx as [<- | Hx]; [| now apply IH].
    rewrite List.Forall_forall in Hall. apply Hall.
    destruct (@exists_last _ (z :: l') ltac:(discriminate)) as (l0 & a & ->).
    rewrite last_last. apply in_or_app. right. now left.
Qed.

End Sorting.

Lemma In_removelast {A} (l : list A) x : In x (removelast l) -> In x l.
Proof.
  induction l as [| y l IH]; simpl; [tauto |].
  destruct l as [| z l']; [tauto |].
  intros [-> | Hx]; [now left | right; now apply IH].
Qed.

(** Without repetition, all but the last are the members other than the last. *)
Lemma In_removelast_NoDup {A} (l : list A) d x :
  NoDup l -> l <> [] ->
  (In x (removelast l) <-> In x l /\ x <> List.last l d).
Proof.
  intros Hnd Hne.
  destruct (@exists_last _ l Hne) as (l0 & a & ->).
  rewrite removelast_last, last_last.
  apply NoDup_app in Hnd as (_ & Hdisj & _).
  rewrite in_app_iff. simpl. split.
  - intros Hx. split; [now left |].
    intros ->. apply (Hdisj a); [now apply list_elem_of_In | now left].
  - intros [[Hx | [<- | []]] Hneq]; [assumption | congruence].
Qed.

Lemma string_leb_trans (s1 s2 s3 : string) :
  String.leb s1 s2 = true -> String.leb s2 s3 = true -> String.leb s1 s3 = true.
Proof.
  unfold String.leb. revert s2 s3.
  induction s1 as [| c1 s1 IH]; intros [| c2 s2] [| c3 s3]; simpl; try congruence.
  unfold Ascii.compare.
  destruct (N.compare_spec (Ascii.N_of_ascii c1) (Ascii.N_of_ascii c2)) as [E12 | L12 | G12];
    destruct (N.compare_spec (Ascii.N_of_ascii c2) (Ascii.N_of_ascii c3)) as [E23 | L23 | G23];
    destruct (N.compare_spec (Ascii.N_of_ascii c1) (Ascii.N_of_ascii c3)) as [E13 | L13 | G13];
    try congruence; try lia.
  apply IH.
Qed.

(** ** Duplicate scan *)

Lemma group_append_keys order m client_id :
  In client_id (map fst (group_append order m)) <->
  client_id = VenueOrder.clientId order \/ In client_id (map fst m).
Proof.
  induction m as [| [k orders] rest IH]; simpl.
  - intuition.
  - destruct (String.eqb k (VenueOrder.clientId order)) eqn:Hk; simpl.
    + apply String.eqb_eq in Hk. subst k. intuition.
    + rewrite IH. intuition.
Qed.

Lemma group_append_NoDup order m :
  NoDup (map fst m) -> NoDup (map fst (group_append order m)).
Proof.
  induction m as [| [k orders] rest IH]; simpl; intros Hnd.
  - repeat constructor. intros H. inversion H.
  - apply NoDup_cons in Hnd as [Hk Hrest].
    destruct (String.eqb k (VenueOrder.clientId order)) eqn:Heq; simpl.
    + apply NoDup_cons. split; assumption.
    + apply NoDup_cons. split; [| now apply IH].
      rewrite list_elem_of_In, group_append_keys.
      apply String.eqb_neq in Heq.
      rewrite list_elem_of_In in Hk. intuition.
Qed.

Lemma group_append_In order m client_id orders :
  NoDup (map fst m) ->
  In (client_id, orders) (group_append order m) ->
  (In (client_id, orders) m /\ client_id <> VenueOrder.clientId order)
  \/ (client_id = VenueOrder.clientId order
      /\ ((exists before, In (client_id, before) m /\ orders = before ++ [order])
          \/ (~ In client_id (map fst m) /\ orders = [order]))).
Proof.
  induction m as [| [k ks] rest IH]; simpl; intros Hnd Hin.
  - destruct Hin as [[= <- <-] | []]. right. intuition.
  - apply NoDup_cons in Hnd as [Hk Hrest]. rewrite list_elem_of_In in Hk.
    destruct (String.eqb k (VenueOrder.clientId order)) eqn:Heq.
    + apply String.eqb_eq in Heq. subst k.
      destruct Hin as [[= <- <-] | Hin].
      * right. split; [reflexivity |]. left. exists ks. intuition.
      * left. split; [now right |].
        intros ->. apply Hk. apply in_map_iff. now exists (VenueOrder.clientId order, orders).
    + apply String.eqb_neq in Heq.
      destruct Hin as [[= <- <-] | Hin].
      * left. split; [now left | assumption].
      * destruct (IH Hrest Hin) as [[Hm Hne] | [-> [(before & Hb & ->) | [Hnot ->]]]].
        -- left. split; [now right | assumption].
        -- right. split; [reflexivity |]. left. exists before. split; [now right | reflexivity].
        -- right. split; [reflexivity |]. right. split; [| reflexivity].
           intros [Hhead | Htail]; [congruence | contradiction].
Qed.

Lemma group_of_app client_id l1 l2 :
  group_of client_id (l1 ++ l2) = group_of client_id l1 ++ group_of client_id l2.
Proof. apply List.filter_app. Qed.

Lemma group_of_In client_id orders order :
  In order (group_of client_id orders) <->
  In order orders /\ VenueOrder.clientId order = client_id.
Proof. unfold group_of. rewrite List.filter_In, String.eqb_eq. reflexivity. Qed.

Lemma group_order_inv m processed order :
  groups_inv m processed -> groups_inv (group_order m order) (processed ++ [order]).
Proof.
  intros (Hnd & Hgroups & Hkeys). unfold group_order.
  destruct (String.eqb (VenueOrder.clientId order) "0") eqn:Hmanual.
  - apply String.eqb_eq in Hmanual.
    split; [assumption |]. split.
    + intros c os Hin. destruct (Hgroups c os Hin) as (Hc & Hos & Heq).
      split; [assumption |]. split; [assumption |].
      rewrite group_of_app. simpl.
      replace (String.eqb (VenueOrder.clientId order) c) with false.
      * now rewrite app_nil_r.
      * symmetry. apply String.eqb_neq. congruence.
    + intros o Hin Ho. apply in_app_iff in Hin as [Hin | [<- | []]]; [auto | contradiction].
  - apply String.eqb_neq in Hmanual.
    split; [now apply group_append_NoDup |]. split.
    + intros c os Hin.
      destruct (group_append_In _ _ _ _ Hnd Hin)
        as [[Hm Hne] | [-> [(before & Hb & ->) | [Hnot ->]]]].
      * destruct (Hgroups c os Hm) as (Hc & Hos & Heq).
        split; [assumption |]. split; [assumption |].
        rewrite group_of_app. simpl.
        replace (String.eqb (VenueOrder.clientId order) c) with false.
        -- now rewrite app_nil_r.
        -- symmetry. apply String.eqb_neq. congruence.
      * destruct (Hgroups _ _ Hb) as (Hc & Hos & Heq).
        split; [assumption |]. split; [now destruct before |].
        rewrite group_of_app. simpl. rewrite String.eqb_refl. now rewrite <- Heq.
      * split; [assumption |]. split; [discriminate |].
        rewrite group_of_app. simpl. rewrite String.eqb_refl.
        destruct (group_of (VenueOrder.clientId order) processed) as [| o os] eqn:Hg;
          [reflexivity |].
        exfalso. apply Hnot.
        assert (Ho : In o (group_of (VenueOrder.clientId order) processed))
          by (rewrite Hg; now left).
        apply group_of_In in Ho as [Ho Hc]. rewrite <- Hc. apply Hkeys; congruence.
    + intros o Hin Ho. apply group_append_keys.
      apply in_app_iff in Hin as [Hin | [<- | []]]; auto.
Qed.

Lemma fold_group_order_inv orders :
  forall m processed,
    groups_inv m processed ->
    groups_inv (fold_left group_order orders m) (processed ++ orders).
Proof.
  induction orders as [| order rest IH]; intros m processed Hinv; simpl.
  - now rewrite app_nil_r.
  - replace (processed ++ order :: rest) with ((processed ++ [order]) ++ rest)
      by now rewrite <- app_assoc.
    apply IH. now apply group_order_inv.
Qed.

Lemma groups_inv_nil : groups_inv [] [].
Proof.
  split; [constructor |]. split; [intros ? ? [] | intros ? []].
Qed.

Lemma fold_left_app_concat {A B} (f : A -> list B) (l : list A) :
  forall acc, fold_left (fun acc x => acc ++ f x) l acc = acc ++ concat (map f l).
Proof.
  induction l as [| x l IH]; intros acc; simpl.
  - now rewrite app_nil_r.
  - rewrite IH. now rewrite app_assoc.
Qed.

Lemma NoDup_map_injective {A B} (f : A -> B) (l : list A) x y :
  NoDup (map f l) -> In x l -> In y l -> f x = f y -> x = y.
Proof.
  induction l as [| z l IH]; simpl; intros Hnd Hx Hy Hf; [contradiction |].
  apply NoDup_cons in Hnd as [Hz Hl]. rewrite list_elem_of_In in Hz.
  destruct Hx as [-> | Hx], Hy as [-> | Hy]; auto.
  - exfalso. apply Hz. rewrite Hf. now apply in_map.
  - exfalso. apply Hz. rewrite <- Hf. now apply in_map.
Qed.

Lemma NoDup_of_map {A B} (f : A -> B) (l : list A) : NoDup (map f l) -> NoDup l.
Proof.
  induction l as [| z l IH]; simpl; intros Hnd; [constructor |].
  apply NoDup_cons in Hnd as [Hz Hl]. apply NoDup_cons. split; [| auto].
  intros Hin. apply Hz. apply list_elem_of_In, in_map. now apply list_elem_of_In.
Qed.

Lemma duplicated_orders_ids_spec (orders : list VenueOrder.t) (x : string) :
  NoDup (map VenueOrder.id orders) ->
  (In x (duplicated_orders_ids_of orders) <->
   exists order, In order orders /\ VenueOrder.id order = x /\ is_duplicate orders order).
Proof.
  intros Hnd.
  pose proof (fold_group_order_inv orders [] [] groups_inv_nil) as (Hkeys_nd & Hgroups & Hkeys).
  simpl in Hgroups, Hkeys.
  set (leb := fun a b : VenueOrder.t => String.leb (VenueOrder.id a) (VenueOrder.id b)).
  assert (Htotal : forall a b, leb a b = true \/ leb b a = true)
    by (intros; apply String.leb_total).
  assert (Htrans : forall a b c, leb a b = true -> leb b c = true -> leb a c = true)
    by (intros a b c; apply string_leb_trans).
  assert (Hsorted_nd : forall client_id, NoDup (sort_by leb (group_of client_id orders))).
  { intros c. apply NoDup_ListNoDup.
    eapply Permutation_NoDup; [symmetry; apply sort_by_perm |].
    apply List.NoDup_filter, NoDup_ListNoDup. eapply NoDup_of_map, Hnd. }
  unfold duplicated_orders_ids_of. rewrite fold_left_app_concat. simpl.
  rewrite in_concat. split.
  - intros (ids & Hids & Hx).
    apply in_map_iff in Hids as (os & <- & Hos).
    apply in_map_iff in Hos as ([c os'] & Heq & Hin). simpl in Heq. subst os'.
    destruct (Hgroups c os Hin) as (Hc & Hne & ->).
    unfold all_but_last_by_id in Hx. fold leb in Hx.
    apply in_map_iff in Hx as (order & <- & Horder).
    assert (Hsne : sort_by leb (group_of c orders) <> []).
    { intros Hs. pose proof (sort_by_perm leb (group_of c orders)) as Hp.
      rewrite Hs in Hp. apply Permutation_nil in Hp. contradiction. }
    apply (In_removelast_NoDup _ order order (Hsorted_nd c) Hsne) in Horder as [Hmem Hlast].
    set (greatest := List.last (sort_by leb (group_of c orders)) order) in *.
    assert (Hgreatest : In greatest (sort_by leb (group_of c orders))).
    { unfold greatest.
      destruct (@exists_last _ _ Hsne) as (l0 & a & Hl). rewrite Hl, last_last.
      apply in_or_app. right. now left. }
    pose proof (sorted_below_last leb Htotal _ order (sort_by_sorted leb Htotal Htrans _)
                  order Hmem) as Hle.
    fold greatest in Hle.
    apply (Permutation_in _ (sort_by_perm leb _)), group_of_In in Hmem as [Hmem Hcid].
    apply (Permutation_in _ (sort_by_perm leb _)), group_of_In in Hgreatest as [Hg Hgcid].
    exists order. split; [assumption |]. split; [reflexivity |].
    split; [congruence |].
    exists greatest. split; [assumption |]. split; [congruence |]. split; [| exact Hle].
    intros Hid. apply Hlast. symmetry.
    eapply NoDup_map_injective; eauto.
  - intros (order & Hin & <- & Hmanual & other & Hother & Hcid & Hid & Hle).
    pose proof (Hkeys order Hin Hmanual) as Hkey.
    apply in_map_iff in Hkey as ([c os] & Hc & Hentry). simpl in Hc. subst c.
    destruct (Hgroups _ _ Hentry) as (_ & Hne & ->).
    exists (all_but_last_by_id (group_of (VenueOrder.clientId order) orders)).
    split.
    + apply in_map_iff. exists (group_of (VenueOrder.clientId order) orders).
      split; [reflexivity |].
      apply in_map_iff. now exists (VenueOrder.clientId order,
                                     group_of (VenueOrder.clientId order) orders).
    + unfold all_but_last_by_id. fold leb. apply in_map.
      assert (Hmem : In order (sort_by leb (group_of (VenueOrder.clientId order) orders))).
      { apply (Permutation_in _ (Permutation_sym (sort_by_perm leb _))).
        apply group_of_In. auto. }
      assert (Hsne : sort_by leb (group_of (VenueOrder.clientId order) orders) <> [])
        by (intros Hs; rewrite Hs in Hmem; destruct Hmem).
      apply (In_removelast_NoDup _ order order (Hsorted_nd _) Hsne).
      split; [assumption |]. intros Hlast.
      assert (Hothermem : In other (sort_by leb (group_of (VenueOrder.clientId order) orders))).
      { apply (Permutation_in _ (Permutation_sym (sort_by_perm leb _))).
        apply group_of_In. auto. }
      pose proof (sorted_below_last leb Htotal _ order (sort_by_sorted leb Htotal Htrans _)
                    other Hothermem) as Hle'.
      rewrite <- Hlast in Hle'. apply Hid.
      now apply String.leb_antisym.
Qed.

(** C9: the duplicate scan returns exactly the ids of the open orders that are
    not manual (client id other than "0") and are not the greatest-id order of
    their client id; hence no order with client id "0" is in its output, and
    for each other client id with an open order exactly one order, the one with
    the greatest venue id, is retained. *)
Theorem duplicate_scan_keeps_greatest
    (gateway : Gateway) (w : Worker) (open_orders : list (string * VenueOrder.t)) :
  _open_orders w = Some open_orders ->
  NoDup (map VenueOrder.id (map snd open_orders)) ->
  exists ids,
    _get_duplicated_orders_ids gateway w = (Ok ids, w)
    /\ (forall id, id ∈ ids <->
          exists order, order ∈ map snd open_orders /\ VenueOrder.id order = id
                        /\ is_duplicate (map snd open_orders) order)
    /\ (forall order, order ∈ map snd open_orders ->
          VenueOrder.clientId order = "0"%string -> VenueOrder.id order ∉ ids)
    /\ (forall client_id, client_id <> "0"%string ->
          (exists order, order ∈ map snd open_orders /\ VenueOrder.clientId order = client_id) ->
          exists kept,
            kept ∈ map snd open_orders
            /\ VenueOrder.clientId kept = client_id
            /\ (VenueOrder.id kept ∉ ids)
            /\ (forall order, order ∈ map snd open_orders ->
                  VenueOrder.clientId order = client_id ->
                  String.leb (VenueOrder.id order) (VenueOrder.id kept) = true)
            /\ (forall order, order ∈ map snd open_orders ->
                  VenueOrder.clientId order = client_id ->
                  order <> kept -> VenueOrder.id order ∈ ids)).
Proof.
  intros Hcache Hnd.
  set (orders := map snd open_orders) in *.
  exists (duplicated_orders_ids_of orders).
  assert (Hspec : forall id, id ∈ duplicated_orders_ids_of orders <->
            exists order, order ∈ orders /\ VenueOrder.id order = id
                          /\ is_duplicate orders order).
  { intros id. rewrite list_elem_of_In, (duplicated_orders_ids_spec orders id Hnd).
    split; intros (order & Hin & Hrest); exists order;
      (split; [now apply list_elem_of_In | exact Hrest]). }
  split; [| split; [exact Hspec | split]].
  - unfold _get_duplicated_orders_ids, _get_open_orders, bind, get, ret.
    rewrite Hcache. reflexivity.
  - intros order Hin Hmanual Hout.
    apply Hspec in Hout as (order' & Hin' & Hid & Hdup & _).
    apply list_elem_of_In in Hin, Hin'.
    assert (order' = order) by (eapply NoDup_map_injective; eauto).
    subst order'. contradiction.
  - intros client_id Hclient (order0 & Hin0 & Hcid0).
    apply list_elem_of_In in Hin0.
    set (leb := fun a b : VenueOrder.t => String.leb (VenueOrder.id a) (VenueOrder.id b)).
    assert (Htotal : forall a b, leb a b = true \/ leb b a = true)
      by (intros; apply String.leb_total).
    assert (Htrans : forall a b c, leb a b = true -> leb b c = true -> leb a c = true)
      by (intros a b c; apply string_leb_trans).
    set (sorted := sort_by leb (group_of client_id orders)).
    assert (Hmember : forall order, In order sorted <->
              In order orders /\ VenueOrder.clientId order = client_id).
    { intros order. rewrite <- group_of_In. unfold sorted. split.
      - apply Permutation_in, sort_by_perm.
      - apply Permutation_in, Permutation_sym, sort_by_perm. }
    assert (Hsne : sorted <> []).
    { intros Hs. assert (Hin : In order0 sorted) by (apply Hmember; auto).
      rewrite Hs in Hin. destruct Hin. }
    set (kept := List.last sorted order0).
    assert (Hkept : In kept sorted).
    { unfold kept. destruct (@exists_last _ _ Hsne) as (l0 & a & ->).
      rewrite last_last. apply in_or_app. right. now left. }
    assert (Hgreatest : forall order, In order orders ->
              VenueOrder.clientId order = client_id ->
              String.leb (VenueOrder.id order) (VenueOrder.id kept) = true).
    { intros order Hin Hcid.
      apply (sorted_below_last leb Htotal sorted order0
               (sort_by_sorted leb Htotal Htrans _) order).
      apply Hmember. auto. }
    apply Hmember in Hkept as [Hkept_in Hkept_cid].
    exists kept. split; [now apply list_elem_of_In |]. split; [assumption |].
    split; [| split].
    + intros Hout.
      apply Hspec in Hout as (order' & Hin' & Hid & _ & other & Hother & Hcid & Hne & Hle).
      apply list_elem_of_In in Hin'.
      assert (order' = kept) by (eapply NoDup_map_injective; eauto).
      subst order'. apply Hne.
      apply String.leb_antisym; [| assumption].
      apply Hgreatest; [assumption | congruence].
    + intros order Hin Hcid. apply Hgreatest; [now apply list_elem_of_In | assumption].
    + intros order Hin Hcid Hne. apply Hspec.
      exists order. split; [assumption |]. split; [reflexivity |].
      split; [congruence |].
      apply list_elem_of_In in Hin.
      exists kept. split; [assumption |]. split; [congruence |]. split.
      * intros Hid. apply Hne. eapply NoDup_map_injective; eauto.
      * now apply Hgreatest.
Qed.

Lemma duplicate_scan_keeps_greatest_witness :
  exists ids,
    _get_duplicated_orders_ids Scenario.down_gateway Scenario.scanned_worker
    = (Ok ids, Scenario.scanned_worker)
    /\ ("m1"%string ∉ ids).
Proof.
  edestruct (duplicate_scan_keeps_greatest Scenario.down_gateway Scenario.scanned_worker)
    as (ids & Hrun & _ & Hmanual & _);
    [reflexivity | apply (bool_decide_unpack _); vm_compute; exact I |].
  exists ids. split; [exact Hrun |].
  apply (Hmanual (VenueOrder.mk "m1" "0" 9)); [apply list_elem_of_In; simpl; auto | reflexivity].
Defined.

(** The scan on three orders of client id "1" and two manual orders. *)
Example duplicate_scan_example :
  duplicated_orders_ids_of
    [VenueOrder.mk "a3" "1" 9; VenueOrder.mk "a1" "1" 9; VenueOrder.mk "m1" "0" 9;
     VenueOrder.mk "m2" "0" 9; VenueOrder.mk "a2" "1" 9]
  = ["a1"; "a2"]%string.
Proof. reflexivity. Qed.

(** ** The trace *)

Lemma log_events_nil w : log_events w [] = w.
Proof. destruct w. unfold log_events. simpl. now rewrite app_nil_r. Qed.

Lemma log_events_app w events1 events2 :
  log_events (log_events w events1) events2 = log_events w (events1 ++ events2).
Proof. unfold log_events. simpl. now rewrite app_assoc. Qed.

(** Reading the last fill never stops the builder: a failure is ignored. *)
Lemma last_filled_order_price_handled gateway w :
  exists d events,
    try_except (_get_last_filled_order_price gateway)
               (fun exception => let! _ := ignore_exception exception in ret DECIMAL_ZERO) w
      = (Ok d, log_events w events)
    /\ Forall is_ignored events.
Proof.
  unfold try_except, _get_last_filled_order_price, _get_last_filled_order,
    _get_filled_orders, bind, get, ret, raise, ignore_exception, emit.
  destruct (_filled_orders w) as [[| [key order] rest] |] eqn:Hcache; simpl.
  - exists DECIMAL_NAN, []. rewrite log_events_nil. auto.
  - eexists _, []. rewrite log_events_nil. auto.
  - exists DECIMAL_ZERO, [IgnoredException AttributeError]. split; [reflexivity |].
    repeat constructor.
Qed.

(** Computing the reference price leaves the worker as it was, apart from the
    ignored failure of the last fill. *)
Lemma used_price_appended vwap_threshold gateway configuration bids asks w r w1 :
  used_price vwap_threshold gateway configuration bids asks w = (r, w1) ->
  exists events, w1 = log_events w events /\ Forall is_ignored events.
Proof.
  unfold used_price, _get_market_price, _get_base_ticker_price.
  unfold bind at 1. unfold bind at 1. unfold lift at 1.
  destruct (kujira_get_ticker gateway) as [t | e].
  - cbn [ret]. unfold bind at 1.
    destruct (last_filled_order_price_handled gateway w) as (d & events & -> & Hignored).
    intros Hrun. exists events. split; [| assumption].
    destruct (default TICKER (Strategy.price_strategy (Configuration.strategy configuration)));
      unfold ret, _get_market_middle_price, lift in Hrun; now inversion Hrun.
  - intros [= <- <-]. exists []. now rewrite log_events_nil.
Qed.

(** ** Proposal builder: the loops over the layers *)

Lemma place_layer_run configuration market side index quantity p sz st w :
  exists st' w',
    place_layer configuration market side index quantity p sz st w = (Ok st', w')
    /\ layer_outcome configuration market side index quantity p sz st st' w w'.
Proof.
  unfold place_layer, layer_outcome, appended.
  destruct (Number_lt p _) eqn:Hp.
  - eexists _, _. split; [reflexivity |]. left. auto.
  - destruct (Qltb sz _) eqn:Hs.
    + eexists _, _. split; [reflexivity |]. right; left. auto.
    + eexists _, _. split; [reflexivity |]. right; right. auto.
Qed.

Lemma new_orders_In configuration side quantity client_id sz p order :
  In order (new_orders configuration side quantity client_id sz p) ->
  Order.side order = side /\ Order.price order = p /\ Order.amount order = sz
  /\ 0 < quantity.
Proof.
  unfold new_orders. intros Hin. apply in_map_iff in Hin as (i & <- & Hi).
  simpl. repeat split.
  apply in_seq in Hi. destruct quantity; simpl in Hi; lia.
Qed.

Section LayerLoop.

Variable configuration : Configuration.t.
Variable market : Market.t.
Variable side : OrderSide.
(** The market price of a layer and the side of the layer that is read. *)
Variable market_price : Layer.t -> result Number.
Variable config : Layer.t -> LayerSide.t.
Variable body : nat -> Layer.t -> N * list Order.t -> M (N * list Order.t).

Hypothesis body_eq : forall index layer st,
  body index layer st =
    (let! p := lift (market_price layer) in
     let! size := lift (layer_size (config layer) p) in
     place_layer configuration market side index
                 (LayerSide.quantity (config layer)) p size st).

Lemma body_Ok index layer st w st' w' :
  body index layer st w = (Ok st', w') ->
  exists p sz,
    market_price layer = Ok p
    /\ layer_size (config layer) p = Ok sz
    /\ layer_outcome configuration market side index
                     (LayerSide.quantity (config layer)) p sz st st' w w'.
Proof.
  rewrite body_eq. intros Hrun.
  inv_bind Hrun as p w1 Hp. apply lift_Ok in Hp as [Hp ->].
  inv_bind Hrun as sz w2 Hsz. apply lift_Ok in Hsz as [Hsz ->].
  exists p, sz. split; [assumption |]. split; [assumption |].
  destruct (place_layer_run configuration market side index
              (LayerSide.quantity (config layer)) p sz st w) as (st0 & w0 & Heq & Hout).
  rewrite Heq in Hrun. now inversion Hrun; subst.
Qed.

(** The orders the loop adds come from layers that passed both gates; every
    layer was priced and sized, and the layers below a minimum left their
    warning in the trace. *)
Lemma for_layers_Ok layers :
  forall index st w st' w',
    for_layers body index layers st w = (Ok st', w') ->
    exists events,
      appended w w' events
      /\ (forall order, In order (snd st') ->
            In order (snd st)
            \/ exists layer p,
                 In layer layers /\ market_price layer = Ok p
                 /\ layer_size (config layer) p = Ok (Order.amount order)
                 /\ 0 < LayerSide.quantity (config layer)
                 /\ Order.side order = side /\ Order.price order = p
                 /\ Number_lt p (Fin (Market.minimumPriceIncrement market)) = false
                 /\ Qltb (Order.amount order) (Market.minimumOrderSize market) = false)
      /\ (forall i layer, nth_error layers i = Some layer ->
            exists p sz,
              market_price layer = Ok p
              /\ layer_size (config layer) p = Ok sz
              /\ (Number_lt p (Fin (Market.minimumPriceIncrement market)) = true ->
                  In (WarnSkipLayer (index + i) side (PriceTooLow p)) events)
              /\ (Number_lt p (Fin (Market.minimumPriceIncrement market)) = false ->
                  Qltb sz (Market.minimumOrderSize market) = true ->
                  In (WarnSkipLayer (index + i) side (SizeTooLow sz)) events)).
Proof.
  induction layers as [| layer rest IH]; intros index st w st' w' Hrun; simpl in Hrun.
  - inversion Hrun; subst. exists []. split; [| split].
    + unfold appended. now rewrite app_nil_r.
    + auto.
    + intros [| i] layer Hnth; discriminate.
  - inv_bind Hrun as st1 w1 Hbody.
    apply body_Ok in Hbody as (p & sz & Hp & Hsz & Hout).
    destruct (IH _ _ _ _ _ Hrun) as (events_rest & Happ_rest & Horders & Hwarn).
    assert (Hfirst : exists events1,
              appended w w1 events1
              /\ (Number_lt p (Fin (Market.minimumPriceIncrement market)) = true ->
                  In (WarnSkipLayer index side (PriceTooLow p)) events1)
              /\ (Number_lt p (Fin (Market.minimumPriceIncrement market)) = false ->
                  Qltb sz (Market.minimumOrderSize market) = true ->
                  In (WarnSkipLayer index side (SizeTooLow sz)) events1)).
    { destruct Hout as [(G1 & _ & H1) | [(G1 & G2 & _ & H1) | (G1 & G2 & -> & _)]].
      - eexists. split; [exact H1 |]. split; [intros _; now left | congruence].
      - eexists. split; [exact H1 |]. split; [congruence | intros _ _; now left].
      - exists []. split; [unfold appended; now rewrite app_nil_r |].
        split; congruence. }
    destruct Hfirst as (events1 & Happ1 & W1 & W2).
    exists (events1 ++ events_rest). split; [| split].
    + unfold appended in *. rewrite Happ_rest, Happ1. now rewrite app_assoc.
    + intros order Hin. destruct (Horders order Hin) as [Hin1 | (l & q & Hl & Hrestl)].
      * destruct Hout as [(_ & -> & _) | [(_ & _ & -> & _) | (Hgate1 & Hgate2 & _ & ->)]];
          [now left | now left |].
        simpl in Hin1. apply in_app_iff in Hin1 as [Hold | Hnew]; [now left |].
        apply new_orders_In in Hnew as (Hside & Hprice & Hamount & Hq).
        right. exists layer, p. subst sz.
        repeat split; try assumption; now left.
      * right. exists l, q. split; [now right | exact Hrestl].
    + intros [| i] l Hnth; simpl in Hnth.
      * inversion Hnth; subst l. exists p, sz.
        split; [assumption |]. split; [assumption |].
        rewrite Nat.add_0_r.
        split; intros; apply in_or_app; left; auto.
      * destruct (Hwarn i l Hnth) as (q & s & Hq & Hs & V1 & V2).
        exists q, s. replace (index + S i)%nat with (S index + i)%nat by lia.
        split; [assumption |]. split; [assumption |].
        split; intros; apply in_or_app; right; auto.
Qed.

End LayerLoop.

Lemma check_used_price_Ok d u :
  check_used_price (Some d) = Ok u -> d = Num u /\ Number_lt (Fin 0) u = true.
Proof.
  unfold check_used_price, Decimal_le, DECIMAL_ZERO, rbind.
  destruct d as [n |]; [| discriminate].
  unfold Number_le. destruct (Number_lt (Fin 0) n) eqn:Hpos; simpl; [| discriminate].
  intros [= ->]. auto.
Qed.

(** The stages of a run of the builder that returns. *)
Lemma create_proposal_Ok vwap_threshold gateway configuration market w proposal w' :
  _create_proposal vwap_threshold gateway configuration market w = (Ok proposal, w') ->
  exists book u w1 bid_state w2 ask_state,
    let bids := fst (_parse_order_book book) in
    let asks := snd (_parse_order_book book) in
    let layers := Strategy.layers (Configuration.strategy configuration) in
    kujira_get_order_book gateway = Ok book
    /\ used_price vwap_threshold gateway configuration bids asks w = (Ok (Num u), w1)
    /\ Number_lt (Fin 0) u = true
    /\ for_layers (bid_layer configuration market u asks) 1 layers (1%N, []) w1
         = (Ok bid_state, w2)
    /\ for_layers (ask_layer configuration market u bids) 1 layers (fst bid_state, []) w2
         = (Ok ask_state, w')
    /\ proposal = snd bid_state ++ snd ask_state.
Proof.
  unfold _create_proposal, _get_order_book. intros Hrun.
  inv_bind Hrun as book w0 Hbook. apply lift_Ok in Hbook as [Hbook ->].
  inv_bind Hrun as d w1 Hused.
  inv_bind Hrun as u w1' Hcheck. apply lift_Ok in Hcheck as [Hcheck ->].
  inv_bind Hrun as bid_state w2 Hbids.
  inv_bind Hrun as ask_state w3 Hasks.
  inversion Hrun; subst.
  apply check_used_price_Ok in Hcheck as [-> Hpos].
  exists book, u, w1, bid_state, w2, ask_state. cbv zeta. auto 10.
Qed.

Lemma bid_layer_eq configuration market u asks index layer st :
  bid_layer configuration market u asks index layer st =
    (let! p := lift (bid_market_price u asks layer) in
     let! size := lift (layer_size (Layer.bid layer) p) in
     place_layer configuration market BUY index
                 (LayerSide.quantity (Layer.bid layer)) p size st).
Proof. reflexivity. Qed.

Lemma ask_layer_eq configuration market u bids index layer st :
  ask_layer configuration market u bids index layer st =
    (let! p := lift (ask_market_price u bids layer) in
     let! size := lift (layer_size (Layer.ask layer) p) in
     place_layer configuration market SELL index
                 (LayerSide.quantity (Layer.ask layer)) p size st).
Proof. reflexivity. Qed.

(** A proposal that was built: its reference price is positive; each of its
    orders comes from a layer side that was priced, sized and passed both
    gates; every layer was priced and sized on both sides, and the sides below
    a minimum left their warning in the trace. *)
Lemma create_proposal_spec vwap_threshold gateway configuration market w proposal w' :
  _create_proposal vwap_threshold gateway configuration market w = (Ok proposal, w') ->
  exists book u w1,
    let bids := fst (_parse_order_book book) in
    let asks := snd (_parse_order_book book) in
    let layers := Strategy.layers (Configuration.strategy configuration) in
    kujira_get_order_book gateway = Ok book
    /\ used_price vwap_threshold gateway configuration bids asks w = (Ok (Num u), w1)
    /\ Number_lt (Fin 0) u = true
    /\ (forall order, In order proposal ->
          exists layer,
            In layer layers
            /\ Number_lt (Order.price order) (Fin (Market.minimumPriceIncrement market)) = false
            /\ Qltb (Order.amount order) (Market.minimumOrderSize market) = false
            /\ ((Order.side order = BUY
                 /\ bid_market_price u asks layer = Ok (Order.price order)
                 /\ layer_size (Layer.bid layer) (Order.price order) = Ok (Order.amount order)
                 /\ 0 < LayerSide.quantity (Layer.bid layer))
                \/ (Order.side order = SELL
                    /\ ask_market_price u bids layer = Ok (Order.price order)
                    /\ layer_size (Layer.ask layer) (Order.price order)
                         = Ok (Order.amount order)
                    /\ 0 < LayerSide.quantity (Layer.ask layer))))
    /\ (forall i layer, nth_error layers i = Some layer ->
          (exists p sz,
             bid_market_price u asks layer = Ok p
             /\ layer_size (Layer.bid layer) p = Ok sz
             /\ (below_minimums market p sz -> warned w w' (S i) BUY))
          /\ (exists p sz,
                ask_market_price u bids layer = Ok p
                /\ layer_size (Layer.ask layer) p = Ok sz
                /\ (below_minimums market p sz -> warned w w' (S i) SELL))).
Proof.
  intros Hrun.
  apply create_proposal_Ok in Hrun
    as (book & u & w1 & bid_state & w2 & ask_state & Hbook & Hused & Hpos & Hbids & Hasks & ->).
  exists book, u, w1. cbv zeta.
  split; [assumption |]. split; [assumption |]. split; [assumption |].
  destruct (used_price_appended _ _ _ _ _ _ _ _ Hused) as (events0 & -> & _).
  apply (for_layers_Ok configuration market BUY _ Layer.bid _
           (bid_layer_eq configuration market u _))
    in Hbids as (events_bid & Happ_bid & Hbid_orders & Hbid_layers).
  apply (for_layers_Ok configuration market SELL _ Layer.ask _
           (ask_layer_eq configuration market u _))
    in Hasks as (events_ask & Happ_ask & Hask_orders & Hask_layers).
  assert (Happ : appended w w' (events0 ++ events_bid ++ events_ask)).
  { unfold appended in *. rewrite Happ_ask, Happ_bid. simpl. now rewrite <- !app_assoc. }
  split.
  - intros order Hin. apply in_app_iff in Hin as [Hin | Hin].
    + destruct (Hbid_orders order Hin)
        as [[] | (layer & p & Hl & Hp & Hsz & Hq & Hs & <- & G1 & G2)].
      exists layer. repeat split; try assumption. left. auto.
    + destruct (Hask_orders order Hin)
        as [[] | (layer & p & Hl & Hp & Hsz & Hq & Hs & <- & G1 & G2)].
      exists layer. repeat split; try assumption. right. auto.
  - intros i layer Hnth. split.
    + destruct (Hbid_layers i layer Hnth) as (p & sz & Hp & Hsz & W1 & W2).
      exists p, sz. split; [assumption |]. split; [assumption |].
      intros Hbelow. exists (events0 ++ events_bid ++ events_ask).
      destruct (Number_lt p (Fin (Market.minimumPriceIncrement market))) eqn:Hgate.
      * exists (PriceTooLow p). split; [exact Happ |].
        apply list_elem_of_In, in_or_app. right. apply in_or_app. left. now apply W1.
      * exists (SizeTooLow sz). split; [exact Happ |].
        apply list_elem_of_In, in_or_app. right. apply in_or_app. left.
        apply W2; [reflexivity |].
        destruct Hbelow as [Hprice | Hsize]; [| now apply Qltb_lt].
        exfalso. apply Hprice. now apply Number_lt_false_Le.
    + destruct (Hask_layers i layer Hnth) as (p & sz & Hp & Hsz & W1 & W2).
      exists p, sz. split; [assumption |]. split; [assumption |].
      intros Hbelow. exists (events0 ++ events_bid ++ events_ask).
      destruct (Number_lt p (Fin (Market.minimumPriceIncrement market))) eqn:Hgate.
      * exists (PriceTooLow p). split; [exact Happ |].
        apply list_elem_of_In, in_or_app. right. apply in_or_app. right. now apply W1.
      * exists (SizeTooLow sz). split; [exact Happ |].
        apply list_elem_of_In, in_or_app. right. apply in_or_app. right.
        apply W2; [reflexivity |].
        destruct Hbelow as [Hprice | Hsize]; [| now apply Qltb_lt].
        exfalso. apply Hprice. now apply Number_lt_false_Le.
Qed.

(** A side of a layer below a minimum leaves the state of its loop as it was
    and appends one warning. *)
Lemma place_layer_below configuration market side index quantity p sz st w :
  below_minimums market p sz ->
  exists w' reason,
    place_layer configuration market side index quantity p sz st w = (Ok st, w')
    /\ appended w w' [WarnSkipLayer index side reason].
Proof.
  intros Hbelow.
  destruct (place_layer_run configuration market side index quantity p sz st w)
    as (st' & w' & Hrun & [(_ & -> & Happ) | [(_ & _ & -> & Happ) | (G1 & G2 & _)]]).
  - eauto.
  - eauto.
  - exfalso. destruct Hbelow as [Hprice | Hsize].
    + apply Hprice. now apply Number_lt_false_Le.
    + apply Qltb_lt in Hsize. congruence.
Qed.

(** C2: every order of a proposal has a price of at least the minimum price
    increment and an amount of at least the minimum order size.  A side of a
    layer whose computed price or size is below its minimum appends its warning
    and leaves the orders and the client id counter of its loop as they were;
    in a proposal that was built its warning is in the trace and no order
    carries its price and size. *)
Theorem proposal_orders_meet_minimums
    (vwap_threshold : Q) (gateway : Gateway) (configuration : Configuration.t)
    (market : Market.t) (w : Worker) :
  (forall proposal w',
     _create_proposal vwap_threshold gateway configuration market w = (Ok proposal, w') ->
     (forall order, order ∈ proposal ->
        Number_Le (Fin (Market.minimumPriceIncrement market)) (Order.price order)
        /\ (Market.minimumOrderSize market <= Order.amount order)%Q)
     /\ exists book P w1,
          let bids := fst (_parse_order_book book) in
          let asks := snd (_parse_order_book book) in
          kujira_get_order_book gateway = Ok book
          /\ used_price vwap_threshold gateway configuration bids asks w = (Ok (Num P), w1)
          /\ forall i layer,
               nth_error (Strategy.layers (Configuration.strategy configuration)) i
                 = Some layer ->
               (exists p sz,
                  bid_market_price P asks layer = Ok p
                  /\ layer_size (Layer.bid layer) p = Ok sz
                  /\ (below_minimums market p sz ->
                      warned w w' (S i) BUY
                      /\ forall order, order ∈ proposal ->
                           ~ (Order.price order = p /\ Order.amount order = sz)))
               /\ (exists p sz,
                     ask_market_price P bids layer = Ok p
                     /\ layer_size (Layer.ask layer) p = Ok sz
                     /\ (below_minimums market p sz ->
                         warned w w' (S i) SELL
                         /\ forall order, order ∈ proposal ->
                              ~ (Order.price order = p /\ Order.amount order = sz))))
  /\ (forall P bids asks index layer st w0 p sz,
        below_minimums market p sz ->
        (bid_market_price P asks layer = Ok p ->
         layer_size (Layer.bid layer) p = Ok sz ->
         exists w1 reason,
           bid_layer configuration market P asks index layer st w0 = (Ok st, w1)
           /\ appended w0 w1 [WarnSkipLayer index BUY reason])
        /\ (ask_market_price P bids layer = Ok p ->
            layer_size (Layer.ask layer) p = Ok sz ->
            exists w1 reason,
              ask_layer configuration market P bids index layer st w0 = (Ok st, w1)
              /\ appended w0 w1 [WarnSkipLayer index SELL reason])).
Proof.
  split.
  - intros proposal w' Hrun.
    destruct (create_proposal_spec _ _ _ _ _ _ _ Hrun)
      as (book & u & w1 & Hbook & Hused & _ & Horders & Hlayers).
    assert (Hmin : forall order, order ∈ proposal ->
              Number_Le (Fin (Market.minimumPriceIncrement market)) (Order.price order)
              /\ (Market.minimumOrderSize market <= Order.amount order)%Q).
    { intros order Hin. apply list_elem_of_In in Hin.
      destruct (Horders order Hin) as (layer & _ & G1 & G2 & _).
      split; [now apply Number_lt_false_Le | now apply Qltb_ge]. }
    assert (Hnone : forall p sz, below_minimums market p sz ->
              forall order, order ∈ proposal ->
                ~ (Order.price order = p /\ Order.amount order = sz)).
    { intros p sz Hbelow order Hin [<- <-].
      destruct (Hmin order Hin) as [Hprice Hsize].
      destruct Hbelow as [Hb | Hb]; [contradiction |].
      apply (Qlt_not_le _ _ Hb). exact Hsize. }
    split; [exact Hmin |].
    exists book, u, w1. cbv zeta. split; [assumption |]. split; [assumption |].
    intros i layer Hnth. destruct (Hlayers i layer Hnth)
      as ((p & sz & Hp & Hsz & Hwarn) & (q & sq & Hq & Hsq & Hwarnq)).
    split.
    + exists p, sz. split; [assumption |]. split; [assumption |]. auto.
    + exists q, sq. split; [assumption |]. split; [assumption |]. auto.
  - intros P bids asks index layer st w0 p sz Hbelow. split; intros Hp Hsz.
    + rewrite bid_layer_eq. unfold bind, lift. rewrite Hp, Hsz.
      now apply place_layer_below.
    + rewrite ask_layer_eq. unfold bind, lift. rewrite Hp, Hsz.
      now apply place_layer_below.
Qed.

Lemma proposal_orders_meet_minimums_witness :
  exists proposal w',
    _create_proposal 30 (Scenario.gateway Scenario.book)
        (Scenario.configuration (Some MIDDLE) (Some SAP) [Scenario.layer; Scenario.thin_layer])
        Scenario.market Scenario.worker
      = (Ok proposal, w')
    /\ length proposal = 3%nat
    /\ forall order, order ∈ proposal ->
         Number_Le (Fin (1 # 100)) (Order.price order) /\ (1 # 10 <= Order.amount order)%Q.
Proof.
  destruct (_create_proposal 30 (Scenario.gateway Scenario.book)
              (Scenario.configuration (Some MIDDLE) (Some SAP)
                                      [Scenario.layer; Scenario.thin_layer])
              Scenario.market Scenario.worker) as [[proposal | e] w'] eqn:Hrun;
    [| vm_compute in Hrun; discriminate].
  exists proposal, w'. split; [reflexivity |]. split.
  - vm_compute in Hrun. inversion Hrun. reflexivity.
  - exact (proj1 (proj1 (proposal_orders_meet_minimums _ _ _ _ _) _ _ Hrun)).
Defined.

(** ** Proposal builder: prices against the book *)


Lemma parsed_bids_In book level :
  In level (fst (_parse_order_book book)) -> In level (OrderBook.bids book).
Proof. simpl. apply Permutation_in, sort_by_perm. Qed.










(** ** Proposal builder: the division by the layer price *)

Lemma layer_size_zero_price side p :
  0 < LayerSide.quantity side -> is_zero p ->
  layer_size side p = Raise DivisionByZero \/ layer_size side p = Raise InvalidOperation.
Proof.
  intros Hq Hzero. unfold layer_size, Q_div_Number, rbind.
  apply Z.ltb_lt in Hq. rewrite Hq.
  destruct p as [x | negative]; [| destruct Hzero].
  simpl in Hzero. apply Qeq_bool_true in Hzero. rewrite Hzero.
  destruct (Qeq_bool (LayerSide.max_liquidity_in_dollars side) 0); auto.
Qed.

Lemma layer_size_Ok_nonzero side p sz :
  0 < LayerSide.quantity side -> layer_size side p = Ok sz -> ~ is_zero p.
Proof.
  intros Hq Hsz Hzero.
  destruct (layer_size_zero_price side p Hq Hzero) as [H | H]; congruence.
Qed.

Lemma bid_price_zero_at_full_spread u asks layer p :
  (LayerSide.spread_percentage (Layer.bid layer) == 100)%Q ->
  bid_market_price u asks layer = Ok p -> is_zero p.
Proof.
  intros Hs. unfold bid_market_price, best_price, rbind.
  destruct asks as [| level rest]; [discriminate |].
  assert (Hf : ((100 - LayerSide.spread_percentage (Layer.bid layer)) / 100 == 0)%Q).
  { rewrite Hs. reflexivity. }
  destruct (py_min u (Fin (Level.price level))) as [m | negative]; simpl.
  - intros [= <-]. simpl. rewrite Hf. apply Qmult_0_l.
  - apply Qeq_bool_true in Hf. rewrite Hf. discriminate.
Qed.

(** C10: the size of a layer side divides the liquidity budget by the layer
    price with no guard.  A zero price with a positive quantity makes the size
    expression, the loop body and the whole builder raise, and a bid spread of
    100 gives such a price; so a builder that returns priced every side of
    positive quantity away from zero. *)
Theorem zero_layer_price_raises
    (vwap_threshold : Q) (gateway : Gateway) (configuration : Configuration.t) (market : Market.t)
    (w : Worker) :
  (forall layer,
     layer ∈ Strategy.layers (Configuration.strategy configuration) ->
     0 < LayerSide.quantity (Layer.bid layer) ->
     (LayerSide.spread_percentage (Layer.bid layer) == 100)%Q ->
     is_raise (fst (_create_proposal vwap_threshold gateway configuration market w)))
  /\ (forall side p,
        0 < LayerSide.quantity side -> is_zero p ->
        layer_size side p = Raise DivisionByZero \/ layer_size side p = Raise InvalidOperation)
  /\ (forall u asks bids index layer st w0 p,
        is_zero p ->
        (0 < LayerSide.quantity (Layer.bid layer) ->
         bid_market_price u asks layer = Ok p ->
         is_raise (fst (bid_layer configuration market u asks index layer st w0)))
        /\ (0 < LayerSide.quantity (Layer.ask layer) ->
            ask_market_price u bids layer = Ok p ->
            is_raise (fst (ask_layer configuration market u bids index layer st w0))))
  /\ (forall proposal w',
        _create_proposal vwap_threshold gateway configuration market w = (Ok proposal, w') ->
        exists book P w1,
          kujira_get_order_book gateway = Ok book
          /\ used_price vwap_threshold gateway configuration
                        (fst (_parse_order_book book)) (snd (_parse_order_book book)) w
               = (Ok (Num P), w1)
          /\ forall layer,
               layer ∈ Strategy.layers (Configuration.strategy configuration) ->
               (0 < LayerSide.quantity (Layer.bid layer) ->
                exists p, bid_market_price P (snd (_parse_order_book book)) layer = Ok p
                          /\ ~ is_zero p)
               /\ (0 < LayerSide.quantity (Layer.ask layer) ->
                   exists p, ask_market_price P (fst (_parse_order_book book)) layer = Ok p
                             /\ ~ is_zero p)).
Proof.
  assert (Hreturns : forall proposal w',
            _create_proposal vwap_threshold gateway configuration market w = (Ok proposal, w') ->
            exists book P w1,
              kujira_get_order_book gateway = Ok book
              /\ used_price vwap_threshold gateway configuration
                            (fst (_parse_order_book book)) (snd (_parse_order_book book)) w
                   = (Ok (Num P), w1)
              /\ forall layer,
                   layer ∈ Strategy.layers (Configuration.strategy configuration) ->
                   (0 < LayerSide.quantity (Layer.bid layer) ->
                    exists p, bid_market_price P (snd (_parse_order_book book)) layer = Ok p
                              /\ ~ is_zero p)
                   /\ (0 < LayerSide.quantity (Layer.ask layer) ->
                       exists p, ask_market_price P (fst (_parse_order_book book)) layer = Ok p
                                 /\ ~ is_zero p)).
  { intros proposal w' Hrun.
    destruct (create_proposal_spec _ _ _ _ _ _ _ Hrun)
      as (book & u & w1 & Hbook & Hused & _ & _ & Hlayers).
    exists book, u, w1. split; [assumption |]. split; [assumption |].
    intros layer Hin. apply list_elem_of_In, In_nth_error in Hin as (i & Hnth).
    destruct (Hlayers i layer Hnth) as ((p & sz & Hp & Hsz & _) & (q & sq & Hq & Hsq & _)).
    split; intros Hquantity.
    - exists p. split; [assumption |]. eapply layer_size_Ok_nonzero; eauto.
    - exists q. split; [assumption |]. eapply layer_size_Ok_nonzero; eauto. }
  split; [| split; [| split]].
  - intros layer Hin Hquantity Hspread.
    destruct (_create_proposal vwap_threshold gateway configuration market w)
      as [[proposal | e] w'] eqn:Hrun;
      [| exact I].
    exfalso.
    destruct (Hreturns proposal w' eq_refl) as (book & u & w1 & _ & _ & Hlayers).
    destruct (Hlayers layer Hin) as [Hbid _].
    destruct (Hbid Hquantity) as (p & Hp & Hnonzero).
    apply Hnonzero. eapply bid_price_zero_at_full_spread; eauto.
  - apply layer_size_zero_price.
  - intros u asks bids index layer st w0 p Hzero. split; intros Hquantity Hp.
    + rewrite bid_layer_eq. unfold bind, lift. rewrite Hp.
      destruct (layer_size_zero_price _ _ Hquantity Hzero) as [-> | ->]; exact I.
    + rewrite ask_layer_eq. unfold bind, lift. rewrite Hp.
      destruct (layer_size_zero_price _ _ Hquantity Hzero) as [-> | ->]; exact I.
  - exact Hreturns.
Qed.

Lemma zero_layer_price_raises_witness :
  is_raise (fst (_create_proposal 30 (Scenario.gateway Scenario.book)
                   (Scenario.configuration (Some MIDDLE) (Some SAP)
                                           [Scenario.layer; Scenario.full_spread_layer])
                   Scenario.market Scenario.worker))
  /\ fst (_create_proposal 30 (Scenario.gateway Scenario.book)
            (Scenario.configuration (Some MIDDLE) (Some SAP)
                                    [Scenario.layer; Scenario.full_spread_layer])
            Scenario.market Scenario.worker)
     = Raise DivisionByZero.
Proof.
  split; [| vm_compute; reflexivity].
  apply (proj1 (zero_layer_price_raises
                  30 (Scenario.gateway Scenario.book)
                  (Scenario.configuration (Some MIDDLE) (Some SAP)
                                          [Scenario.layer; Scenario.full_spread_layer])
                  Scenario.market Scenario.worker)
               Scenario.full_spread_layer).
  - apply list_elem_of_In. simpl. auto.
  - reflexivity.
  - reflexivity.
Defined.

(** ** Price oracle *)

Lemma min_list_spec l :
  forall x, In (min_list x l) (x :: l) /\ forall y, In y (x :: l) -> (min_list x l <= y)%Q.
Proof.
  unfold min_list. induction l as [| z l IH]; intros x; simpl.
  - split; [now left |]. intros y [<- | []]. apply Qle_refl.
  - destruct (Qltb z x) eqn:Hcmp.
    + destruct (IH z) as [Hin Hle]. split.
      * right. exact Hin.
      * intros y [<- | Hy]; [| now apply Hle].
        apply Qltb_lt in Hcmp. apply Qle_trans with z; [apply Hle; now left | lra].
    + destruct (IH x) as [Hin Hle]. split.
      * destruct Hin as [Hin | Hin]; [now left | right; now right].
      * intros y [<- | [<- | Hy]].
        -- apply Hle. now left.
        -- apply Qltb_ge in Hcmp. apply Qle_trans with x; [apply Hle; now left | assumption].
        -- apply Hle. now right.
Qed.

Lemma max_list_spec l :
  forall x, In (max_list x l) (x :: l) /\ forall y, In y (x :: l) -> (y <= max_list x l)%Q.
Proof.
  unfold max_list. induction l as [| z l IH]; intros x; simpl.
  - split; [now left |]. intros y [<- | []]. apply Qle_refl.
  - destruct (Qltb x z) eqn:Hcmp.
    + destruct (IH z) as [Hin Hle]. split.
      * right. exact Hin.
      * intros y [<- | Hy]; [| now apply Hle].
        apply Qltb_lt in Hcmp. apply Qle_trans with z; [lra | apply Hle; now left].
    + destruct (IH x) as [Hin Hle]. split.
      * destruct Hin as [Hin | Hin]; [now left | right; now right].
      * intros y [<- | [<- | Hy]].
        -- apply Hle. now left.
        -- apply Qltb_ge in Hcmp. apply Qle_trans with x; [assumption | apply Hle; now left].
        -- apply Hle. now right.
Qed.

(** The simple average price is the mean of the least ask price and the
    greatest bid price, a missing side counting as 0. *)
Lemma calculate_middle_price_SAP vwap_threshold bids asks :
  exists best_bid best_ask,
    _calculate_middle_price vwap_threshold bids asks SAP = Ok (Num (Fin ((best_ask + best_bid) / 2)%Q))
    /\ greatest_or_zero best_bid (map Level.price bids)
    /\ least_or_zero best_ask (map Level.price asks).
Proof.
  simpl.
  exists (match map Level.price bids with [] => 0%Q | p :: l => max_list p l end),
         (match map Level.price asks with [] => 0%Q | p :: l => min_list p l end).
  split; [reflexivity |]. split.
  - destruct (map Level.price bids) as [| p l]; [left; auto |].
    right. apply max_list_spec.
  - destruct (map Level.price asks) as [| p l]; [left; auto |].
    right. apply min_list_spec.
Qed.

(** With the MIDDLE strategy the reference price is what the configured sub-
    strategy computes, SAP when none is configured; nothing is retried. *)
Lemma used_price_middle vwap_threshold gateway configuration bids asks w t :
  Strategy.price_strategy (Configuration.strategy configuration) = Some MIDDLE ->
  kujira_get_ticker gateway = Ok t ->
  exists events,
    used_price vwap_threshold gateway configuration bids asks w
      = (_calculate_middle_price vwap_threshold bids asks
           (default SAP (Strategy.middle_price_strategy (Configuration.strategy configuration))),
         log_events w events)
    /\ Forall is_ignored events.
Proof.
  intros Hstrategy Hticker.
  destruct (last_filled_order_price_handled gateway w) as (d & events & Hlast & Hignored).
  exists events. split; [| assumption].
  unfold used_price.
  unfold _get_market_price, _get_base_ticker_price.
  unfold bind at 1. unfold bind at 1. unfold lift at 1. rewrite Hticker. cbn [ret].
  unfold bind at 1. rewrite Hlast. rewrite Hstrategy. reflexivity.
Qed.

Lemma create_proposal_rejects vwap_threshold gateway configuration market w book d w1 e :
  kujira_get_order_book gateway = Ok book ->
  used_price vwap_threshold gateway configuration
             (fst (_parse_order_book book)) (snd (_parse_order_book book)) w = (Ok d, w1) ->
  check_used_price (Some d) = Raise e ->
  _create_proposal vwap_threshold gateway configuration market w = (Raise e, w1).
Proof.
  intros Hbook Hused Hcheck.
  unfold _create_proposal, _get_order_book.
  unfold bind at 1. unfold lift at 1. rewrite Hbook.
  unfold bind at 1. rewrite Hused.
  unfold bind at 1. unfold lift at 1. rewrite Hcheck. reflexivity.
Qed.

(** On an empty book the simple average price is 0 and the builder raises
    "Invalid price". *)
Lemma create_proposal_empty_book_SAP vwap_threshold gateway configuration market w t :
  Strategy.price_strategy (Configuration.strategy configuration) = Some MIDDLE ->
  Strategy.middle_price_strategy (Configuration.strategy configuration) = Some SAP ->
  kujira_get_ticker gateway = Ok t ->
  kujira_get_order_book gateway = Ok (OrderBook.mk [] []) ->
  exists events,
    _create_proposal vwap_threshold gateway configuration market w
      = (Raise (InvalidPrice (Some (Num (Fin ((0 + 0) / 2)%Q)))), log_events w events)
    /\ Forall is_ignored events.
Proof.
  intros Hstrategy Hmiddle Hticker Hbook.
  destruct (used_price_middle vwap_threshold gateway configuration [] [] w t Hstrategy Hticker)
    as (events & Hused & Hignored).
  rewrite Hmiddle in Hused. simpl in Hused.
  exists events. split; [| assumption].
  eapply create_proposal_rejects; [exact Hbook | exact Hused | reflexivity].
Qed.

(** The two ways [_cancel_currently_untracked_orders] can run. *)
Lemma cancel_untracked_run gateway open_orders_ids w :
  _cancel_currently_untracked_orders gateway open_orders_ids w = (Ok [], w)
  \/ exists ids,
       _cancel_currently_untracked_orders gateway open_orders_ids w
         = (kujira_delete_orders gateway ids, log_events w [DeleteOrders ids]).
Proof.
  unfold _cancel_currently_untracked_orders, bind, get.
  destruct (elements _) as [| id ids]; [now left |].
  right. exists (id :: ids). reflexivity.
Qed.

Lemma not_post_of_ignored events :
  Forall is_ignored events -> Forall (fun ev => ~ is_post_orders ev) events.
Proof.
  apply List.Forall_impl. intros [] Hignored; simpl in *; tauto.
Qed.

(** A tick on an empty book with the SAP middle price: whatever the stale
    cancellation did, the builder fails with "Invalid price", the error is
    ignored and nothing is posted. *)
Lemma on_tick_empty_book_SAP vwap_threshold gateway configuration market w t open_orders filled balances :
  Strategy.price_strategy (Configuration.strategy configuration) = Some MIDDLE ->
  Strategy.middle_price_strategy (Configuration.strategy configuration) = Some SAP ->
  kujira_get_ticker gateway = Ok t ->
  kujira_get_order_book gateway = Ok (OrderBook.mk [] []) ->
  kujira_get_open_orders gateway = Ok open_orders ->
  kujira_get_filled_orders gateway = Ok filled ->
  kujira_get_balances gateway = Ok balances ->
  (forall ids, exists response, kujira_delete_orders gateway ids = Ok response) ->
  exists w' events,
    on_tick vwap_threshold gateway configuration market w = (Ok tt, w')
    /\ trace w' = trace w ++ events
                    ++ [IgnoredException (InvalidPrice (Some (Num (Fin ((0 + 0) / 2)%Q))))]
    /\ Forall (fun ev => ~ is_post_orders ev) events
    /\ _currently_tracked_orders_ids w' = _currently_tracked_orders_ids w
    /\ _tracked_orders_ids w' = _tracked_orders_ids w.
Proof.
  intros Hstrategy Hmiddle Hticker Hbook Hopen Hfilled Hbalances Hdelete.
  set (wa := mkWorker (_currently_tracked_orders_ids w) (_tracked_orders_ids w)
               (_balances w) (Some open_orders) (_filled_orders w) (trace w)).
  set (wb := mkWorker (_currently_tracked_orders_ids w) (_tracked_orders_ids w)
               (_balances w) (Some open_orders) (Some filled) (trace w)).
  set (wc := mkWorker (_currently_tracked_orders_ids w) (_tracked_orders_ids w)
               (Some balances) (Some open_orders) (Some filled) (trace w)).
  assert (H1 : _get_open_orders gateway false w = (Ok open_orders, wa)).
  { unfold _get_open_orders, bind, get, lift. rewrite Hopen. reflexivity. }
  assert (H2 : _get_filled_orders gateway false wa = (Ok filled, wb)).
  { unfold _get_filled_orders, bind, get, lift. rewrite Hfilled. reflexivity. }
  assert (H3 : _get_balances gateway false wb = (Ok (Some balances), wc)).
  { unfold _get_balances, bind, lift. rewrite Hbalances. reflexivity. }
  unfold on_tick, try_except.
  rewrite (bind_step _ _ _ _ _ H1), (bind_step _ _ _ _ _ H2), (bind_step _ _ _ _ _ H3).
  destruct (cancel_untracked_run gateway (map fst open_orders) wc) as [Hcancel | (ids & Hcancel)].
  - rewrite (bind_step _ _ _ _ _ Hcancel).
    destruct (create_proposal_empty_book_SAP vwap_threshold gateway configuration market wc t
                Hstrategy Hmiddle Hticker Hbook) as (events & Hbuild & Hignored).
    rewrite (bind_raise _ _ _ _ _ Hbuild).
    eexists _, events. split; [reflexivity |]. simpl.
    split; [now rewrite app_assoc |]. split; [now apply not_post_of_ignored | auto].
  - destruct (Hdelete ids) as (response & Hresponse). rewrite Hresponse in Hcancel.
    rewrite (bind_step _ _ _ _ _ Hcancel).
    destruct (create_proposal_empty_book_SAP vwap_threshold gateway configuration market
                (log_events wc [DeleteOrders ids]) t
                Hstrategy Hmiddle Hticker Hbook) as (events & Hbuild & Hignored).
    rewrite (bind_raise _ _ _ _ _ Hbuild).
    eexists _, (DeleteOrders ids :: events). split; [reflexivity |]. simpl.
    split; [now rewrite <- !app_assoc |].
    split; [| auto].
    constructor; [simpl; tauto | now apply not_post_of_ignored].
Qed.

(** C7: with the MIDDLE strategy and the SAP sub-strategy the reference price
    is the mean of the best bid and the best ask, a missing side counting as 0;
    on a book empty on both sides it is 0, the builder raises "Invalid price"
    and the tick fails with that error; the builder rejects every reference
    price that is missing or not strictly positive. *)
Theorem sap_reference_price
    (vwap_threshold : Q) (gateway : Gateway) (configuration : Configuration.t) (market : Market.t)
    (w : Worker) (t : Q) :
  Strategy.price_strategy (Configuration.strategy configuration) = Some MIDDLE ->
  Strategy.middle_price_strategy (Configuration.strategy configuration) = Some SAP ->
  kujira_get_ticker gateway = Ok t ->
  (forall bids asks,
     exists best_bid best_ask w1,
       used_price vwap_threshold gateway configuration bids asks w
         = (Ok (Num (Fin ((best_ask + best_bid) / 2)%Q)), w1)
       /\ greatest_or_zero best_bid (map Level.price bids)
       /\ least_or_zero best_ask (map Level.price asks))
  /\ (kujira_get_order_book gateway = Ok (OrderBook.mk [] []) ->
      (exists z w1,
         _create_proposal vwap_threshold gateway configuration market w
           = (Raise (InvalidPrice (Some (Num (Fin z)))), w1)
         /\ (z == 0)%Q)
      /\ (forall open_orders filled balances,
            kujira_get_open_orders gateway = Ok open_orders ->
            kujira_get_filled_orders gateway = Ok filled ->
            kujira_get_balances gateway = Ok balances ->
            (forall ids, exists response, kujira_delete_orders gateway ids = Ok response) ->
            exists w' events z,
              on_tick vwap_threshold gateway configuration market w = (Ok tt, w')
              /\ trace w' = trace w ++ events
                              ++ [IgnoredException (InvalidPrice (Some (Num (Fin z))))]
              /\ (z == 0)%Q
              /\ Forall (fun ev => ~ is_post_orders ev) events
              /\ _currently_tracked_orders_ids w' = _currently_tracked_orders_ids w
              /\ _tracked_orders_ids w' = _tracked_orders_ids w))
  /\ (check_used_price None = Raise (InvalidPrice None)
      /\ (forall n, Number_Le n (Fin 0) ->
            check_used_price (Some (Num n)) = Raise (InvalidPrice (Some (Num n))))
      /\ check_used_price (Some NaN) = Raise InvalidOperation
      /\ (forall d u, check_used_price (Some d) = Ok u ->
            d = Num u /\ ~ Number_Le u (Fin 0))
      /\ (forall book d w1 e,
            kujira_get_order_book gateway = Ok book ->
            used_price vwap_threshold gateway configuration
                       (fst (_parse_order_book book)) (snd (_parse_order_book book)) w
              = (Ok d, w1) ->
            check_used_price (Some d) = Raise e ->
            _create_proposal vwap_threshold gateway configuration market w = (Raise e, w1))).
Proof.
  intros Hstrategy Hmiddle Hticker. split; [| split].
  - intros bids asks.
    destruct (used_price_middle vwap_threshold gateway configuration bids asks w t Hstrategy Hticker)
      as (events & Hused & _).
    rewrite Hmiddle in Hused. change (default SAP (Some SAP)) with SAP in Hused.
    destruct (calculate_middle_price_SAP vwap_threshold bids asks) as (best_bid & best_ask & Hsap & Hb & Ha).
    rewrite Hsap in Hused. eauto 6.
  - intros Hbook. split.
    + destruct (create_proposal_empty_book_SAP vwap_threshold gateway configuration market w t
                  Hstrategy Hmiddle Hticker Hbook) as (events & Hbuild & _).
      eexists _, _. split; [exact Hbuild | reflexivity].
    + intros open_orders filled balances Hopen Hfilled Hbalances Hdelete.
      destruct (on_tick_empty_book_SAP vwap_threshold gateway configuration market w t open_orders filled
                  balances Hstrategy Hmiddle Hticker Hbook Hopen Hfilled Hbalances Hdelete)
        as (w' & events & Hrun & Htrace & Hrest).
      exists w', events, ((0 + 0) / 2)%Q.
      split; [assumption |]. split; [assumption |]. split; [reflexivity | assumption].
  - split; [reflexivity |]. split; [| split; [reflexivity | split]].
    + intros n Hle. apply Number_le_Le in Hle.
      unfold check_used_price, Decimal_le, DECIMAL_ZERO, rbind. now rewrite Hle.
    + intros d u Hcheck. apply check_used_price_Ok in Hcheck as [-> Hpos].
      split; [reflexivity |]. intros Hle. apply Number_lt_false_Le in Hle. congruence.
    + intros book d w1 e. apply create_proposal_rejects.
Qed.

Lemma sap_reference_price_witness :
  exists z w1,
    _create_proposal 30 (Scenario.gateway Scenario.empty_book)
        (Scenario.configuration (Some MIDDLE) (Some SAP) [Scenario.layer])
        Scenario.market Scenario.worker
      = (Raise (InvalidPrice (Some (Num (Fin z)))), w1)
    /\ (z == 0)%Q.
Proof.
  destruct (sap_reference_price
              30 (Scenario.gateway Scenario.empty_book)
              (Scenario.configuration (Some MIDDLE) (Some SAP) [Scenario.layer])
              Scenario.market Scenario.worker 11 eq_refl eq_refl eq_refl)
    as (_ & Hempty & _).
  exact (proj1 (Hempty eq_refl)).
Defined.

(** C3, as stated, fails: with MIDDLE and no sub-strategy configured, on a bid
    of 10 (one unit) and an ask of 12 (three units), the builder takes the
    simple average 11 as its reference price, whereas the chain that starts
    with VWAP yields 11.5. *)
Lemma middle_default_skips_fallback :
  Strategy.price_strategy
    (Configuration.strategy (Scenario.configuration (Some MIDDLE) None [Scenario.layer]))
    = Some MIDDLE
  /\ Strategy.middle_price_strategy
       (Configuration.strategy (Scenario.configuration (Some MIDDLE) None [Scenario.layer]))
     = None
  /\ fst (used_price 30 (Scenario.gateway Scenario.book_heavy_ask)
                     (Scenario.configuration (Some MIDDLE) None [Scenario.layer])
                     [Level.mk 10 1] [Level.mk 12 3] Scenario.worker)
     = Ok (Num (Fin (22 # 2)))
  /\ fst (_get_market_middle_price 30 (Scenario.gateway Scenario.book_heavy_ask)
                                   [Level.mk 10 1] [Level.mk 12 3] None Scenario.worker)
     = Ok (Num (Fin (46 # 4)))
  /\ ~ (22 # 2 == 46 # 4)%Q.
Proof.
  split; [reflexivity |]. split; [reflexivity |].
  split; [vm_compute; reflexivity |]. split; [vm_compute; reflexivity |].
  intros H. vm_compute in H. discriminate.
Qed.

(** C3, amended: with MIDDLE and no sub-strategy configured the builder
    defaults to SAP: its reference price is the simple average price, computed
    once, and a failure of that computation is the builder's failure.  The
    chain VWAP, WAP, SAP, ticker, each failure swallowed before the next
    attempt, is what [_get_market_middle_price] does when it is called without
    a strategy. *)
Theorem middle_price_default_and_fallback
    (vwap_threshold : Q) (gateway : Gateway) (configuration : Configuration.t)
    (bids asks : list Level.t) (w : Worker) (t : Q) :
  Strategy.price_strategy (Configuration.strategy configuration) = Some MIDDLE ->
  Strategy.middle_price_strategy (Configuration.strategy configuration) = None ->
  kujira_get_ticker gateway = Ok t ->
  (exists w1,
     used_price vwap_threshold gateway configuration bids asks w
       = (_calculate_middle_price vwap_threshold bids asks SAP, w1))
  /\ _get_market_middle_price vwap_threshold gateway bids asks None
     = middle_price_fallback (_calculate_middle_price vwap_threshold bids asks) (_get_market_price gateway)
  /\ (forall strategy,
        _get_market_middle_price vwap_threshold gateway bids asks (Some strategy)
        = lift (_calculate_middle_price vwap_threshold bids asks strategy))
  /\ (forall calculate market_price w0,
        (forall v, calculate VWAP = Ok v ->
           middle_price_fallback calculate market_price w0 = (Ok v, w0))
        /\ (forall e v, calculate VWAP = Raise e -> calculate WAP = Ok v ->
              middle_price_fallback calculate market_price w0 = (Ok v, w0))
        /\ (forall e1 e2 v,
              calculate VWAP = Raise e1 -> calculate WAP = Raise e2 -> calculate SAP = Ok v ->
              middle_price_fallback calculate market_price w0 = (Ok v, w0))
        /\ (forall e1 e2 e3,
              calculate VWAP = Raise e1 -> calculate WAP = Raise e2 ->
              calculate SAP = Raise e3 ->
              middle_price_fallback calculate market_price w0 = market_price w0)).
Proof.
  intros Hstrategy Hmiddle Hticker.
  split; [| split; [reflexivity | split; [reflexivity |]]].
  - destruct (used_price_middle vwap_threshold gateway configuration bids asks w t Hstrategy Hticker)
      as (events & Hused & _).
    rewrite Hmiddle in Hused. eauto.
  - intros calculate market_price w0.
    unfold middle_price_fallback, try_except, lift.
    repeat split.
    + intros v ->. reflexivity.
    + intros e v -> ->. reflexivity.
    + intros e1 e2 v -> -> ->. reflexivity.
    + intros e1 e2 e3 -> -> ->. reflexivity.
Qed.

Lemma middle_price_default_and_fallback_witness :
  exists w1,
    used_price 30 (Scenario.gateway Scenario.book_heavy_ask)
               (Scenario.configuration (Some MIDDLE) None [Scenario.layer])
               [Level.mk 10 1] [Level.mk 12 3] Scenario.worker
    = (_calculate_middle_price 30 [Level.mk 10 1] [Level.mk 12 3] SAP, w1).
Proof.
  exact (proj1 (middle_price_default_and_fallback
                  30 (Scenario.gateway Scenario.book_heavy_ask)
                  (Scenario.configuration (Some MIDDLE) None [Scenario.layer])
                  [Level.mk 10 1] [Level.mk 12 3] Scenario.worker 11
                  eq_refl eq_refl eq_refl)).
Defined.

(** Scenario S1: bid 10 and ask 12, MIDDLE with SAP, one layer of one order per
    side at 10% with 100 dollars: a bid at 9.9 and an ask at 12.1. *)
Example create_proposal_S1 :
  exists bid ask w',
    _create_proposal 30 (Scenario.gateway Scenario.book)
        (Scenario.configuration (Some MIDDLE) (Some SAP) [Scenario.layer])
        Scenario.market Scenario.worker
      = (Ok [Order.mk "1" "KUJI-USK" LIMIT BUY (fst bid) (Fin (snd bid));
             Order.mk "2" "KUJI-USK" LIMIT SELL (fst ask) (Fin (snd ask))], w')
    /\ (snd bid == 99 # 10)%Q /\ (fst bid == 100 / (99 # 10))%Q
    /\ (snd ask == 121 # 10)%Q /\ (fst ask == 100 / (121 # 10))%Q.
Proof.
  eexists (_, _), (_, _), _. split; [vm_compute; reflexivity |].
  repeat split; vm_compute; reflexivity.
Qed.

(** An empty side stops the builder: the default of [next] is a plain dict,
    which has no attribute [price].  Here the ticker strategy on a book without
    asks. *)
Example create_proposal_empty_asks :
  fst (_create_proposal 30 (Scenario.gateway (OrderBook.mk [Level.mk 10 1] []))
         (Scenario.configuration (Some TICKER) None [Scenario.layer])
         Scenario.market Scenario.worker)
  = Raise AttributeError.
Proof. vm_compute. reflexivity. Qed.

(** One tick on the book of S1 with 4 KUJI and 7 USK free: the bid of layer 1
    and its ask exceed the budget, the ask of the second layer is placed and
    becomes the only tracked order. *)
Example on_tick_S1 :
  exists w',
    on_tick 30 (Scenario.gateway Scenario.book)
      (Scenario.configuration (Some MIDDLE) (Some SAP) [Scenario.layer; Scenario.thin_layer])
      Scenario.market Scenario.worker = (Ok tt, w')
    /\ _currently_tracked_orders_ids w' = ["3"]%string
    /\ _tracked_orders_ids w' = ["3"]%string.
Proof.
  eexists. split; [vm_compute; reflexivity |]. split; reflexivity.
Qed.

(** * Further properties *)

(** ** Order-book normalizer *)

Lemma Qle_bool_total (x y : Q) : Qle_bool x y = true \/ Qle_bool y x = true.
Proof.
  destruct (Qlt_le_dec y x) as [H | H].
  - right. apply Qle_bool_iff. lra.
  - left. apply Qle_bool_iff. exact H.
Qed.

Lemma Qle_bool_trans (x y z : Q) :
  Qle_bool x y = true -> Qle_bool y z = true -> Qle_bool x z = true.
Proof. rewrite !Qle_bool_iff. lra. Qed.

Lemma StronglySorted_impl {A} (R1 R2 : A -> A -> Prop) l :
  (forall a b, R1 a b -> R2 a b) -> StronglySorted R1 l -> StronglySorted R2 l.
Proof.
  intros HR H. induction H; constructor; auto.
  eapply List.Forall_impl; [| eassumption]. auto.
Qed.

(** Inserting into a list passes over the elements that are strictly before
    the new one, so the elements that compare equal keep their order. *)
Lemma insert_sorted_filter {A} (leb : A -> A -> bool) (keep : A -> bool) x l :
  (forall y, keep x = true -> keep y = true -> leb x y = true) ->
  List.filter keep (insert_sorted leb x l) = List.filter keep (x :: l).
Proof.
  intros Hkeep. induction l as [| y l IH]; simpl; [reflexivity |].
  destruct (leb x y) eqn:Hxy; [reflexivity |].
  simpl in *. rewrite IH.
  destruct (keep x) eqn:Hx; [| reflexivity].
  destruct (keep y) eqn:Hy; [| reflexivity].
  rewrite (Hkeep y) in Hxy by auto. discriminate.
Qed.

Lemma sort_by_filter {A} (leb : A -> A -> bool) (keep : A -> bool) l :
  (forall x y, keep x = true -> keep y = true -> leb x y = true) ->
  List.filter keep (sort_by leb l) = List.filter keep l.
Proof.
  intros Hkeep. induction l as [| x l IH]; [reflexivity |].
  change (sort_by leb (x :: l)) with (insert_sorted leb x (sort_by leb l)).
  rewrite insert_sorted_filter by auto.
  simpl. rewrite IH. reflexivity.
Qed.

(** Sorting a sorted list changes nothing. *)
Lemma sort_by_sorted_id {A} (leb : A -> A -> bool) l :
  StronglySorted (fun a b => leb a b = true) l -> sort_by leb l = l.
Proof.
  induction 1 as [| x l Hl IH Hx]; [reflexivity |].
  change (sort_by leb (x :: l)) with (insert_sorted leb x (sort_by leb l)).
  rewrite IH.
  destruct l as [| y l']; simpl; [reflexivity |].
  apply List.Forall_inv in Hx. rewrite Hx. reflexivity.
Qed.

(** X1. [_parse_order_book] only reorders the levels of the response: each side
    is a permutation of the side it was given, bids by descending and asks by
    ascending price, and levels of the same price keep the order of the
    response (the sort is stable). *)
Theorem parse_order_book_sorts (orderbook : OrderBook.t) :
  let bids := fst (_parse_order_book orderbook) in
  let asks := snd (_parse_order_book orderbook) in
  Permutation bids (OrderBook.bids orderbook)
  /\ Permutation asks (OrderBook.asks orderbook)
  /\ StronglySorted (fun x y => (Level.price y <= Level.price x)%Q) bids
  /\ StronglySorted (fun x y => (Level.price x <= Level.price y)%Q) asks
  /\ (forall p, List.filter (same_price p) bids = List.filter (same_price p) (OrderBook.bids orderbook))
  /\ (forall p, List.filter (same_price p) asks = List.filter (same_price p) (OrderBook.asks orderbook)).
Proof.
  unfold _parse_order_book; simpl.
  split; [apply sort_by_perm |]. split; [apply sort_by_perm |].
  split; [| split; [| split]].
  - eapply StronglySorted_impl; [| apply sort_by_sorted].
    + intros a b H. apply Qle_bool_iff in H. exact H.
    + intros a b. apply Qle_bool_total.
    + intros a b c H1 H2. eapply Qle_bool_trans; eassumption.
  - eapply StronglySorted_impl; [| apply sort_by_sorted].
    + intros a b H. apply Qle_bool_iff in H. exact H.
    + intros a b. apply Qle_bool_total.
    + intros a b c H1 H2. eapply Qle_bool_trans; eassumption.
  - intros p. apply sort_by_filter. unfold same_price. intros x y Hx Hy.
    apply Qeq_bool_true in Hx, Hy. apply Qle_bool_iff. lra.
  - intros p. apply sort_by_filter. unfold same_price. intros x y Hx Hy.
    apply Qeq_bool_true in Hx, Hy. apply Qle_bool_iff. lra.
Qed.

Lemma parse_order_book_sorted_bool orderbook :
  StronglySorted (fun x y => Qle_bool (Level.price y) (Level.price x) = true)
                 (fst (_parse_order_book orderbook))
  /\ StronglySorted (fun x y => Qle_bool (Level.price x) (Level.price y) = true)
                    (snd (_parse_order_book orderbook)).
Proof.
  unfold _parse_order_book; simpl. split.
  - apply (sort_by_sorted (fun x y => Qle_bool (Level.price y) (Level.price x))).
    + intros a b. apply Qle_bool_total.
    + intros a b c H1 H2. eapply Qle_bool_trans; eassumption.
  - apply (sort_by_sorted (fun x y => Qle_bool (Level.price x) (Level.price y))).
    + intros a b. apply Qle_bool_total.
    + intros a b c H1 H2. eapply Qle_bool_trans; eassumption.
Qed.

(** X2. Normalizing a book that is already normalized changes nothing. *)
Theorem parse_order_book_idempotent (orderbook : OrderBook.t) :
  _parse_order_book (OrderBook.mk (fst (_parse_order_book orderbook))
                                  (snd (_parse_order_book orderbook)))
  = _parse_order_book orderbook.
Proof.
  destruct (parse_order_book_sorted_bool orderbook) as [Hb Ha].
  unfold _parse_order_book in *; simpl in *.
  rewrite (sort_by_sorted_id _ _ Hb), (sort_by_sorted_id _ _ Ha). reflexivity.
Qed.

(** ** Best prices and the weighted average price *)

Lemma min_list_head x l :
  Forall (fun y => (x <= y)%Q) l -> min_list x l = x.
Proof.
  unfold min_list. induction 1 as [| y l Hy Hl IH]; simpl; [reflexivity |].
  apply Qltb_ge in Hy. rewrite Hy. exact IH.
Qed.

Lemma max_list_head x l :
  Forall (fun y => (y <= x)%Q) l -> max_list x l = x.
Proof.
  unfold max_list. induction 1 as [| y l Hy Hl IH]; simpl; [reflexivity |].
  apply Qltb_ge in Hy. rewrite Hy. exact IH.
Qed.

Lemma Qeq_bool_refl (x : Q) : Qeq_bool x x = true.
Proof. apply Qeq_bool_true. reflexivity. Qed.

(** [levels[prices.index(m)]] for a price [m] of the side: the first level
    of the side whose price is [m]. *)
Lemma nth_index_of (levels : list Level.t) (m : Q) (zero : Level.t) :
  In m (map Level.price levels) ->
  exists before after,
    levels = before ++ nth (index_of m (map Level.price levels)) levels zero :: after
    /\ (Level.price (nth (index_of m (map Level.price levels)) levels zero) == m)%Q
    /\ forall level, In level before -> ~ (Level.price level == m)%Q.
Proof.
  induction levels as [| level levels IH]; simpl; [tauto |].
  intros Hin. destruct (Qeq_bool (Level.price level) m) eqn:Heq.
  - exists [], levels. split; [reflexivity |].
    split; [apply Qeq_bool_true; exact Heq | intros ? []].
  - destruct Hin as [Hin | Hin].
    + rewrite Hin, Qeq_bool_refl in Heq. discriminate.
    + destruct (IH Hin) as (before & after & H1 & H2 & H3).
      exists (level :: before), after. split; [simpl; f_equal; exact H1 |].
      split; [exact H2 |].
      intros other [<- | Hother]; [| apply H3; exact Hother].
      intros Habs. apply Qeq_bool_false in Heq. apply Heq. exact Habs.
Qed.

(** X3. WAP weighs one level per side of the lists it is given.  On a side
    that is not empty it is the first level at the greatest price (bids) or at
    the least price (asks): the levels before it are strictly worse and the
    levels after it are no better.  For an empty side it is the level of
    price 0 and volume 0.  When the volumes of the two levels add up to a
    positive number WAP is the quotient of the sum of the two prices, each
    multiplied by the volume of its own level, by the sum of the two volumes;
    otherwise it is 0. *)
Theorem wap_weighs_best_levels (vwap_threshold : Q) (bids asks : list Level.t) :
  exists best_bid best_ask,
    ((bids = [] /\ best_bid = Level.mk 0 0)
     \/ (exists before after,
           bids = before ++ best_bid :: after
           /\ (forall level, In level before -> (Level.price level < Level.price best_bid)%Q)
           /\ (forall level, In level after -> (Level.price level <= Level.price best_bid)%Q)))
    /\ ((asks = [] /\ best_ask = Level.mk 0 0)
        \/ (exists before after,
              asks = before ++ best_ask :: after
              /\ (forall level, In level before -> (Level.price best_ask < Level.price level)%Q)
              /\ (forall level, In level after -> (Level.price best_ask <= Level.price level)%Q)))
    /\ _calculate_middle_price vwap_threshold bids asks WAP
       = if Qltb 0 (Level.amount best_ask + Level.amount best_bid)
         then Ok (Num (Fin ((Level.price best_ask * Level.amount best_ask
                             + Level.price best_bid * Level.amount best_bid)
                            / (Level.amount best_ask + Level.amount best_bid))%Q))
         else Ok DECIMAL_ZERO.
Proof.
  unfold _calculate_middle_price.
  set (zero := Level.mk 0 0).
  set (best_ask := match map Level.price asks with
                   | [] => zero
                   | p :: l => nth (index_of (min_list p l) (map Level.price asks)) asks zero
                   end).
  set (best_bid := match map Level.price bids with
                   | [] => zero
                   | p :: l => nth (index_of (max_list p l) (map Level.price bids)) bids zero
                   end).
  exists best_bid, best_ask. split; [| split; [| reflexivity]].
  - subst best_bid. destruct bids as [| bid bids']; [left; split; reflexivity |].
    right.
    destruct (max_list_spec (map Level.price bids') (Level.price bid)) as [Hin Hmax].
    destruct (nth_index_of (bid :: bids') _ zero Hin) as (before & after & H1 & H2 & H3).
    exists before, after. split; [exact H1 |].
    assert (Hle : forall level, In level (bid :: bids') ->
                    (Level.price level <= max_list (Level.price bid) (map Level.price bids'))%Q).
    { intros level Hlevel. exact (Hmax _ (in_map Level.price _ _ Hlevel)). }
    split; intros level Hlevel.
    + assert (Hl : In level (bid :: bids')).
      { rewrite H1. apply in_or_app. left. exact Hlevel. }
      specialize (Hle _ Hl). specialize (H3 _ Hlevel).
      apply Qle_lteq in Hle. destruct Hle as [Hlt | Heq]; [| contradiction].
      eapply Qlt_le_trans; [exact Hlt |]. apply Qle_lteq. right. symmetry. exact H2.
    + assert (Hl : In level (bid :: bids')).
      { rewrite H1. apply in_or_app. right. right. exact Hlevel. }
      specialize (Hle _ Hl).
      eapply Qle_trans; [exact Hle |]. apply Qle_lteq. right. symmetry. exact H2.
  - subst best_ask. destruct asks as [| ask asks']; [left; split; reflexivity |].
    right.
    destruct (min_list_spec (map Level.price asks') (Level.price ask)) as [Hin Hmin].
    destruct (nth_index_of (ask :: asks') _ zero Hin) as (before & after & H1 & H2 & H3).
    exists before, after. split; [exact H1 |].
    assert (Hle : forall level, In level (ask :: asks') ->
                    (min_list (Level.price ask) (map Level.price asks') <= Level.price level)%Q).
    { intros level Hlevel. exact (Hmin _ (in_map Level.price _ _ Hlevel)). }
    split; intros level Hlevel.
    + assert (Hl : In level (ask :: asks')).
      { rewrite H1. apply in_or_app. left. exact Hlevel. }
      specialize (Hle _ Hl). specialize (H3 _ Hlevel).
      apply Qle_lteq in Hle. destruct Hle as [Hlt | Heq]; [| symmetry in Heq; contradiction].
      eapply Qle_lt_trans; [| exact Hlt]. apply Qle_lteq. right. exact H2.
    + assert (Hl : In level (ask :: asks')).
      { rewrite H1. apply in_or_app. right. right. exact Hlevel. }
      specialize (Hle _ Hl).
      eapply Qle_trans; [| exact Hle]. apply Qle_lteq. right. exact H2.
Qed.

(** The bids hold two levels at the best price 10: the first one is weighed. *)
Lemma wap_weighs_best_levels_witness :
  _calculate_middle_price 30
    [Level.mk 9 5; Level.mk 10 1; Level.mk 10 7] [Level.mk 12 3; Level.mk 13 2] WAP
  = Ok (Num (Fin ((12 * 3 + 10 * 1) / (3 + 1))%Q)).
Proof.
  destruct (wap_weighs_best_levels 30
              [Level.mk 9 5; Level.mk 10 1; Level.mk 10 7] [Level.mk 12 3; Level.mk 13 2])
    as (best_bid & best_ask & Hb & Ha & Hwap).
  destruct Hb as [[Hb _] | (before & after & Hb & Hbefore & Hafter)]; [discriminate |].
  destruct Ha as [[Ha _] | (before' & after' & Ha & Hbefore' & Hafter')]; [discriminate |].
  assert (Ebid : best_bid = Level.mk 10 1).
  { destruct before as [| b0 before].
    { injection Hb as <- <-. exfalso.
      assert (H := Hafter (Level.mk 10 1) (or_introl eq_refl)).
      revert H. simpl. unfold Qle. simpl. lia. }
    injection Hb as <- Hb.
    destruct before as [| b1 before]; [injection Hb as <- _; reflexivity |].
    injection Hb as <- Hb.
    destruct before as [| b2 before].
    { injection Hb as <- _. exfalso.
      assert (H := Hbefore (Level.mk 10 1) (or_intror (or_introl eq_refl))).
      revert H. simpl. unfold Qlt. simpl. lia. }
    injection Hb as <- Hb. destruct before; discriminate. }
  assert (Eask : best_ask = Level.mk 12 3).
  { destruct before' as [| a0 before']; [injection Ha as <- _; reflexivity |].
    injection Ha as <- Ha.
    destruct before' as [| a1 before'].
    { injection Ha as <- _. exfalso.
      assert (H := Hbefore' (Level.mk 12 3) (or_introl eq_refl)).
      revert H. simpl. unfold Qlt. simpl. lia. }
    injection Ha as <- Ha. destruct before'; discriminate. }
  subst best_bid best_ask. exact Hwap.
Defined.

(** X4. On the normalized book the heads of the two sides, which are the
    levels the proposal builder clamps its prices with, hold the greatest bid
    price and the least ask price of the response, and they are the levels that
    SAP and WAP take as the best ones. *)
Theorem normalized_book_best_prices
    (vwap_threshold : Q) (orderbook : OrderBook.t)
    (bid ask : Level.t) (bids' asks' : list Level.t) :
  _parse_order_book orderbook = (bid :: bids', ask :: asks') ->
  (forall level, In level (OrderBook.bids orderbook) ->
     (Level.price level <= Level.price bid)%Q)
  /\ (forall level, In level (OrderBook.asks orderbook) ->
        (Level.price ask <= Level.price level)%Q)
  /\ best_price (bid :: bids') = Ok (Fin (Level.price bid))
  /\ best_price (ask :: asks') = Ok (Fin (Level.price ask))
  /\ _calculate_middle_price vwap_threshold (bid :: bids') (ask :: asks') SAP
     = Ok (Num (Fin ((Level.price ask + Level.price bid) / 2)%Q))
  /\ _calculate_middle_price vwap_threshold (bid :: bids') (ask :: asks') WAP
     = if Qltb 0 (Level.amount ask + Level.amount bid)
       then Ok (Num (Fin ((Level.price ask * Level.amount ask
                           + Level.price bid * Level.amount bid)
                          / (Level.amount ask + Level.amount bid))%Q))
       else Ok DECIMAL_ZERO.
Proof.
  intros Hparse.
  destruct (parse_order_book_sorted_bool orderbook) as [Hb Ha].
  assert (Hpb : Permutation (fst (_parse_order_book orderbook)) (OrderBook.bids orderbook))
    by apply sort_by_perm.
  assert (Hpa : Permutation (snd (_parse_order_book orderbook)) (OrderBook.asks orderbook))
    by apply sort_by_perm.
  rewrite Hparse in Hb, Ha, Hpb, Hpa. simpl in Hb, Ha, Hpb, Hpa.
  apply StronglySorted_inv in Hb as [_ Hb]. apply StronglySorted_inv in Ha as [_ Ha].
  assert (Hbids : Forall (fun y => (y <= Level.price bid)%Q) (map Level.price bids')).
  { apply List.Forall_map. eapply List.Forall_impl; [| exact Hb].
    intros level H. apply Qle_bool_iff in H. exact H. }
  assert (Hasks : Forall (fun y => (Level.price ask <= y)%Q) (map Level.price asks')).
  { apply List.Forall_map. eapply List.Forall_impl; [| exact Ha].
    intros level H. apply Qle_bool_iff in H. exact H. }
  split; [| split; [| split; [reflexivity | split; [reflexivity | split]]]].
  - intros level Hlevel.
    apply (Permutation_in _ (Permutation_sym Hpb)) in Hlevel as [<- | Hlevel]; [lra |].
    rewrite List.Forall_forall in Hb. apply Hb in Hlevel.
    apply Qle_bool_iff in Hlevel. exact Hlevel.
  - intros level Hlevel.
    apply (Permutation_in _ (Permutation_sym Hpa)) in Hlevel as [<- | Hlevel]; [lra |].
    rewrite List.Forall_forall in Ha. apply Ha in Hlevel.
    apply Qle_bool_iff in Hlevel. exact Hlevel.
  - unfold _calculate_middle_price. simpl map. cbv beta iota.
    rewrite (min_list_head _ _ Hasks), (max_list_head _ _ Hbids). reflexivity.
  - unfold _calculate_middle_price. simpl map. cbv beta iota.
    rewrite (min_list_head _ _ Hasks), (max_list_head _ _ Hbids).
    simpl index_of. rewrite !Qeq_bool_refl. reflexivity.
Qed.

Lemma normalized_book_best_prices_witness :
  _calculate_middle_price 30 [Level.mk 10 1; Level.mk 9 2] [Level.mk 12 3; Level.mk 13 1] SAP
  = Ok (Num (Fin ((12 + 10) / 2)%Q)).
Proof.
  apply (normalized_book_best_prices 30
           (OrderBook.mk [Level.mk 9 2; Level.mk 10 1] [Level.mk 13 1; Level.mk 12 3])
           (Level.mk 10 1) (Level.mk 12 3) [Level.mk 9 2] [Level.mk 13 1]).
  reflexivity.
Defined.

(** ** The volume weighted average price *)

Lemma slice_to_prefix {A} (n : Z) (l : list A) : exists rest, l = slice_to n l ++ rest.
Proof.
  unfold slice_to. destruct (0 <=? n); eexists; symmetry; apply firstn_skipn.
Qed.

Lemma slice_to_nonempty {A} (n : Z) (l : list A) : 0 < n -> l <> [] -> slice_to n l <> [].
Proof.
  intros Hn Hl. unfold slice_to. destruct (Z.leb_spec 0 n); [| lia].
  destruct l as [| x l]; [contradiction |].
  destruct (Z.to_nat n) eqn:Hnat; [lia | discriminate].
Qed.

Lemma slice_to_all {A} (n : Z) (l : list A) : Z.of_nat (length l) <= n -> slice_to n l = l.
Proof.
  intros Hn. unfold slice_to. destruct (Z.leb_spec 0 n); [| lia].
  apply firstn_all2. lia.
Qed.

Lemma split_count_positive (VWAP_THRESHOLD : Q) (l : list Level.t) :
  (0 < VWAP_THRESHOLD)%Q -> l <> [] ->
  0 < Qceiling (VWAP_THRESHOLD / 100 * inject_Z (Z.of_nat (length l))).
Proof.
  intros HT Hl.
  assert (Hlen : (0 < inject_Z (Z.of_nat (length l)))%Q).
  { change 0%Q with (inject_Z 0). rewrite <- Zlt_Qlt.
    destruct l; [contradiction | simpl; lia]. }
  pose proof (Qle_ceiling (VWAP_THRESHOLD / 100 * inject_Z (Z.of_nat (length l)))) as Hc.
  assert (Hx : (0 < VWAP_THRESHOLD / 100 * inject_Z (Z.of_nat (length l)))%Q).
  { apply Qmult_lt_0_compat; [| exact Hlen]. apply Qlt_shift_div_l; lra. }
  assert (H0 : (inject_Z 0 < inject_Z (Qceiling (VWAP_THRESHOLD / 100
                                                    * inject_Z (Z.of_nat (length l)))))%Q).
  { change (inject_Z 0) with 0%Q. lra. }
  rewrite Zlt_Qlt. exact H0.
Qed.

(** X5. [_split_percentage] keeps a prefix of each side it is given, the best
    levels of a normalized side: at least one level of a non-empty side when
    the threshold is positive, the whole side when the threshold is 100 or
    more, and nothing when the threshold is zero. *)
Theorem split_percentage_keeps_prefix (VWAP_THRESHOLD : Q) (bids asks : list Level.t) :
  let kept_bids := fst (_split_percentage VWAP_THRESHOLD bids asks) in
  let kept_asks := snd (_split_percentage VWAP_THRESHOLD bids asks) in
  (exists rest, bids = kept_bids ++ rest)
  /\ (exists rest, asks = kept_asks ++ rest)
  /\ ((0 < VWAP_THRESHOLD)%Q ->
      (bids <> [] -> kept_bids <> []) /\ (asks <> [] -> kept_asks <> []))
  /\ ((100 <= VWAP_THRESHOLD)%Q -> kept_bids = bids /\ kept_asks = asks)
  /\ ((VWAP_THRESHOLD == 0)%Q -> kept_bids = [] /\ kept_asks = []).
Proof.
  unfold _split_percentage; simpl.
  assert (Hall : forall (l : list Level.t), (100 <= VWAP_THRESHOLD)%Q ->
                 Z.of_nat (length l)
                 <= Qceiling (VWAP_THRESHOLD / 100 * inject_Z (Z.of_nat (length l)))).
  { intros l HT.
    pose proof (Qle_ceiling (VWAP_THRESHOLD / 100 * inject_Z (Z.of_nat (length l)))) as Hc.
    assert (Hlen : (0 <= inject_Z (Z.of_nat (length l)))%Q).
    { change 0%Q with (inject_Z 0). rewrite <- Zle_Qle. lia. }
    assert (Hx : (inject_Z (Z.of_nat (length l))
                  <= VWAP_THRESHOLD / 100 * inject_Z (Z.of_nat (length l)))%Q).
    { assert (H1 : (1 <= VWAP_THRESHOLD / 100)%Q) by (apply Qle_shift_div_l; lra).
      nra. }
    rewrite Zle_Qle. lra. }
  assert (Hzero : forall (l : list Level.t), (VWAP_THRESHOLD == 0)%Q ->
                  Qceiling (VWAP_THRESHOLD / 100 * inject_Z (Z.of_nat (length l))) = 0).
  { intros l HT.
    rewrite (Qceiling_comp _ (inject_Z 0)); [apply Qceiling_Z |].
    rewrite HT. change (inject_Z 0) with 0%Q. field. }
  split; [apply slice_to_prefix |]. split; [apply slice_to_prefix |].
  split; [| split].
  - intros HT. split; intros Hl; apply slice_to_nonempty; auto using split_count_positive.
  - intros HT. split; apply slice_to_all; auto.
  - intros HT. rewrite !Hzero by exact HT. split; reflexivity.
Qed.

Lemma split_percentage_keeps_prefix_witness :
  fst (_split_percentage 30 [Level.mk 10 1; Level.mk 9 2] [Level.mk 12 3]) <> []
  /\ snd (_split_percentage 100 [Level.mk 10 1; Level.mk 9 2] [Level.mk 12 3]) = [Level.mk 12 3].
Proof.
  split.
  - apply (split_percentage_keeps_prefix 30 [Level.mk 10 1; Level.mk 9 2] [Level.mk 12 3]).
    + reflexivity.
    + discriminate.
  - apply (split_percentage_keeps_prefix 100 [Level.mk 10 1; Level.mk 9 2] [Level.mk 12 3]).
    discriminate.
Defined.

Lemma StronglySorted_nth (l : list Q) (i j : nat) :
  StronglySorted (fun a b => Qle_bool a b = true) l ->
  (i <= j)%nat -> (j < length l)%nat -> (nth i l 0 <= nth j l 0)%Q.
Proof.
  intros Hl. revert i j. induction Hl as [| x l Hl IH Hx]; intros i j Hij Hj; simpl in Hj.
  - lia.
  - destruct j as [| j].
    + assert (i = 0%nat) by lia. subst. simpl. lra.
    + destruct i as [| i]; simpl.
      * rewrite List.Forall_forall in Hx. apply Qle_bool_iff, Hx, nth_In. lia.
      * apply IH; lia.
Qed.

(** A percentile of a non-empty list lies between two of its members. *)
Lemma np_percentile_between (a : list Q) (q : Q) :
  a <> [] -> (0 <= q <= 100)%Q ->
  exists lo hi, In lo a /\ In hi a /\ (lo <= np_percentile a q <= hi)%Q.
Proof.
  intros Ha [Hq0 Hq100]. unfold np_percentile.
  set (sorted := sort_by Qle_bool a).
  set (h := (inject_Z (Z.of_nat (length a) - 1) * q / 100)%Q).
  set (i := Z.to_nat (Qfloor h)).
  set (j := Nat.min (S i) (length a - 1)).
  assert (Hperm : Permutation sorted a) by apply sort_by_perm.
  assert (Hlen : length sorted = length a) by (apply Permutation_length, Hperm).
  assert (Hn : (1 <= length a)%nat) by (destruct a; [contradiction | simpl; lia]).
  assert (HN : (0 <= inject_Z (Z.of_nat (length a) - 1))%Q).
  { change 0%Q with (inject_Z 0). rewrite <- Zle_Qle. lia. }
  assert (Hh0 : (0 <= h)%Q).
  { subst h. apply Qle_shift_div_l; [lra |]. nra. }
  assert (HhN : (h <= inject_Z (Z.of_nat (length a) - 1))%Q).
  { subst h. apply Qle_shift_div_r; [lra |]. nra. }
  assert (Hf0 : 0 <= Qfloor h).
  { rewrite <- (Qfloor_Z 0). apply Qfloor_resp_le. exact Hh0. }
  assert (HfN : Qfloor h <= Z.of_nat (length a) - 1).
  { rewrite <- (Qfloor_Z (Z.of_nat (length a) - 1)). apply Qfloor_resp_le. exact HhN. }
  assert (Hi : (i < length a)%nat) by (subst i; lia).
  assert (Hij : (i <= j)%nat) by (subst j; lia).
  assert (Hj : (j < length a)%nat) by (subst j; lia).
  assert (Hsorted : StronglySorted (fun x y => Qle_bool x y = true) sorted).
  { apply sort_by_sorted.
    - intros x y. apply Qle_bool_total.
    - intros x y z. apply Qle_bool_trans. }
  assert (Hle : (nth i sorted 0 <= nth j sorted 0)%Q).
  { apply StronglySorted_nth; [exact Hsorted | exact Hij | lia]. }
  assert (Hfrac0 : (0 <= h - inject_Z (Qfloor h))%Q) by (pose proof (Qfloor_le h); lra).
  assert (Hfrac1 : (h - inject_Z (Qfloor h) <= 1)%Q).
  { pose proof (Qlt_floor h) as H. rewrite inject_Z_plus in H.
    change (inject_Z 1) with 1%Q in H. lra. }
  exists (nth i sorted 0%Q), (nth j sorted 0%Q).
  split; [| split; [| split]].
  - apply (Permutation_in _ Hperm), nth_In. lia.
  - apply (Permutation_in _ Hperm), nth_In. lia.
  - nra.
  - nra.
Qed.

Lemma filter_sublist_of {A} (keep : A -> bool) (l : list A) : sublist (List.filter keep l) l.
Proof.
  induction l as [| x l IH]; simpl; [constructor |].
  destruct (keep x); constructor; exact IH.
Qed.

Lemma remove_outliers_keeps_least_ask (order_book : list Level.t) (level : Level.t) :
  In level order_book -> (0 < Level.price level)%Q ->
  (forall other, In other order_book -> (Level.price level <= Level.price other)%Q) ->
  In level (_remove_outliers order_book SELL).
Proof.
  intros Hin Hpos Hbest. unfold _remove_outliers.
  apply List.filter_In. split; [exact Hin |]. apply Qltb_lt.
  destruct (np_percentile_between (map Level.price order_book) 75) as (lo & hi & Hlo & _ & H & _).
  { destruct order_book; [contradiction | discriminate]. }
  { lra. }
  apply in_map_iff in Hlo as (other & <- & Hother).
  specialize (Hbest other Hother). lra.
Qed.

Lemma remove_outliers_keeps_greatest_bid (order_book : list Level.t) (level : Level.t) :
  In level order_book -> (0 < Level.price level)%Q ->
  (forall other, In other order_book -> (Level.price other <= Level.price level)%Q) ->
  In level (_remove_outliers order_book BUY).
Proof.
  intros Hin Hpos Hbest. unfold _remove_outliers.
  apply List.filter_In. split; [exact Hin |]. apply Qltb_lt.
  destruct (np_percentile_between (map Level.price order_book) 25) as (lo & hi & _ & Hhi & _ & H).
  { destruct order_book; [contradiction | discriminate]. }
  { lra. }
  apply in_map_iff in Hhi as (other & <- & Hother).
  specialize (Hbest other Hother). lra.
Qed.

(** X6. [_remove_outliers] only drops levels, and it never drops a level of
    the best positive price of its side: an ask whose positive price is the
    least of the side and a bid whose positive price is the greatest of the
    side are kept, so a side of positive prices is never emptied. *)
Theorem remove_outliers_keeps_best (order_book : list Level.t) :
  (forall side, sublist (_remove_outliers order_book side) order_book)
  /\ (forall level,
        In level order_book -> (0 < Level.price level)%Q ->
        (forall other, In other order_book -> (Level.price level <= Level.price other)%Q) ->
        In level (_remove_outliers order_book SELL))
  /\ (forall level,
        In level order_book -> (0 < Level.price level)%Q ->
        (forall other, In other order_book -> (Level.price other <= Level.price level)%Q) ->
        In level (_remove_outliers order_book BUY)).
Proof.
  split; [| split].
  - intros [|]; apply filter_sublist_of.
  - apply remove_outliers_keeps_least_ask.
  - apply remove_outliers_keeps_greatest_bid.
Qed.

Lemma remove_outliers_keeps_best_witness :
  In (Level.mk 12 3) (_remove_outliers [Level.mk 12 3; Level.mk 13 1; Level.mk 40 1] SELL).
Proof.
  destruct (remove_outliers_keeps_best [Level.mk 12 3; Level.mk 13 1; Level.mk 40 1])
    as (_ & Hsell & _).
  apply Hsell.
  - simpl. auto.
  - reflexivity.
  - intros other [<- | [<- | [<- | []]]]; simpl; discriminate.
Defined.

Lemma weighted_of_book (book : list Level.t) :
  map (fun pa : Q * Q => (snd pa * fst pa)%Q)
      (combine (map Level.price book) (map Level.amount book))
  = map (fun level => (Level.amount level * Level.price level)%Q) book.
Proof. induction book as [| level book IH]; simpl; [| rewrite IH]; reflexivity. Qed.

(** The last entry of the quotient of two running sums is the quotient of
    the two sums. *)
Lemma last_running_quotient (xs ys : list Q) :
  length xs = length ys -> xs <> [] ->
  forall accx accy,
    List.last (map (fun xy : Q * Q => np_divide (fst xy) (snd xy))
                   (combine (cumsum_from accx xs) (cumsum_from accy ys))) NaN
    = np_divide (fold_left Qplus xs accx) (fold_left Qplus ys accy).
Proof.
  revert ys. induction xs as [| x xs IH]; intros ys Hlen Hne accx accy; [contradiction |].
  destruct ys as [| y ys]; [discriminate |].
  destruct xs as [| x' xs].
  - destruct ys; [reflexivity | discriminate].
  - destruct ys as [| y' ys]; [discriminate |].
    specialize (IH (y' :: ys) ltac:(simpl in *; lia) ltac:(discriminate)
                   (accx + x)%Q (accy + y)%Q).
    simpl in *. exact IH.
Qed.

Lemma length_cumsum_from (l : list Q) : forall acc, length (cumsum_from acc l) = length l.
Proof. induction l as [| x l IH]; intros acc; simpl; [| rewrite IH]; reflexivity. Qed.

(** The volume of a non-empty list of levels with positive amounts is
    positive. *)
Lemma volume_positive (book : list Level.t) :
  (forall level, In level book -> (0 < Level.amount level)%Q) ->
  forall acc, (0 <= acc)%Q ->
    (acc <= fold_left Qplus (map Level.amount book) acc)%Q
    /\ (book <> [] -> acc < fold_left Qplus (map Level.amount book) acc)%Q.
Proof.
  induction book as [| level book IH]; intros Hbook acc Hacc; simpl.
  - split; [lra | intros H; contradiction].
  - assert (Hamount := Hbook level (or_introl eq_refl)).
    destruct (IH (fun l Hl => Hbook l (or_intror Hl)) (acc + Level.amount level)%Q) as [H1 H2].
    + lra.
    + split; [lra | intros _; lra].
Qed.

Lemma vwap_last (book : list Level.t) :
  book <> [] ->
  List.last (_compute_volume_weighted_average_price book) NaN
  = np_divide (total_value book) (total_amount book).
Proof.
  intros Hbook.
  unfold _compute_volume_weighted_average_price, cumsum, total_value, total_amount.
  rewrite weighted_of_book. apply last_running_quotient.
  - rewrite !length_map. reflexivity.
  - destruct book; [contradiction | discriminate].
Qed.

(** X7. [_compute_volume_weighted_average_price] yields one running quotient
    per level, and the last one, the value VWAP returns, is the traded value of
    the whole list divided by its volume; the division is numpy's, which does
    not raise on a zero volume but yields nan or an infinity. *)
Theorem vwap_is_value_over_volume (book : list Level.t) :
  length (_compute_volume_weighted_average_price book) = length book
  /\ (book <> [] ->
      List.last (_compute_volume_weighted_average_price book) NaN
      = np_divide (total_value book) (total_amount book))
  /\ (book <> [] -> (total_amount book == 0)%Q ->
      List.last (_compute_volume_weighted_average_price book) NaN
      = if Qeq_bool (total_value book) 0 then NaN else Num (Inf (Qltb (total_value book) 0))).
Proof.
  split; [| split].
  - unfold _compute_volume_weighted_average_price, cumsum. rewrite weighted_of_book.
    rewrite length_map, length_combine, !length_cumsum_from, !length_map. lia.
  - apply vwap_last.
  - intros Hbook Hzero. rewrite vwap_last by exact Hbook. unfold np_divide.
    apply Qeq_bool_true in Hzero. rewrite Hzero. reflexivity.
Qed.

Lemma vwap_is_value_over_volume_witness :
  List.last (_compute_volume_weighted_average_price [Level.mk 10 1; Level.mk 12 3]) NaN
  = np_divide (total_value [Level.mk 10 1; Level.mk 12 3])
              (total_amount [Level.mk 10 1; Level.mk 12 3]).
Proof.
  apply (vwap_is_value_over_volume [Level.mk 10 1; Level.mk 12 3]). discriminate.
Defined.

Lemma sublist_slice_to {A} (n : Z) (l : list A) : sublist (slice_to n l) l.
Proof.
  destruct (slice_to_prefix n l) as [rest Hrest].
  rewrite Hrest at 2. apply sublist_inserts_r. reflexivity.
Qed.

Lemma sublist_List_filter {A} (f : A -> bool) (l : list A) : sublist (List.filter f l) l.
Proof.
  induction l as [| x l IH]; simpl; [constructor |].
  destruct (f x); constructor; exact IH.
Qed.

Lemma sublist_remove_outliers order_book side : sublist (_remove_outliers order_book side) order_book.
Proof. unfold _remove_outliers. destruct side; apply sublist_List_filter. Qed.

(** With a positive threshold the levels VWAP considers on a non-empty side
    start with its first level. *)
Lemma split_keeps_head (VWAP_THRESHOLD : Q) (head : Level.t) (rest : list Level.t) :
  (0 < VWAP_THRESHOLD)%Q ->
  exists rest',
    slice_to (Qceiling (VWAP_THRESHOLD / 100 * inject_Z (Z.of_nat (length (head :: rest)))))
             (head :: rest)
    = head :: rest'.
Proof.
  intros HT.
  set (n := Qceiling (VWAP_THRESHOLD / 100 * inject_Z (Z.of_nat (length (head :: rest))))).
  assert (Hne : slice_to n (head :: rest) <> []).
  { apply slice_to_nonempty; [apply split_count_positive; [exact HT | discriminate] | discriminate]. }
  destruct (slice_to_prefix n (head :: rest)) as [after Hafter].
  destruct (slice_to n (head :: rest)) as [| x kept]; [contradiction |].
  injection Hafter as <- _. exists kept. reflexivity.
Qed.

(** X8. VWAP averages what trimming keeps of the book: the kept bids and the
    kept asks are taken from the given bids and asks, in their order.  When
    nothing is kept VWAP is the zero sentinel; otherwise it is numpy's quotient
    of the traded value of the kept levels (the sum of amount times price) by
    their volume, which is a number when every amount of the book is positive.
    With a positive threshold the first level of a side is kept when its price
    is positive and no other level of that side has a better price, so that a
    normalized book with positive prices never gives the zero sentinel. *)
Theorem vwap_averages_trimmed_book (VWAP_THRESHOLD : Q) (bids asks : list Level.t) :
  exists kept_bids kept_asks,
    sublist kept_bids bids /\ sublist kept_asks asks
    /\ _calculate_middle_price VWAP_THRESHOLD bids asks VWAP
       = match kept_bids ++ kept_asks with
         | [] => Ok DECIMAL_ZERO
         | _ => Ok (np_divide (total_value (kept_bids ++ kept_asks))
                              (total_amount (kept_bids ++ kept_asks)))
         end
    /\ ((forall level, In level (bids ++ asks) -> (0 < Level.amount level)%Q) ->
        kept_bids ++ kept_asks <> [] ->
        _calculate_middle_price VWAP_THRESHOLD bids asks VWAP
        = Ok (Num (Fin (total_value (kept_bids ++ kept_asks)
                        / total_amount (kept_bids ++ kept_asks))%Q)))
    /\ ((0 < VWAP_THRESHOLD)%Q ->
        (forall head rest,
           bids = head :: rest -> (0 < Level.price head)%Q ->
           (forall other, In other bids -> (Level.price other <= Level.price head)%Q) ->
           In head kept_bids)
        /\ (forall head rest,
              asks = head :: rest -> (0 < Level.price head)%Q ->
              (forall other, In other asks -> (Level.price head <= Level.price other)%Q) ->
              In head kept_asks)).
Proof.
  unfold _calculate_middle_price, _split_percentage.
  set (nb := Qceiling (VWAP_THRESHOLD / 100 * inject_Z (Z.of_nat (length bids)))).
  set (na := Qceiling (VWAP_THRESHOLD / 100 * inject_Z (Z.of_nat (length asks)))).
  set (kept_bids := match slice_to nb bids with
                    | [] => slice_to nb bids
                    | _ => _remove_outliers (slice_to nb bids) BUY
                    end).
  set (kept_asks := match slice_to na asks with
                    | [] => slice_to na asks
                    | _ => _remove_outliers (slice_to na asks) SELL
                    end).
  exists kept_bids, kept_asks.
  assert (Hsb : sublist kept_bids bids).
  { subst kept_bids. destruct (slice_to nb bids) as [| x l] eqn:E; [apply sublist_nil_l |].
    rewrite <- E. etransitivity; [apply sublist_remove_outliers | apply sublist_slice_to]. }
  assert (Hsa : sublist kept_asks asks).
  { subst kept_asks. destruct (slice_to na asks) as [| x l] eqn:E; [apply sublist_nil_l |].
    rewrite <- E. etransitivity; [apply sublist_remove_outliers | apply sublist_slice_to]. }
  assert (Hwap : match kept_bids ++ kept_asks with
                 | [] => Ok DECIMAL_ZERO
                 | _ :: _ => Ok (List.last (_compute_volume_weighted_average_price
                                             (kept_bids ++ kept_asks)) NaN)
                 end
                 = match kept_bids ++ kept_asks with
                   | [] => Ok DECIMAL_ZERO
                   | _ => Ok (np_divide (total_value (kept_bids ++ kept_asks))
                                        (total_amount (kept_bids ++ kept_asks)))
                   end).
  { destruct (kept_bids ++ kept_asks) as [| level book] eqn:E; [reflexivity |].
    rewrite vwap_last by discriminate. reflexivity. }
  split; [exact Hsb |]. split; [exact Hsa |]. split; [exact Hwap |]. split.
  - intros Hpos Hne. rewrite Hwap.
    destruct (kept_bids ++ kept_asks) as [| level book] eqn:E; [contradiction |].
    rewrite <- E in *.
    assert (Hin : forall l, In l (kept_bids ++ kept_asks) -> (0 < Level.amount l)%Q).
    { intros l Hl. apply Hpos. apply in_app_or in Hl. apply in_or_app.
      destruct Hl as [Hl | Hl]; [left | right];
        apply list_elem_of_In; (eapply elem_of_sublist; [apply list_elem_of_In; exact Hl | eassumption]). }
    destruct (volume_positive _ Hin 0) as [_ Hvol]; [lra |].
    specialize (Hvol Hne). fold (total_amount (kept_bids ++ kept_asks)) in Hvol.
    unfold np_divide.
    assert (Hnz : Qeq_bool (total_amount (kept_bids ++ kept_asks)) 0 = false)
      by (apply Qeq_bool_false; lra).
    rewrite Hnz. reflexivity.
  - intros HT. split.
    + intros head rest -> Hpos Hbest. subst kept_bids nb.
      destruct (split_keeps_head VWAP_THRESHOLD head rest HT) as [rest' Hslice].
      assert (Hsub := sublist_slice_to
                        (Qceiling (VWAP_THRESHOLD / 100
                                   * inject_Z (Z.of_nat (length (head :: rest))))) (head :: rest)).
      rewrite Hslice in *.
      apply remove_outliers_keeps_greatest_bid; [left; reflexivity | exact Hpos |].
      intros other Hother. apply Hbest.
      apply list_elem_of_In. eapply elem_of_sublist; [| exact Hsub].
      apply list_elem_of_In. exact Hother.
    + intros head rest -> Hpos Hbest. subst kept_asks na.
      destruct (split_keeps_head VWAP_THRESHOLD head rest HT) as [rest' Hslice].
      assert (Hsub := sublist_slice_to
                        (Qceiling (VWAP_THRESHOLD / 100
                                   * inject_Z (Z.of_nat (length (head :: rest))))) (head :: rest)).
      rewrite Hslice in *.
      apply remove_outliers_keeps_least_ask; [left; reflexivity | exact Hpos |].
      intros other Hother. apply Hbest.
      apply list_elem_of_In. eapply elem_of_sublist; [| exact Hsub].
      apply list_elem_of_In. exact Hother.
Qed.

(** A book of one bid and one ask: both are kept and VWAP is their traded
    value, 1 * 10 + 3 * 12, over their volume, 1 + 3. *)
Lemma vwap_averages_trimmed_book_witness :
  _calculate_middle_price 30 [Level.mk 10 1] [Level.mk 12 3] VWAP
  = Ok (Num (Fin (total_value [Level.mk 10 1; Level.mk 12 3]
                  / total_amount [Level.mk 10 1; Level.mk 12 3])%Q)).
Proof.
  destruct (vwap_averages_trimmed_book 30 [Level.mk 10 1] [Level.mk 12 3])
    as (kept_bids & kept_asks & Hsb & Hsa & _ & Hfinite & Hkept).
  destruct (Hkept ltac:(reflexivity)) as [Hbid Hask].
  assert (Hb : In (Level.mk 10 1) kept_bids).
  { apply (Hbid _ [] eq_refl); [reflexivity |].
    intros other [<- | []]. simpl. discriminate. }
  assert (Ha : In (Level.mk 12 3) kept_asks).
  { apply (Hask _ [] eq_refl); [reflexivity |].
    intros other [<- | []]. simpl. discriminate. }
  assert (Eb : kept_bids = [Level.mk 10 1]).
  { apply sublist_length in Hsb as Hlen.
    destruct kept_bids as [| x [| y l]]; [destruct Hb | | simpl in Hlen; lia].
    destruct Hb as [-> | []]. reflexivity. }
  assert (Ea : kept_asks = [Level.mk 12 3]).
  { apply sublist_length in Hsa as Hlen.
    destruct kept_asks as [| x [| y l]]; [destruct Ha | | simpl in Hlen; lia].
    destruct Ha as [-> | []]. reflexivity. }
  subst kept_bids kept_asks. apply Hfinite; [| discriminate].
  intros level [<- | [<- | []]]; reflexivity.
Defined.

(** ** Shape of a proposal *)

Lemma map_seq_add {B} (g : nat -> B) (k start len : nat) :
  map (fun i => g (k + i)%nat) (seq start len) = map g (seq (k + start) len).
Proof.
  revert start. induction len as [| len IH]; intros start; simpl; [reflexivity |].
  rewrite IH. repeat f_equal. lia.
Qed.

Lemma map_seq_from {B} (g : nat -> B) (k len : nat) :
  map g (seq k len) = map (fun i => g (k + i)%nat) (seq 0 len).
Proof. rewrite map_seq_add, Nat.add_0_r. reflexivity. Qed.

Lemma new_orders_shape configuration side quantity client_id sz p :
  length (new_orders configuration side quantity client_id sz p) = Z.to_nat quantity
  /\ map Order.client_id (new_orders configuration side quantity client_id sz p)
     = map (fun i => pretty (client_id + N.of_nat i)%N) (seq 0 (Z.to_nat quantity))
  /\ Forall (fun order => Order.side order = side /\ Order.type order = LIMIT
                          /\ Order.market_name order = Configuration.market configuration)
            (new_orders configuration side quantity client_id sz p).
Proof.
  unfold new_orders. split; [| split].
  - rewrite length_map, length_seq. reflexivity.
  - rewrite map_map. reflexivity.
  - apply List.Forall_forall. intros order Hin.
    apply in_map_iff in Hin as (i & <- & _). simpl. auto.
Qed.

Section LayerOrders.

Variable configuration : Configuration.t.
Variable market : Market.t.
Variable side : OrderSide.
Variable market_price : Layer.t -> result Number.
Variable config : Layer.t -> LayerSide.t.
Variable body : nat -> Layer.t -> N * list Order.t -> M (N * list Order.t).

Hypothesis body_eq : forall index layer st,
  body index layer st =
    (let! p := lift (market_price layer) in
     let! size := lift (layer_size (config layer) p) in
     place_layer configuration market side index
                 (LayerSide.quantity (config layer)) p size st).

(** What a loop over the layers adds to its state: orders of its side,
    numbered from the counter it started with, and the counter moved past
    them. *)
Lemma for_layers_added layers :
  forall index st w st' w',
    for_layers body index layers st w = (Ok st', w') ->
    exists added,
      snd st' = snd st ++ added
      /\ fst st' = (fst st + N.of_nat (length added))%N
      /\ map Order.client_id added
         = map (fun i => pretty (fst st + N.of_nat i)%N) (seq 0 (length added))
      /\ Forall (fun order => Order.side order = side /\ Order.type order = LIMIT
                              /\ Order.market_name order = Configuration.market configuration)
                added.
Proof.
  induction layers as [| layer layers IH]; intros index st w st' w' Hrun; simpl in Hrun.
  - inversion Hrun; subst. exists []. simpl.
    rewrite app_nil_r, N.add_0_r. auto.
  - inv_bind Hrun as st1 w1 Hbody.
    apply (body_Ok configuration market side market_price config body body_eq) in Hbody
      as (p & sz & _ & _ & Hout).
    apply IH in Hrun as (added & Hsnd & Hfst & Hids & Hall).
    destruct Hout as [(_ & -> & _) | [(_ & _ & -> & _) | (_ & _ & _ & ->)]];
      [exists added; auto | exists added; auto |].
    simpl in Hsnd, Hfst, Hids.
    set (quantity := LayerSide.quantity (config layer)) in *.
    destruct (new_orders_shape configuration side quantity (fst st) sz p) as (Hlen & Hnew & Hforall).
    exists (new_orders configuration side quantity (fst st) sz p ++ added).
    split; [rewrite Hsnd, app_assoc; reflexivity |].
    split; [rewrite Hfst, length_app, Hlen; lia |].
    split; [| apply Forall_app; split; assumption].
    rewrite map_app, Hnew, Hids, length_app, Hlen, seq_app, map_app. f_equal.
    etransitivity; [| symmetry; apply map_seq_from].
    apply map_ext. intros i. f_equal. lia.
Qed.

End LayerOrders.

(** X9. The orders of a proposal are numbered in the order of the list: the
    client ids are "1", "2", ... without a gap or a repetition, every bid comes
    before every ask, and every order is a LIMIT order on the configured
    market. *)
Theorem proposal_client_ids_are_consecutive
    (vwap_threshold : Q) (gateway : Gateway) (configuration : Configuration.t)
    (market : Market.t) (w : Worker) (proposal : list Order.t) (w' : Worker) :
  _create_proposal vwap_threshold gateway configuration market w = (Ok proposal, w') ->
  map Order.client_id proposal
  = map (fun i => pretty (N.of_nat i)) (seq 1 (length proposal))
  /\ NoDup (map Order.client_id proposal)
  /\ (exists bid_orders ask_orders,
        proposal = bid_orders ++ ask_orders
        /\ Forall (fun order => Order.side order = BUY) bid_orders
        /\ Forall (fun order => Order.side order = SELL) ask_orders)
  /\ Forall (fun order => Order.type order = LIMIT
                          /\ Order.market_name order = Configuration.market configuration)
            proposal.
Proof.
  intros Hrun.
  apply create_proposal_Ok in Hrun
    as (book & u & w1 & bid_state & w2 & ask_state & _ & _ & _ & Hbids & Hasks & ->).
  apply (for_layers_added configuration market BUY _ _ _ (bid_layer_eq configuration market u _))
    in Hbids as (bid_orders & Hb1 & Hb2 & Hb3 & Hb4).
  apply (for_layers_added configuration market SELL _ _ _ (ask_layer_eq configuration market u _))
    in Hasks as (ask_orders & Ha1 & Ha2 & Ha3 & Ha4).
  simpl in Hb1, Hb2, Hb3, Ha1, Ha2, Ha3. rewrite Hb1, Ha1. rewrite Hb2 in Ha3.
  assert (Hids : map Order.client_id (bid_orders ++ ask_orders)
                 = map (fun i => pretty (N.of_nat i))
                       (seq 1 (length (bid_orders ++ ask_orders)))).
  { rewrite map_app, Hb3, Ha3, length_app, seq_app, map_app. f_equal.
    - etransitivity; [| symmetry; apply map_seq_from].
      apply map_ext. intros i. f_equal. lia.
    - etransitivity; [| symmetry; apply map_seq_from].
      apply map_ext. intros i. f_equal. lia. }
  split; [exact Hids |]. split; [| split].
  - rewrite Hids.
    assert (Hinj : Inj eq eq (fun i : nat => pretty (N.of_nat i))).
    { intros i j Hij. apply (inj pretty) in Hij. lia. }
    apply (NoDup_fmap_2 _), NoDup_seq.
  - exists bid_orders, ask_orders. split; [reflexivity |].
    split; (eapply List.Forall_impl; [| eassumption]); simpl; tauto.
  - apply Forall_app. split; (eapply List.Forall_impl; [| eassumption]); simpl; tauto.
Qed.

Lemma proposal_client_ids_are_consecutive_witness :
  exists proposal w',
    _create_proposal 30 (Scenario.gateway Scenario.book)
        (Scenario.configuration (Some MIDDLE) (Some SAP) [Scenario.layer; Scenario.thin_layer])
        Scenario.market Scenario.worker
      = (Ok proposal, w')
    /\ map Order.client_id proposal = ["1"; "2"; "3"]%string.
Proof.
  destruct (_create_proposal 30 (Scenario.gateway Scenario.book)
              (Scenario.configuration (Some MIDDLE) (Some SAP)
                                      [Scenario.layer; Scenario.thin_layer])
              Scenario.market Scenario.worker) as [[proposal | e] w'] eqn:Hrun;
    [| vm_compute in Hrun; discriminate].
  exists proposal, w'. split; [reflexivity |].
  destruct (proposal_client_ids_are_consecutive _ _ _ _ _ _ _ Hrun) as (Hids & _).
  rewrite Hids.
  assert (Hlen : length proposal = 3%nat).
  { vm_compute in Hrun. inversion Hrun. reflexivity. }
  rewrite Hlen. vm_compute. reflexivity.
Defined.

(** ** Reference price of the builder *)

(** The price of the last fill, with the handler of the builder around it:
    the first entry of the cached filled orders; NaN when the cache is empty;
    zero, with the failure logged, when nothing was ever fetched. *)
Lemma last_filled_order_price_run gateway w :
  try_except (_get_last_filled_order_price gateway)
             (fun exception => let! _ := ignore_exception exception in ret DECIMAL_ZERO) w
  = match _filled_orders w with
    | Some ((_, order) :: _) => (Ok (Num (Fin (VenueOrder.price order))), w)
    | Some [] => (Ok DECIMAL_NAN, w)
    | None => (Ok DECIMAL_ZERO, log_events w [IgnoredException AttributeError])
    end.
Proof.
  unfold try_except, _get_last_filled_order_price, _get_last_filled_order,
    _get_filled_orders, bind, get, ret, raise, ignore_exception, emit.
  destruct (_filled_orders w) as [[| [key order] rest] |]; reflexivity.
Qed.

Lemma used_price_run vwap_threshold gateway configuration bids asks w t :
  kujira_get_ticker gateway = Ok t ->
  used_price vwap_threshold gateway configuration bids asks w
  = (let! last_filled_order_price :=
       try_except (_get_last_filled_order_price gateway)
                  (fun exception => let! _ := ignore_exception exception in ret DECIMAL_ZERO) in
     match default TICKER (Strategy.price_strategy (Configuration.strategy configuration)) with
     | TICKER => ret (Num (Fin t))
     | MIDDLE =>
         lift (_calculate_middle_price vwap_threshold bids asks
                 (default SAP (Strategy.middle_price_strategy
                                 (Configuration.strategy configuration))))
     | LAST_FILL => ret last_filled_order_price
     end) w.
Proof.
  intros Hticker. unfold used_price, _get_market_price, _get_base_ticker_price.
  unfold bind at 1. unfold bind at 1. unfold lift at 1. rewrite Hticker. reflexivity.
Qed.

Lemma used_price_no_ticker vwap_threshold gateway configuration bids asks w e :
  kujira_get_ticker gateway = Raise e ->
  used_price vwap_threshold gateway configuration bids asks w = (Raise e, w).
Proof.
  intros Hticker. unfold used_price, _get_market_price, _get_base_ticker_price.
  unfold bind at 1. unfold bind at 1. unfold lift at 1. rewrite Hticker. reflexivity.
Qed.

Lemma create_proposal_no_price vwap_threshold gateway configuration market w book e w1 :
  kujira_get_order_book gateway = Ok book ->
  used_price vwap_threshold gateway configuration
             (fst (_parse_order_book book)) (snd (_parse_order_book book)) w = (Raise e, w1) ->
  _create_proposal vwap_threshold gateway configuration market w = (Raise e, w1).
Proof.
  intros Hbook Hused. unfold _create_proposal, _get_order_book.
  unfold bind at 1. unfold lift at 1. rewrite Hbook.
  unfold bind at 1. rewrite Hused. reflexivity.
Qed.

Lemma create_proposal_layers vwap_threshold gateway configuration market w book d w1 u :
  kujira_get_order_book gateway = Ok book ->
  used_price vwap_threshold gateway configuration
             (fst (_parse_order_book book)) (snd (_parse_order_book book)) w = (Ok d, w1) ->
  check_used_price (Some d) = Ok u ->
  _create_proposal vwap_threshold gateway configuration market w
  = (let layers := Strategy.layers (Configuration.strategy configuration) in
     let! bid_state :=
       for_layers (bid_layer configuration market u (snd (_parse_order_book book)))
                  1 layers (1%N, []) in
     let! ask_state :=
       for_layers (ask_layer configuration market u (fst (_parse_order_book book)))
                  1 layers (fst bid_state, []) in
     ret ([] ++ snd bid_state ++ snd ask_state)) w1.
Proof.
  intros Hbook Hused Hcheck. unfold _create_proposal, _get_order_book.
  unfold bind at 1. unfold lift at 1. rewrite Hbook.
  unfold bind at 1. rewrite Hused.
  unfold bind at 1. unfold lift at 1. rewrite Hcheck. reflexivity.
Qed.

(** X10. The builder asks the venue for the order book and then for the
    ticker whatever the price strategy is: when either request fails the
    builder fails with the same error and leaves the worker untouched, also
    when the strategy (MIDDLE, LAST_FILL) never looks at the ticker. *)
Theorem venue_failure_fails_builder
    (vwap_threshold : Q) (gateway : Gateway) (configuration : Configuration.t)
    (market : Market.t) (w : Worker) (e : exn) :
  (kujira_get_order_book gateway = Raise e ->
   _create_proposal vwap_threshold gateway configuration market w = (Raise e, w))
  /\ (forall book,
        kujira_get_order_book gateway = Ok book ->
        kujira_get_ticker gateway = Raise e ->
        _create_proposal vwap_threshold gateway configuration market w = (Raise e, w)).
Proof.
  split.
  - intros Hbook. unfold _create_proposal, _get_order_book.
    unfold bind at 1. unfold lift at 1. rewrite Hbook. reflexivity.
  - intros book Hbook Hticker.
    eapply create_proposal_no_price; [exact Hbook |].
    apply used_price_no_ticker, Hticker.
Qed.

Lemma venue_failure_fails_builder_witness :
  _create_proposal 30 Scenario.down_gateway
    (Scenario.configuration (Some LAST_FILL) None [Scenario.layer])
    Scenario.market Scenario.worker
  = (Raise (GatewayError "down"), Scenario.worker).
Proof.
  apply (venue_failure_fails_builder 30 Scenario.down_gateway). reflexivity.
Defined.

(** X11. With the TICKER strategy, which is also the strategy of a
    configuration that names none, the reference price is the price of the
    ticker whatever the book holds, and a ticker that is not positive makes
    the builder fail with "Invalid price". *)
Theorem ticker_strategy_uses_ticker
    (vwap_threshold : Q) (gateway : Gateway) (configuration : Configuration.t)
    (market : Market.t) (w : Worker) (t : Q) :
  default TICKER (Strategy.price_strategy (Configuration.strategy configuration)) = TICKER ->
  kujira_get_ticker gateway = Ok t ->
  exists events,
    Forall is_ignored events
    /\ (forall bids asks,
          used_price vwap_threshold gateway configuration bids asks w
          = (Ok (Num (Fin t)), log_events w events))
    /\ (forall book,
          kujira_get_order_book gateway = Ok book -> (t <= 0)%Q ->
          _create_proposal vwap_threshold gateway configuration market w
          = (Raise (InvalidPrice (Some (Num (Fin t)))), log_events w events)).
Proof.
  intros Hstrategy Hticker.
  destruct (last_filled_order_price_handled gateway w) as (d & events & Hlast & Hignored).
  assert (Hused : forall bids asks,
            used_price vwap_threshold gateway configuration bids asks w
            = (Ok (Num (Fin t)), log_events w events)).
  { intros bids asks. rewrite (used_price_run _ _ _ _ _ _ t Hticker).
    unfold bind at 1. rewrite Hlast, Hstrategy. reflexivity. }
  exists events. split; [exact Hignored |]. split; [exact Hused |].
  intros book Hbook Ht.
  eapply create_proposal_rejects; [exact Hbook | apply Hused |].
  unfold check_used_price, Decimal_le, DECIMAL_ZERO, rbind, Number_le, Number_lt.
  apply Qltb_ge in Ht. rewrite Ht. reflexivity.
Qed.

Lemma ticker_strategy_uses_ticker_witness :
  exists events,
    used_price 30 (Scenario.gateway Scenario.book) (Scenario.configuration None None [])
               [] [] Scenario.worker
    = (Ok (Num (Fin 11)), log_events Scenario.worker events).
Proof.
  destruct (ticker_strategy_uses_ticker 30 (Scenario.gateway Scenario.book)
              (Scenario.configuration None None []) Scenario.market Scenario.worker 11)
    as (events & _ & Hused & _); [reflexivity | reflexivity |].
  exists events. apply Hused.
Defined.

(** X12. With the LAST_FILL strategy the reference price is the price of the
    first entry of the cached filled orders.  When the venue reported no filled
    order the price is NaN and the builder fails with an invalid decimal
    operation; when the filled orders were never fetched the failure is logged,
    the price is zero and the builder fails with "Invalid price". *)
Theorem last_fill_strategy_needs_a_fill
    (vwap_threshold : Q) (gateway : Gateway) (configuration : Configuration.t)
    (market : Market.t) (w : Worker) (t : Q) (book : OrderBook.t) :
  Strategy.price_strategy (Configuration.strategy configuration) = Some LAST_FILL ->
  kujira_get_ticker gateway = Ok t ->
  kujira_get_order_book gateway = Ok book ->
  (forall id order rest bids asks,
     _filled_orders w = Some ((id, order) :: rest) ->
     used_price vwap_threshold gateway configuration bids asks w
     = (Ok (Num (Fin (VenueOrder.price order))), w))
  /\ (_filled_orders w = Some [] ->
      _create_proposal vwap_threshold gateway configuration market w
      = (Raise InvalidOperation, w))
  /\ (_filled_orders w = None ->
      _create_proposal vwap_threshold gateway configuration market w
      = (Raise (InvalidPrice (Some DECIMAL_ZERO)),
         log_events w [IgnoredException AttributeError])).
Proof.
  intros Hstrategy Hticker Hbook.
  assert (Hused : forall bids asks,
            used_price vwap_threshold gateway configuration bids asks w
            = match _filled_orders w with
              | Some ((_, order) :: _) => (Ok (Num (Fin (VenueOrder.price order))), w)
              | Some [] => (Ok DECIMAL_NAN, w)
              | None => (Ok DECIMAL_ZERO, log_events w [IgnoredException AttributeError])
              end).
  { intros bids asks. rewrite (used_price_run _ _ _ _ _ _ t Hticker).
    unfold bind at 1. rewrite last_filled_order_price_run, Hstrategy.
    destruct (_filled_orders w) as [[| [key order] rest] |]; reflexivity. }
  split; [| split].
  - intros id order rest bids asks Hcache. rewrite Hused, Hcache. reflexivity.
  - intros Hcache. eapply create_proposal_rejects; [exact Hbook | |].
    + rewrite Hused, Hcache. reflexivity.
    + reflexivity.
  - intros Hcache. eapply create_proposal_rejects; [exact Hbook | |].
    + rewrite Hused, Hcache. reflexivity.
    + reflexivity.
Qed.

Lemma last_fill_strategy_needs_a_fill_witness :
  _create_proposal 30 (Scenario.gateway Scenario.book)
    (Scenario.configuration (Some LAST_FILL) None [Scenario.layer])
    Scenario.market (mkWorker [] [] None None (Some []) [])
  = (Raise InvalidOperation, mkWorker [] [] None None (Some []) []).
Proof.
  apply (last_fill_strategy_needs_a_fill 30 (Scenario.gateway Scenario.book)
           (Scenario.configuration (Some LAST_FILL) None [Scenario.layer])
           Scenario.market (mkWorker [] [] None None (Some []) []) 11 Scenario.book);
    reflexivity.
Defined.

(** X13. The best price of an empty side cannot be read: once the reference
    price is accepted, a configuration without layers gives the empty proposal,
    but with at least one layer an order book without asks makes the builder
    fail with an attribute error at the first bid layer, and an order book
    without bids makes it fail as well. *)
Theorem empty_side_fails_builder
    (vwap_threshold : Q) (gateway : Gateway) (configuration : Configuration.t)
    (market : Market.t) (w w1 : Worker) (book : OrderBook.t) (d : Decimal) (u : Number) :
  kujira_get_order_book gateway = Ok book ->
  used_price vwap_threshold gateway configuration
             (fst (_parse_order_book book)) (snd (_parse_order_book book)) w = (Ok d, w1) ->
  check_used_price (Some d) = Ok u ->
  (Strategy.layers (Configuration.strategy configuration) = [] ->
   _create_proposal vwap_threshold gateway configuration market w = (Ok [], w1))
  /\ (Strategy.layers (Configuration.strategy configuration) <> [] ->
      OrderBook.asks book = [] ->
      _create_proposal vwap_threshold gateway configuration market w
      = (Raise AttributeError, w1))
  /\ (Strategy.layers (Configuration.strategy configuration) <> [] ->
      OrderBook.bids book = [] ->
      is_raise (fst (_create_proposal vwap_threshold gateway configuration market w))).
Proof.
  intros Hbook Hused Hcheck.
  rewrite (create_proposal_layers _ _ _ _ _ _ _ _ _ Hbook Hused Hcheck).
  destruct (Strategy.layers (Configuration.strategy configuration)) as [| layer layers].
  - split; [reflexivity |]. split; intros H; contradiction.
  - split; [discriminate |]. split; intros _ Hside.
    + unfold _parse_order_book. rewrite Hside. reflexivity.
    + cbv zeta. unfold bind at 1.
      destruct (for_layers _ 1 (layer :: layers) (1%N, []) w1) as [[bid_state | e] w2];
        [| exact I].
      unfold _parse_order_book. rewrite Hside. exact I.
Qed.

Lemma empty_side_fails_builder_witness :
  _create_proposal 30 (Scenario.gateway (OrderBook.mk [Level.mk 10 1] []))
    (Scenario.configuration (Some TICKER) None [Scenario.layer])
    Scenario.market Scenario.worker
  = (Raise AttributeError, log_events Scenario.worker [IgnoredException AttributeError]).
Proof.
  apply (empty_side_fails_builder 30 (Scenario.gateway (OrderBook.mk [Level.mk 10 1] []))
           (Scenario.configuration (Some TICKER) None [Scenario.layer])
           Scenario.market Scenario.worker
           (log_events Scenario.worker [IgnoredException AttributeError])
           (OrderBook.mk [Level.mk 10 1] []) (Num (Fin 11)) (Fin 11)).
  - reflexivity.
  - reflexivity.
  - reflexivity.
  - discriminate.
  - reflexivity.
Defined.

(** ** Budget adjuster: what the walk keeps *)

Lemma Affords_sublist free_base free_quote proposal out :
  Affords free_base free_quote proposal out -> sublist out proposal.
Proof. induction 1; constructor; assumption. Qed.

Lemma spent_cons side order orders :
  spent side (order :: orders)
  = if on_side side order then (Order.amount order + spent side orders)%Q
    else spent side orders.
Proof. unfold spent. simpl. destruct (on_side side order); reflexivity. Qed.

Lemma spent_none side orders : List.filter (on_side side) orders = [] -> spent side orders = 0%Q.
Proof. unfold spent. intros ->. reflexivity. Qed.

Lemma on_side_spec side order : on_side side order = true <-> Order.side order = side.
Proof. unfold on_side. destruct side, (Order.side order); split; congruence. Qed.

Lemma on_side_other side order :
  Order.side order <> side -> on_side side order = false.
Proof.
  intros H. destruct (on_side side order) eqn:Hon; [| reflexivity].
  apply on_side_spec in Hon. contradiction.
Qed.

Lemma filter_cons_if {A} (f : A -> bool) x l :
  List.filter f (x :: l) = if f x then x :: List.filter f l else List.filter f l.
Proof. reflexivity. Qed.

Lemma Affords_spent free_base free_quote proposal out :
  Affords free_base free_quote proposal out ->
  (List.filter (on_side BUY) out <> [] -> (spent BUY out < free_quote)%Q)
  /\ (List.filter (on_side SELL) out <> [] -> (spent SELL out < free_base)%Q).
Proof.
  induction 1 as [free_base free_quote
                 | free_base free_quote order rest out Hside Hamount _ [IHb IHs]
                 | free_base free_quote order rest out Hside Hamount _ IH
                 | free_base free_quote order rest out Hside Hamount _ [IHb IHs]
                 | free_base free_quote order rest out Hside Hamount _ IH];
    try exact IH.
  - split; intros H; contradiction.
  - assert (Hb : on_side BUY order = true) by (apply on_side_spec; exact Hside).
    assert (Hs : on_side SELL order = false) by (apply on_side_other; congruence).
    rewrite !spent_cons, !filter_cons_if, Hb, Hs. split; [| exact IHs].
    intros _. destruct (List.filter (on_side BUY) out) as [| o l] eqn:Hfilter.
    + rewrite (spent_none _ _ Hfilter). lra.
    + specialize (IHb ltac:(discriminate)). lra.
  - assert (Hb : on_side BUY order = false) by (apply on_side_other; congruence).
    assert (Hs : on_side SELL order = true) by (apply on_side_spec; exact Hside).
    rewrite !spent_cons, !filter_cons_if, Hb, Hs. split; [exact IHb |].
    intros _. destruct (List.filter (on_side SELL) out) as [| o l] eqn:Hfilter.
    + rewrite (spent_none _ _ Hfilter). lra.
    + specialize (IHs ltac:(discriminate)). lra.
Qed.

Lemma Affords_again free_base free_quote proposal out :
  Affords free_base free_quote proposal out -> Affords free_base free_quote out out.
Proof.
  induction 1; try assumption.
  - constructor.
  - apply Affords_buy; assumption.
  - apply Affords_sell; assumption.
Qed.

Lemma adjust_proposal_run gateway market proposal w balances free_base free_quote :
  _balances w = Some balances ->
  Balances.tokens balances !! Token.id (Market.baseToken market) = Some free_base ->
  Balances.tokens balances !! Token.id (Market.quoteToken market) = Some free_quote ->
  _adjust_proposal_to_budget gateway market proposal w
  = (Ok (adjust_walk free_base free_quote proposal), w).
Proof.
  intros Hcache Hbase Hquote.
  unfold _adjust_proposal_to_budget, _get_balances, bind, get, ret, lift, free_balance.
  rewrite Hcache, Hbase, Hquote. reflexivity.
Qed.

(** X14. The budget adjuster only drops orders, keeping the others in the
    order of the proposal, and it never spends a balance entirely: when it
    keeps a BUY order, the amounts of the BUY orders it keeps add up to less
    than the free quote balance, and when it keeps a SELL order, the amounts of
    the SELL orders it keeps add up to less than the free base balance.  It
    reads the cached balances and does not change the worker. *)
Theorem budget_adjuster_never_overspends
    (gateway : Gateway) (market : Market.t) (w : Worker) (balances : Balances.t)
    (free_base free_quote : Q) (proposal : list Order.t) :
  _balances w = Some balances ->
  Balances.tokens balances !! Token.id (Market.baseToken market) = Some free_base ->
  Balances.tokens balances !! Token.id (Market.quoteToken market) = Some free_quote ->
  exists out,
    _adjust_proposal_to_budget gateway market proposal w = (Ok out, w)
    /\ sublist out proposal
    /\ (List.filter (on_side BUY) out <> [] -> (spent BUY out < free_quote)%Q)
    /\ (List.filter (on_side SELL) out <> [] -> (spent SELL out < free_base)%Q).
Proof.
  intros Hcache Hbase Hquote.
  exists (adjust_walk free_base free_quote proposal).
  split; [apply (adjust_proposal_run _ _ _ _ balances); assumption |].
  pose proof (adjust_walk_Affords free_base free_quote proposal) as H.
  split; [eapply Affords_sublist; exact H |].
  eapply Affords_spent; exact H.
Qed.

Lemma budget_adjuster_never_overspends_witness :
  exists out,
    _adjust_proposal_to_budget Scenario.down_gateway Scenario.market Scenario.proposal_S4
                               Scenario.funded_worker
    = (Ok out, Scenario.funded_worker)
    /\ (spent BUY out < 7)%Q /\ (spent SELL out < 4)%Q.
Proof.
  edestruct (budget_adjuster_never_overspends Scenario.down_gateway Scenario.market
               Scenario.funded_worker) as (out & Hrun & _ & Hbuy & Hsell);
    [reflexivity | vm_compute; reflexivity | vm_compute; reflexivity |].
  exists out. split; [exact Hrun |].
  assert (Hout : out = adjust_walk 4 7 Scenario.proposal_S4).
  { vm_compute in Hrun. inversion Hrun. reflexivity. }
  split; [apply Hbuy | apply Hsell]; rewrite Hout; vm_compute; discriminate.
Defined.

(** X15. Adjusting a proposal that was already adjusted to the same balances
    keeps all of it. *)
Theorem budget_adjuster_idempotent
    (gateway : Gateway) (market : Market.t) (w w1 : Worker)
    (proposal out : list Order.t) :
  _adjust_proposal_to_budget gateway market proposal w = (Ok out, w1) ->
  _adjust_proposal_to_budget gateway market out w1 = (Ok out, w1).
Proof.
  intros Hrun.
  unfold _adjust_proposal_to_budget, _get_balances, bind, get, ret, raise, lift, free_balance
    in Hrun.
  destruct (_balances w) as [balances |] eqn:Hcache; [| discriminate].
  destruct (Balances.tokens balances !! Token.id (Market.baseToken market))
    as [free_base |] eqn:Hbase; [| discriminate].
  destruct (Balances.tokens balances !! Token.id (Market.quoteToken market))
    as [free_quote |] eqn:Hquote; [| discriminate].
  injection Hrun as <- <-.
  rewrite (adjust_proposal_run _ _ _ _ balances free_base free_quote Hcache Hbase Hquote).
  f_equal. f_equal.
  eapply Affords_deterministic; [apply adjust_walk_Affords |].
  eapply Affords_again, adjust_walk_Affords.
Qed.

Lemma budget_adjuster_idempotent_witness :
  _adjust_proposal_to_budget Scenario.down_gateway Scenario.market
    [Order.mk "1" "KUJI-USK" LIMIT BUY 5 (Fin 9); Order.mk "3" "KUJI-USK" LIMIT SELL 3 (Fin 12)]
    Scenario.funded_worker
  = (Ok [Order.mk "1" "KUJI-USK" LIMIT BUY 5 (Fin 9);
         Order.mk "3" "KUJI-USK" LIMIT SELL 3 (Fin 12)], Scenario.funded_worker).
Proof.
  apply (budget_adjuster_idempotent Scenario.down_gateway Scenario.market
           Scenario.funded_worker Scenario.funded_worker Scenario.proposal_S4).
  vm_compute. reflexivity.
Defined.

(** X16. The budget adjuster fails on a balance it cannot find: with the empty
    bag of a worker that never fetched its balances, reading the attribute
    [tokens] raises an attribute error, and otherwise the id of the base token,
    then the id of the quote token, must be among the tokens or a key error
    names the missing id.  It fails before looking at the proposal and leaves
    the worker untouched. *)
Theorem budget_adjuster_missing_balance
    (gateway : Gateway) (market : Market.t) (w : Worker) (proposal : list Order.t) :
  (_balances w = None ->
   _adjust_proposal_to_budget gateway market proposal w = (Raise AttributeError, w))
  /\ (forall balances,
        _balances w = Some balances ->
        Balances.tokens balances !! Token.id (Market.baseToken market) = None ->
        _adjust_proposal_to_budget gateway market proposal w
        = (Raise (KeyError (Token.id (Market.baseToken market))), w))
  /\ (forall balances free_base,
        _balances w = Some balances ->
        Balances.tokens balances !! Token.id (Market.baseToken market) = Some free_base ->
        Balances.tokens balances !! Token.id (Market.quoteToken market) = None ->
        _adjust_proposal_to_budget gateway market proposal w
        = (Raise (KeyError (Token.id (Market.quoteToken market))), w)).
Proof.
  unfold _adjust_proposal_to_budget, _get_balances, bind, get, ret, raise, lift, free_balance.
  split; [| split].
  - intros ->. reflexivity.
  - intros balances -> ->. reflexivity.
  - intros balances free_base -> -> ->. reflexivity.
Qed.

(** A worker that never fetched its balances, and a worker whose balances
    hold the base token only. *)
Lemma budget_adjuster_missing_balance_witness :
  _adjust_proposal_to_budget (Scenario.gateway Scenario.book) Scenario.market
                             Scenario.proposal_S4 Scenario.worker
  = (Raise AttributeError, Scenario.worker)
  /\ _adjust_proposal_to_budget (Scenario.gateway Scenario.book) Scenario.market
       Scenario.proposal_S4
       (mkWorker [] [] (Some (Balances.mk (<["kuji"%string := 4%Q]> ∅))) None None [])
     = (Raise (KeyError "usk"),
        mkWorker [] [] (Some (Balances.mk (<["kuji"%string := 4%Q]> ∅))) None None []).
Proof.
  split.
  - apply (budget_adjuster_missing_balance (Scenario.gateway Scenario.book) Scenario.market
             Scenario.worker Scenario.proposal_S4).
    reflexivity.
  - apply (proj2 (proj2 (budget_adjuster_missing_balance
                           (Scenario.gateway Scenario.book) Scenario.market
                           (mkWorker [] [] (Some (Balances.mk (<["kuji"%string := 4%Q]> ∅)))
                                     None None [])
                           Scenario.proposal_S4))
                 (Balances.mk (<["kuji"%string := 4%Q]> ∅)) 4%Q);
      [reflexivity | vm_compute; reflexivity | vm_compute; reflexivity].
Defined.

(** ** Order reconciler: failures and the next tick *)

Lemma replace_orders_run gateway configuration market proposal w :
  proposal <> [] ->
  _replace_orders gateway configuration market proposal w
  = match kujira_post_orders gateway (map (wire_order configuration market) proposal) with
    | Ok response =>
        (Ok response,
         mkWorker (map fst response) (_tracked_orders_ids w ++ map fst response)
                  (_balances w) (_open_orders w) (_filled_orders w)
                  (trace w ++ [PostOrders (map (wire_order configuration market) proposal)]))
    | Raise e =>
        (Raise e, log_events w [PostOrders (map (wire_order configuration market) proposal)])
    end.
Proof.
  intros Hne. destruct proposal as [| candidate rest]; [contradiction |].
  unfold _replace_orders. cbn [map].
  unfold bind, emit, lift, get, set_tracked, ret.
  destruct (kujira_post_orders gateway _); reflexivity.
Qed.

(** X17. When the venue rejects the placement request, [_replace_orders]
    raises the error of the venue after sending the request, and both tracking
    lists stay as they were: the orders of the previous placement remain the
    currently tracked ones. *)
Theorem replace_orders_failure_keeps_tracking
    (gateway : Gateway) (configuration : Configuration.t) (market : Market.t)
    (proposal : list Order.t) (w : Worker) (e : exn) :
  proposal <> [] ->
  kujira_post_orders gateway (map (wire_order configuration market) proposal) = Raise e ->
  exists w',
    _replace_orders gateway configuration market proposal w = (Raise e, w')
    /\ appended w w' [PostOrders (map (wire_order configuration market) proposal)]
    /\ _currently_tracked_orders_ids w' = _currently_tracked_orders_ids w
    /\ _tracked_orders_ids w' = _tracked_orders_ids w.
Proof.
  intros Hne Hpost. rewrite (replace_orders_run _ _ _ _ _ Hne), Hpost.
  eexists. split; [reflexivity |]. repeat split.
Qed.

Lemma replace_orders_failure_keeps_tracking_witness :
  exists w',
    _replace_orders Scenario.down_gateway (Scenario.configuration None None []) Scenario.market
      [Order.mk "7" "KUJI-USK" LIMIT BUY 5 (Fin 9)]
      (mkWorker ["5"] ["4"; "5"] None None None [])
    = (Raise (GatewayError "down"), w')
    /\ _currently_tracked_orders_ids w' = ["5"]%string
    /\ _tracked_orders_ids w' = ["4"; "5"]%string.
Proof.
  destruct (replace_orders_failure_keeps_tracking Scenario.down_gateway
              (Scenario.configuration None None []) Scenario.market
              [Order.mk "7" "KUJI-USK" LIMIT BUY 5 (Fin 9)]
              (mkWorker ["5"] ["4"; "5"] None None None []) (GatewayError "down"))
    as (w' & Hrun & _ & Hcurrent & Htracked); [discriminate | reflexivity |].
  exists w'. split; [exact Hrun |]. split; [exact Hcurrent | exact Htracked].
Defined.

(** The ids of the delete request are the elements of
    (tracked ∩ open) − currently tracked. *)
Lemma cancel_untracked_ids gateway open_orders_ids w :
  let ids := elements (((list_to_set (_tracked_orders_ids w) : gset string)
                          ∩ list_to_set open_orders_ids)
                         ∖ list_to_set (_currently_tracked_orders_ids w)) in
  (forall id, id ∈ ids <->
     id ∈ _tracked_orders_ids w /\ id ∈ open_orders_ids
     /\ id ∉ _currently_tracked_orders_ids w)
  /\ ((ids = [] /\ _cancel_currently_untracked_orders gateway open_orders_ids w = (Ok [], w))
      \/ (ids <> []
          /\ _cancel_currently_untracked_orders gateway open_orders_ids w
             = (kujira_delete_orders gateway ids, log_events w [DeleteOrders ids]))).
Proof.
  intros ids. split.
  - intros id. unfold ids. rewrite elem_of_elements.
    rewrite elem_of_difference, elem_of_intersection, !elem_of_list_to_set. tauto.
  - unfold _cancel_currently_untracked_orders, bind, get. fold ids.
    destruct ids as [| id0 ids0]; [left; split; reflexivity |].
    right. split; [discriminate | reflexivity].
Qed.

(** X18. Replacement across two ticks: after a placement that the venue
    accepted, the next cancellation asks the venue to cancel exactly the orders
    that were tracked before the placement, are still open and were not placed
    again, so the orders of the new placement are never among them. *)
Theorem stale_orders_are_cancelled_next
    (gateway : Gateway) (configuration : Configuration.t) (market : Market.t)
    (proposal : list Order.t) (w w1 : Worker) (response : list (string * VenueOrder.t))
    (open_orders_ids : list string) :
  proposal <> [] ->
  _replace_orders gateway configuration market proposal w = (Ok response, w1) ->
  let stale id :=
    id ∈ _tracked_orders_ids w /\ id ∈ open_orders_ids /\ id ∉ map fst response in
  ((forall id, ~ stale id) ->
   _cancel_currently_untracked_orders gateway open_orders_ids w1 = (Ok [], w1))
  /\ ((exists id, stale id) ->
      exists ids,
        _cancel_currently_untracked_orders gateway open_orders_ids w1
        = (kujira_delete_orders gateway ids, log_events w1 [DeleteOrders ids])
        /\ NoDup ids
        /\ forall id, id ∈ ids <-> stale id).
Proof.
  intros Hne Hrun stale.
  rewrite (replace_orders_run _ _ _ _ _ Hne) in Hrun.
  destruct (kujira_post_orders gateway _) as [response' | e]; [| discriminate].
  injection Hrun as -> <-.
  destruct (cancel_untracked_ids gateway open_orders_ids
              (mkWorker (map fst response) (_tracked_orders_ids w ++ map fst response)
                 (_balances w) (_open_orders w) (_filled_orders w)
                 (trace w ++ [PostOrders (map (wire_order configuration market) proposal)])))
    as [Hmem Hcases].
  simpl in Hmem, Hcases.
  set (ids := elements _) in *.
  assert (Hstale : forall id, id ∈ ids <-> stale id).
  { intros id. rewrite Hmem. unfold stale. rewrite elem_of_app. tauto. }
  split.
  - intros Hnone. destruct Hcases as [[_ Hcancel] | [Hids _]]; [exact Hcancel |].
    destruct ids as [| id ids']; [contradiction |].
    exfalso. apply (Hnone id), Hstale. left.
  - intros (id & Hid). destruct Hcases as [[Hnil _] | [_ Hcancel]].
    + apply Hstale in Hid. rewrite Hnil in Hid. inversion Hid.
    + exists ids. split; [exact Hcancel |]. split; [apply NoDup_elements | exact Hstale].
Qed.

Lemma stale_orders_are_cancelled_next_witness :
  exists ids w1,
    _replace_orders (Scenario.gateway Scenario.book)
      (Scenario.configuration None None []) Scenario.market
      [Order.mk "7" "KUJI-USK" LIMIT BUY 5 (Fin 9)]
      (mkWorker ["5"] ["4"; "5"] None None None [])
    = (Ok [("7"%string, VenueOrder.mk "7" "7" 0)], w1)
    /\ _cancel_currently_untracked_orders (Scenario.gateway Scenario.book) ["5"; "7"; "9"] w1
       = (kujira_delete_orders (Scenario.gateway Scenario.book) ids,
          log_events w1 [DeleteOrders ids])
    /\ (forall id, id ∈ ids <-> id = "5"%string).
Proof.
  destruct (_replace_orders (Scenario.gateway Scenario.book)
              (Scenario.configuration None None []) Scenario.market
              [Order.mk "7" "KUJI-USK" LIMIT BUY 5 (Fin 9)]
              (mkWorker ["5"] ["4"; "5"] None None None [])) as [r w1] eqn:Hrun.
  assert (Hr : r = Ok [("7"%string, VenueOrder.mk "7" "7" 0)])
    by (vm_compute in Hrun; inversion Hrun; reflexivity).
  subst r.
  assert (Hne : [Order.mk "7" "KUJI-USK" LIMIT BUY 5 (Fin 9)] <> []) by discriminate.
  destruct (stale_orders_are_cancelled_next _ _ _ _ _ _ _ ["5"; "7"; "9"]%string Hne Hrun)
    as [_ Hsome].
  destruct Hsome as (ids & Hcancel & _ & Hids).
  { exists "5"%string. split; [| split].
    - apply list_elem_of_In. simpl. auto.
    - apply list_elem_of_In. simpl. auto.
    - intros H. apply list_elem_of_In in H. simpl in H. destruct H as [H | []]. discriminate. }
  exists ids, w1. split; [reflexivity |]. split; [exact Hcancel |].
  intros id. rewrite Hids. split.
  - intros (H1 & H2 & H3).
    apply list_elem_of_In in H1. apply list_elem_of_In in H2. simpl in H1, H2.
    destruct H1 as [<- | [<- | []]]; [| reflexivity].
    destruct H2 as [H | [H | [H | []]]]; discriminate.
  - intros ->. split; [| split].
    + apply list_elem_of_In. simpl. auto.
    + apply list_elem_of_In. simpl. auto.
    + intros H. apply list_elem_of_In in H. simpl in H. destruct H as [H | []]. discriminate.
Defined.

(** ** One tick, whatever the venue answers *)

Lemma same_tracking_refl w : same_tracking w w [].
Proof. unfold same_tracking. rewrite app_nil_r. auto. Qed.

Lemma same_tracking_trans w w1 w2 events1 events2 :
  same_tracking w w1 events1 -> same_tracking w1 w2 events2 ->
  same_tracking w w2 (events1 ++ events2).
Proof.
  unfold same_tracking. intros (H1 & H2 & H3) (H4 & H5 & H6).
  rewrite H4, H5, H6, H1, H2, H3, app_assoc. auto.
Qed.

Lemma same_tracking_log w events : same_tracking w (log_events w events) events.
Proof. unfold same_tracking. simpl. auto. Qed.

Lemma is_log_of_ignored events : Forall is_ignored events -> Forall is_log events.
Proof. apply List.Forall_impl. intros [] H; simpl in *; tauto. Qed.

Lemma get_open_orders_refresh gateway w :
  (exists response w1,
     _get_open_orders gateway false w = (Ok response, w1) /\ same_tracking w w1 [])
  \/ (exists e, _get_open_orders gateway false w = (Raise e, w)).
Proof.
  unfold _get_open_orders, bind, get, lift, set_open_orders, ret.
  destruct (kujira_get_open_orders gateway) as [response | e].
  - left. eexists _, _. split; [reflexivity |].
    unfold same_tracking. simpl. rewrite app_nil_r. auto.
  - right. exists e. reflexivity.
Qed.

Lemma get_filled_orders_refresh gateway w :
  (exists response w1,
     _get_filled_orders gateway false w = (Ok response, w1) /\ same_tracking w w1 [])
  \/ (exists e, _get_filled_orders gateway false w = (Raise e, w)).
Proof.
  unfold _get_filled_orders, bind, get, lift, set_filled_orders, ret.
  destruct (kujira_get_filled_orders gateway) as [response | e].
  - left. eexists _, _. split; [reflexivity |].
    unfold same_tracking. simpl. rewrite app_nil_r. auto.
  - right. exists e. reflexivity.
Qed.

Lemma get_balances_refresh gateway w :
  (exists response w1,
     _get_balances gateway false w = (Ok response, w1) /\ same_tracking w w1 [])
  \/ (exists e, _get_balances gateway false w = (Raise e, w)).
Proof.
  unfold _get_balances, bind, get, lift, set_balances, ret.
  destruct (kujira_get_balances gateway) as [response | e].
  - left. eexists _, _. split; [reflexivity |].
    unfold same_tracking. simpl. rewrite app_nil_r. auto.
  - right. exists e. reflexivity.
Qed.

Lemma place_layer_frame configuration market side index quantity p sz st w r w' :
  place_layer configuration market side index quantity p sz st w = (r, w') ->
  exists events, w' = log_events w events /\ Forall is_log events.
Proof.
  unfold place_layer, bind, emit, ret.
  destruct (Number_lt p _).
  - intros [= <- <-]. eexists [_]. split; [reflexivity |]. repeat constructor.
  - destruct (Qltb sz _).
    + intros [= <- <-]. eexists [_]. split; [reflexivity |]. repeat constructor.
    + intros [= <- <-]. exists []. rewrite log_events_nil. auto.
Qed.

Section LayerFrame.

Variable body : nat -> Layer.t -> N * list Order.t -> M (N * list Order.t).

Hypothesis body_frame : forall index layer st w r w',
  body index layer st w = (r, w') ->
  exists events, w' = log_events w events /\ Forall is_log events.

Lemma for_layers_frame layers :
  forall index st w r w',
    for_layers body index layers st w = (r, w') ->
    exists events, w' = log_events w events /\ Forall is_log events.
Proof.
  induction layers as [| layer layers IH]; intros index st w r w' Hrun; simpl in Hrun.
  - injection Hrun as <- <-. exists []. rewrite log_events_nil. auto.
  - unfold bind in Hrun.
    destruct (body index layer st w) as [[st1 | e] w1] eqn:Hbody.
    + apply body_frame in Hbody as (events1 & -> & Hlog1).
      apply IH in Hrun as (events2 & -> & Hlog2).
      exists (events1 ++ events2). rewrite log_events_app. split; [reflexivity |].
      apply Forall_app. auto.
    + injection Hrun as <- <-. eapply body_frame, Hbody.
Qed.

End LayerFrame.

Lemma bid_layer_frame configuration market u asks index layer st w r w' :
  bid_layer configuration market u asks index layer st w = (r, w') ->
  exists events, w' = log_events w events /\ Forall is_log events.
Proof.
  unfold bid_layer, bind, lift.
  destruct (bid_market_price u asks layer) as [p | e];
    [| intros [= <- <-]; exists []; rewrite log_events_nil; auto].
  destruct (layer_size (Layer.bid layer) p) as [sz | e];
    [| intros [= <- <-]; exists []; rewrite log_events_nil; auto].
  apply place_layer_frame.
Qed.

Lemma ask_layer_frame configuration market u bids index layer st w r w' :
  ask_layer configuration market u bids index layer st w = (r, w') ->
  exists events, w' = log_events w events /\ Forall is_log events.
Proof.
  unfold ask_layer, bind, lift.
  destruct (ask_market_price u bids layer) as [p | e];
    [| intros [= <- <-]; exists []; rewrite log_events_nil; auto].
  destruct (layer_size (Layer.ask layer) p) as [sz | e];
    [| intros [= <- <-]; exists []; rewrite log_events_nil; auto].
  apply place_layer_frame.
Qed.

(** The builder only logs: it appends warnings and ignored failures to the
    trace and leaves everything else of the worker as it was. *)
Lemma create_proposal_frame vwap_threshold gateway configuration market w r w' :
  _create_proposal vwap_threshold gateway configuration market w = (r, w') ->
  exists events, w' = log_events w events /\ Forall is_log events.
Proof.
  unfold _create_proposal, _get_order_book.
  unfold bind at 1. unfold lift at 1.
  destruct (kujira_get_order_book gateway) as [book | e];
    [| intros [= <- <-]; exists []; rewrite log_events_nil; auto].
  unfold bind at 1.
  destruct (used_price _ _ _ _ _ w) as [[d | e] w1] eqn:Hused;
    apply used_price_appended in Hused as (events1 & -> & Hlog1);
    apply is_log_of_ignored in Hlog1;
    [| intros [= <- <-]; exists events1; auto].
  unfold bind at 1. unfold lift at 1.
  destruct (check_used_price (Some d)) as [u | e];
    [| intros [= <- <-]; exists events1; auto].
  unfold bind at 1.
  destruct (for_layers (bid_layer _ _ _ _) _ _ _ _) as [[bid_state | e] w2] eqn:Hbids;
    apply (for_layers_frame _ (bid_layer_frame _ _ _ _)) in Hbids as (events2 & -> & Hlog2);
    rewrite log_events_app;
    [| intros [= <- <-]; exists (events1 ++ events2); split; [reflexivity | apply Forall_app; auto]].
  unfold bind at 1.
  destruct (for_layers (ask_layer _ _ _ _) _ _ _ _) as [[ask_state | e] w3] eqn:Hasks;
    apply (for_layers_frame _ (ask_layer_frame _ _ _ _)) in Hasks as (events3 & -> & Hlog3);
    rewrite log_events_app;
    intros [= <- <-]; exists ((events1 ++ events2) ++ events3);
    (split; [reflexivity | repeat (apply Forall_app; split); auto]).
Qed.

Lemma adjust_proposal_frame gateway market proposal w r w' :
  _adjust_proposal_to_budget gateway market proposal w = (r, w') -> w' = w.
Proof.
  unfold _adjust_proposal_to_budget, _get_balances, bind, get, ret, raise, lift, free_balance.
  destruct (_balances w) as [balances |]; [| intros [= _ <-]; reflexivity].
  destruct (Balances.tokens balances !! _); [| intros [= _ <-]; reflexivity].
  destruct (Balances.tokens balances !! _); intros [= _ <-]; reflexivity.
Qed.

Lemma tick_exit gateway w wk deletes logs e :
  same_tracking w wk (deletes ++ logs) ->
  (deletes = [] \/ exists ids, ids <> [] /\ deletes = [DeleteOrders ids]) ->
  Forall is_log logs ->
  tick_outcome gateway w (log_events wk [IgnoredException e]) deletes
               (logs ++ [IgnoredException e]) [].
Proof.
  intros (H1 & H2 & H3) Hdeletes Hlogs. unfold tick_outcome. simpl.
  split; [rewrite H3, app_nil_r, <- !app_assoc; reflexivity |].
  split; [exact Hdeletes |].
  split; [apply Forall_app; split; [exact Hlogs | repeat constructor] |].
  left. auto.
Qed.

(** Every way a tick can run. *)
Lemma on_tick_run vwap_threshold gateway configuration market w :
  exists w' deletes logs posts,
    on_tick vwap_threshold gateway configuration market w = (Ok tt, w')
    /\ tick_outcome gateway w w' deletes logs posts.
Proof.
  unfold on_tick, try_except, ignore_exception.
  destruct (get_open_orders_refresh gateway w) as [(open_orders & w1 & H1 & T1) | (e & H1)].
  2: { rewrite (bind_raise _ _ _ _ _ H1). eexists _, [], _, []. split; [reflexivity |].
       apply (tick_exit gateway w w [] []); [apply same_tracking_refl | auto | constructor]. }
  rewrite (bind_step _ _ _ _ _ H1).
  destruct (get_filled_orders_refresh gateway w1) as [(filled & w2 & H2 & T2) | (e & H2)].
  2: { rewrite (bind_raise _ _ _ _ _ H2). eexists _, [], _, []. split; [reflexivity |].
       apply (tick_exit gateway w w1 [] []); [exact T1 | auto | constructor]. }
  rewrite (bind_step _ _ _ _ _ H2).
  pose proof (same_tracking_trans _ _ _ _ _ T1 T2) as T12. simpl in T12.
  destruct (get_balances_refresh gateway w2) as [(balances & w3 & H3 & T3) | (e & H3)].
  2: { rewrite (bind_raise _ _ _ _ _ H3). eexists _, [], _, []. split; [reflexivity |].
       apply (tick_exit gateway w w2 [] []); [exact T12 | auto | constructor]. }
  rewrite (bind_step _ _ _ _ _ H3).
  pose proof (same_tracking_trans _ _ _ _ _ T12 T3) as T123. simpl in T123.
  assert (Hcancel : exists r w4 deletes,
            _cancel_currently_untracked_orders gateway (map fst open_orders) w3 = (r, w4)
            /\ same_tracking w w4 (deletes ++ [])
            /\ (deletes = [] \/ exists ids, ids <> [] /\ deletes = [DeleteOrders ids])).
  { destruct (cancel_untracked_ids gateway (map fst open_orders) w3) as [_ Hcases].
    destruct Hcases as [[_ Hrun] | [Hne Hrun]].
    - exists (Ok []), w3, []. split; [exact Hrun |]. split; [exact T123 | auto].
    - eexists _, _, [DeleteOrders _]. split; [exact Hrun |]. split.
      + rewrite app_nil_r. apply (same_tracking_trans _ _ _ _ _ T123 (same_tracking_log _ _)).
      + right. eexists. split; [exact Hne | reflexivity]. }
  destruct Hcancel as (r4 & w4 & deletes & H4 & T4 & Hdeletes).
  destruct r4 as [deleted | e].
  2: { rewrite (bind_raise _ _ _ _ _ H4). eexists _, deletes, _, []. split; [reflexivity |].
       apply (tick_exit gateway w w4 deletes []); [exact T4 | exact Hdeletes | constructor]. }
  rewrite (bind_step _ _ _ _ _ H4).
  destruct (_create_proposal vwap_threshold gateway configuration market w4)
    as [r5 w5] eqn:H5.
  pose proof H5 as Hframe. apply create_proposal_frame in Hframe as (logs & -> & Hlogs).
  assert (T5 : same_tracking w (log_events w4 logs) (deletes ++ logs)).
  { rewrite app_nil_r in T4. apply (same_tracking_trans _ _ _ _ _ T4 (same_tracking_log _ _)). }
  destruct r5 as [proposed_orders | e].
  2: { rewrite (bind_raise _ _ _ _ _ H5). eexists _, deletes, _, []. split; [reflexivity |].
       apply (tick_exit gateway w _ deletes logs); [exact T5 | exact Hdeletes | exact Hlogs]. }
  rewrite (bind_step _ _ _ _ _ H5).
  destruct (_adjust_proposal_to_budget gateway market proposed_orders (log_events w4 logs))
    as [r6 w6] eqn:H6.
  pose proof H6 as Hframe. apply adjust_proposal_frame in Hframe as ->.
  destruct r6 as [candidate_orders | e].
  2: { rewrite (bind_raise _ _ _ _ _ H6). eexists _, deletes, _, []. split; [reflexivity |].
       apply (tick_exit gateway w _ deletes logs); [exact T5 | exact Hdeletes | exact Hlogs]. }
  rewrite (bind_step _ _ _ _ _ H6).
  destruct T5 as (Hcur & Htracked & Htrace). simpl in Hcur, Htracked, Htrace.
  destruct candidate_orders as [| candidate rest] eqn:Hcandidates.
  - (* nothing to place *)
    eexists _, deletes, (logs ++ [WarnNoOrder]), []. split; [reflexivity |].
    unfold tick_outcome. simpl.
    split; [rewrite Htrace, app_nil_r, <- !app_assoc; reflexivity |].
    split; [exact Hdeletes |].
    split; [apply Forall_app; split; [exact Hlogs | repeat constructor] |].
    left. auto.
  - rewrite <- Hcandidates.
    assert (Hne : candidate_orders <> []) by (subst; discriminate).
    rewrite <- Hcandidates in H6. clear Hcandidates.
    assert (Hwire : map (wire_order configuration market) candidate_orders <> []).
    { destruct candidate_orders; [contradiction | discriminate]. }
    unfold bind at 1. rewrite (replace_orders_run _ _ _ _ _ Hne).
    destruct (kujira_post_orders gateway _) as [response | e] eqn:Hpost.
    + eexists _, deletes, logs, [PostOrders _]. split; [reflexivity |].
      unfold tick_outcome. simpl.
      split; [rewrite Htrace, <- !app_assoc; reflexivity |].
      split; [exact Hdeletes |]. split; [exact Hlogs |].
      right. right. eexists _, response. split; [reflexivity |].
      split; [exact Hwire |]. split; [exact Hpost |]. rewrite Htracked. auto.
    + eexists _, deletes, logs, [PostOrders _; IgnoredException e]. split; [reflexivity |].
      unfold tick_outcome. simpl.
      split; [rewrite Htrace, <- !app_assoc; reflexivity |].
      split; [exact Hdeletes |]. split; [exact Hlogs |].
      right. left. eexists _, e. split; [reflexivity |].
      split; [exact Hwire |]. split; [exact Hpost |]. auto.
Qed.

(** X19. The guarded part of a tick (refresh, cancel, build, adjust, place)
    never raises, whatever the venue answers: every failure is logged and
    swallowed.  Either the venue accepted a placement: it is the last thing
    the tick records and the only placement it records, it is not empty, the
    currently tracked ids become exactly the ids of the venue's response, and
    these ids are appended to the tracked ids.  Or no placement was accepted:
    the venue rejected every placement that the tick records, and both the
    currently tracked ids and the tracked ids are kept as they were.  In both
    cases the invariant that every currently tracked id is tracked is
    preserved. *)
Theorem tick_keeps_tracking_consistent
    (vwap_threshold : Q) (gateway : Gateway) (configuration : Configuration.t)
    (market : Market.t) (w : Worker) :
  exists w' events,
    on_tick vwap_threshold gateway configuration market w = (Ok tt, w')
    /\ trace w' = trace w ++ events
    /\ ((exists orders response before,
           orders <> []
           /\ kujira_post_orders gateway orders = Ok response
           /\ events = before ++ [PostOrders orders]
           /\ (forall other, ~ In (PostOrders other) before)
           /\ _currently_tracked_orders_ids w' = map fst response
           /\ _tracked_orders_ids w' = _tracked_orders_ids w ++ map fst response)
        \/ ((forall orders, In (PostOrders orders) events ->
               exists e, kujira_post_orders gateway orders = Raise e)
            /\ _currently_tracked_orders_ids w' = _currently_tracked_orders_ids w
            /\ _tracked_orders_ids w' = _tracked_orders_ids w))
    /\ (tracking_invariant w -> tracking_invariant w').
Proof.
  destruct (on_tick_run vwap_threshold gateway configuration market w)
    as (w' & deletes & logs & posts & Hrun & Htrace & Hdeletes & Hlogs & Hcases).
  exists w', (deletes ++ logs ++ posts). split; [exact Hrun |]. split; [exact Htrace |].
  assert (Hquiet : forall other, ~ In (PostOrders other) (deletes ++ logs)).
  { intros other Hin. apply in_app_or in Hin. destruct Hin as [Hin | Hin].
    - destruct Hdeletes as [-> | (ids & _ & ->)]; [destruct Hin |].
      destruct Hin as [Hin | []]. discriminate.
    - rewrite List.Forall_forall in Hlogs. exact (Hlogs _ Hin). }
  destruct Hcases as [(Hposts & Hcur & Htracked)
                     | [(orders & e & Hposts & Hne & Hpost & Hcur & Htracked)
                       | (orders & response & Hposts & Hne & Hpost & Hcur & Htracked)]].
  - split.
    + right. split; [| auto].
      intros orders Hin. exfalso. apply (Hquiet orders).
      rewrite Hposts, app_nil_r in Hin. exact Hin.
    + unfold tracking_invariant. rewrite Hcur, Htracked. auto.
  - split.
    + right. split; [| auto].
      intros other Hin. rewrite app_assoc in Hin. apply in_app_or in Hin.
      destruct Hin as [Hin | Hin]; [exfalso; exact (Hquiet other Hin) |].
      rewrite Hposts in Hin. destruct Hin as [Hin | [Hin | []]]; [| discriminate].
      injection Hin as <-. exists e. exact Hpost.
    + unfold tracking_invariant. rewrite Hcur, Htracked. auto.
  - split.
    + left. exists orders, response, (deletes ++ logs).
      split; [exact Hne |]. split; [exact Hpost |].
      split; [rewrite Hposts, app_assoc; reflexivity |].
      split; [exact Hquiet |]. auto.
    + intros _ id. rewrite Hcur, Htracked, elem_of_app. auto.
Qed.

(** A tick of a worker that tracks "4" and "5", of which "5" currently, on the
    book of S1 with 4 KUJI and 7 USK free: the venue accepts the placement of
    the one order that fits the budget, "3", which becomes the only currently
    tracked id and is appended to the tracked ids. *)
Lemma tick_keeps_tracking_consistent_witness :
  exists w' orders response,
    on_tick 30 (Scenario.gateway Scenario.book)
      (Scenario.configuration (Some MIDDLE) (Some SAP) [Scenario.layer; Scenario.thin_layer])
      Scenario.market (mkWorker ["5"] ["4"; "5"] None None None [])
    = (Ok tt, w')
    /\ kujira_post_orders (Scenario.gateway Scenario.book) orders = Ok response
    /\ _currently_tracked_orders_ids w' = map fst response
    /\ _currently_tracked_orders_ids w' = ["3"]
    /\ _tracked_orders_ids w' = ["4"; "5"; "3"]
    /\ tracking_invariant w'.
Proof.
  destruct (tick_keeps_tracking_consistent 30 (Scenario.gateway Scenario.book)
              (Scenario.configuration (Some MIDDLE) (Some SAP)
                                      [Scenario.layer; Scenario.thin_layer])
              Scenario.market (mkWorker ["5"] ["4"; "5"] None None None []))
    as (w' & events & Hrun & _ & Hcases & Hinv).
  assert (Hcur : _currently_tracked_orders_ids w' = ["3"]
                 /\ _tracked_orders_ids w' = ["4"; "5"; "3"]).
  { vm_compute in Hrun. injection Hrun as <-. split; reflexivity. }
  destruct Hcur as [Hcur Htracked].
  destruct Hcases as [(orders & response & before & _ & Hpost & _ & _ & Hids & _)
                     | (_ & Hkept & _)].
  - exists w', orders, response.
    split; [exact Hrun |]. split; [exact Hpost |]. split; [exact Hids |].
    split; [exact Hcur |]. split; [exact Htracked |].
    apply Hinv. intros id Hid. apply list_elem_of_In in Hid. simpl in Hid.
    destruct Hid as [<- | []]. apply list_elem_of_In. simpl. auto.
  - rewrite Hcur in Hkept. discriminate.
Defined.

(** X20. The guarded part of a tick sends the venue at most two commands: at
    most one request to delete stale orders, before anything else it records,
    and at most one request to place orders, after everything else it records,
    followed only by the record of its failure when the venue rejected it;
    never an empty request. *)
Theorem tick_sends_at_most_two_commands
    (vwap_threshold : Q) (gateway : Gateway) (configuration : Configuration.t)
    (market : Market.t) (w : Worker) :
  exists w' deletes logs posts,
    on_tick vwap_threshold gateway configuration market w = (Ok tt, w')
    /\ trace w' = trace w ++ deletes ++ logs ++ posts
    /\ (deletes = [] \/ exists ids, ids <> [] /\ deletes = [DeleteOrders ids])
    /\ Forall is_log logs
    /\ (posts = []
        \/ exists orders,
             orders <> []
             /\ ((exists response,
                    kujira_post_orders gateway orders = Ok response
                    /\ posts = [PostOrders orders])
                 \/ (exists e,
                       kujira_post_orders gateway orders = Raise e
                       /\ posts = [PostOrders orders; IgnoredException e]))).
Proof.
  destruct (on_tick_run vwap_threshold gateway configuration market w)
    as (w' & deletes & logs & posts & Hrun & Htrace & Hdeletes & Hlogs & Hcases).
  exists w', deletes, logs, posts.
  split; [exact Hrun |]. split; [exact Htrace |]. split; [exact Hdeletes |].
  split; [exact Hlogs |].
  destruct Hcases as [(Hposts & _)
                     | [(orders & e & Hposts & Hne & Hpost & _)
                       | (orders & response & Hposts & Hne & Hpost & _)]].
  - left. exact Hposts.
  - right. exists orders. split; [exact Hne |]. right. exists e. auto.
  - right. exists orders. split; [exact Hne |]. left. exists response. auto.
Qed.

(** X21. A tick starts by refreshing the open orders, the filled orders and
    the balances, in this order.  When one of these requests fails the tick
    stops there: the failure is logged, no command is sent to the venue and the
    tracking lists stay as they were. *)
Theorem tick_stops_at_failed_refresh
    (vwap_threshold : Q) (gateway : Gateway) (configuration : Configuration.t)
    (market : Market.t) (w : Worker) (e : exn) :
  kujira_get_open_orders gateway = Raise e
  \/ (exists open_orders,
        kujira_get_open_orders gateway = Ok open_orders
        /\ (kujira_get_filled_orders gateway = Raise e
            \/ (exists filled_orders,
                  kujira_get_filled_orders gateway = Ok filled_orders
                  /\ kujira_get_balances gateway = Raise e))) ->
  exists w',
    on_tick vwap_threshold gateway configuration market w = (Ok tt, w')
    /\ same_tracking w w' [IgnoredException e].
Proof.
  intros Hfail. unfold on_tick, try_except, ignore_exception.
  unfold _get_open_orders at 1. unfold bind at 1 2. unfold get at 1. cbv beta iota.
  destruct Hfail as [Hopen | (open_orders & Hopen & Hfail)].
  { unfold lift at 1. rewrite Hopen. eexists. split; [reflexivity |].
    apply same_tracking_log. }
  unfold lift at 1. rewrite Hopen. unfold bind at 1. unfold set_open_orders at 1.
  unfold ret at 1. unfold bind at 1.
  unfold _get_filled_orders at 1. unfold bind at 1 2. unfold get at 1. cbv beta iota.
  destruct Hfail as [Hfilled | (filled_orders & Hfilled & Hbalances)].
  { unfold lift at 1. rewrite Hfilled. eexists. split; [reflexivity |].
    unfold same_tracking. simpl. auto. }
  unfold lift at 1. rewrite Hfilled. unfold bind at 1. unfold set_filled_orders at 1.
  unfold ret at 1. unfold bind at 1.
  unfold _get_balances at 1. unfold bind at 1. unfold lift at 1. rewrite Hbalances.
  eexists. split; [reflexivity |]. unfold same_tracking. simpl. auto.
Qed.

Lemma tick_stops_at_failed_refresh_witness :
  exists w',
    on_tick 30 Scenario.down_gateway (Scenario.configuration None None [Scenario.layer])
            Scenario.market Scenario.worker
    = (Ok tt, w')
    /\ trace w' = [IgnoredException (GatewayError "down")].
Proof.
  destruct (tick_stops_at_failed_refresh 30 Scenario.down_gateway
              (Scenario.configuration None None [Scenario.layer]) Scenario.market
              Scenario.worker (GatewayError "down")) as (w' & Hrun & _ & _ & Htrace).
  - left. reflexivity.
  - exists w'. split; [exact Hrun | exact Htrace].
Defined.

(** ** Lifecycle *)

Lemma of_worker_bind {A B} (m : M A) (k : A -> M B) p :
  Lifecycle.of_worker (bind m k) p
  = Lifecycle.and_then (Lifecycle.of_worker m) (fun a => Lifecycle.of_worker (k a)) p.
Proof.
  unfold Lifecycle.of_worker, Lifecycle.and_then, bind.
  destruct (m (Lifecycle.worker p)) as [[a | e] w']; reflexivity.
Qed.

Lemma of_worker_try_except {A} (m : M A) (handler : exn -> M A) p :
  Lifecycle.of_worker (try_except m handler) p
  = Lifecycle.attempt (Lifecycle.of_worker m) (fun e => Lifecycle.of_worker (handler e)) p.
Proof.
  unfold Lifecycle.of_worker, Lifecycle.attempt, try_except.
  destruct (m (Lifecycle.worker p)) as [[a | e] w']; reflexivity.
Qed.

Lemma and_then_ext {A B} (m : Lifecycle.L A) (k1 k2 : A -> Lifecycle.L B) p :
  (forall a p', k1 a p' = k2 a p') ->
  Lifecycle.and_then m k1 p = Lifecycle.and_then m k2 p.
Proof.
  intros Hk. unfold Lifecycle.and_then. destruct (m p) as [[a | e] p']; auto.
Qed.

Lemma attempt_ext {A} (m1 m2 : Lifecycle.L A) (handler : exn -> Lifecycle.L A) p :
  m1 p = m2 p -> Lifecycle.attempt m1 handler p = Lifecycle.attempt m2 handler p.
Proof. intros Hm. unfold Lifecycle.attempt. rewrite Hm. reflexivity. Qed.

(** The body of the tick of a process that knows its market is the tick of
    its worker. *)
Lemma tick_body_with_market vwap_threshold gateway configuration market p :
  Lifecycle._market p = Some market ->
  Lifecycle.attempt
    (Lifecycle.and_then Lifecycle.get_market (fun market =>
     Lifecycle.and_then (Lifecycle.of_worker (_get_open_orders gateway false)) (fun open_orders =>
     Lifecycle.and_then (Lifecycle.of_worker (_get_filled_orders gateway false)) (fun _ =>
     Lifecycle.and_then (Lifecycle.of_worker (_get_balances gateway false)) (fun _ =>
     Lifecycle.and_then
       (Lifecycle.of_worker (_cancel_currently_untracked_orders gateway (map fst open_orders)))
       (fun _ =>
     Lifecycle.and_then
       (Lifecycle.of_worker (_create_proposal vwap_threshold gateway configuration market))
       (fun proposed_orders =>
     Lifecycle.and_then
       (Lifecycle.of_worker (_adjust_proposal_to_budget gateway market proposed_orders))
       (fun candidate_orders =>
     Lifecycle.and_then
       (Lifecycle.of_worker (_replace_orders gateway configuration market candidate_orders))
       (fun _ => Lifecycle.unit_ tt)))))))))
    Lifecycle.ignore p
  = Lifecycle.of_worker (on_tick vwap_threshold gateway configuration market) p.
Proof.
  intros Hmarket. unfold on_tick. rewrite of_worker_try_except.
  unfold Lifecycle.ignore. apply attempt_ext.
  unfold Lifecycle.and_then at 1. unfold Lifecycle.get_market. rewrite Hmarket.
  rewrite of_worker_bind. apply and_then_ext. intros open_orders p1.
  rewrite of_worker_bind. apply and_then_ext. intros filled p2.
  rewrite of_worker_bind. apply and_then_ext. intros balances p3.
  rewrite of_worker_bind. apply and_then_ext. intros deleted p4.
  rewrite of_worker_bind. apply and_then_ext. intros proposed_orders p5.
  rewrite of_worker_bind. apply and_then_ext. intros candidate_orders p6.
  rewrite of_worker_bind. apply and_then_ext. intros response p7.
  destruct p7; reflexivity.
Qed.

(** X22. [initialize] never raises.  When the market cannot be fetched the
    failure is logged, nothing is sent to the venue and the worker is left
    uninitialized, but still allowed to run.  When the market is fetched, the
    requests to cancel every order and to withdraw are sent in this order, as
    the configuration asks, and their failures are ignored; the worker is then
    initialized with its refresh timestamp on the next point of the tick grid,
    unless the tick interval is zero, in which case it is left uninitialized
    after the requests were sent. *)
Theorem initialize_needs_market_and_interval
    (venue : Lifecycle.Venue) (configuration : Configuration.t)
    (switches : Lifecycle.Switches) (now_ms timestamp : Z) (p : Lifecycle.Process) :
  let interval := Strategy.tick_interval (Configuration.strategy configuration) in
  let start_commands :=
    (if Lifecycle.cancel_all_orders_on_start switches then [Lifecycle.DeleteOrdersAll] else [])
    ++ (if Lifecycle.withdraw_market_on_start switches
        then [Lifecycle.PostMarketWithdraw] else []) in
  exists p',
    Lifecycle.initialize venue configuration switches now_ms timestamp p = (Ok tt, p')
    /\ (forall e,
          Lifecycle.kujira_get_market venue = Raise e ->
          Lifecycle.initialized p' = false
          /\ Lifecycle._can_run p' = Lifecycle._can_run p
          /\ Lifecycle._market p' = Lifecycle._market p
          /\ Lifecycle.commands p' = Lifecycle.commands p
          /\ Lifecycle.worker p' = log_events (Lifecycle.worker p) [IgnoredException e])
    /\ (forall market,
          Lifecycle.kujira_get_market venue = Ok market ->
          Lifecycle._market p' = Some market
          /\ Lifecycle.commands p' = Lifecycle.commands p ++ start_commands
          /\ (interval <> 0 ->
              Lifecycle.initialized p' = true
              /\ Lifecycle._can_run p' = true
              /\ Lifecycle._refresh_timestamp p'
                 = interval - now_ms mod interval + timestamp)
          /\ (interval = 0 ->
              Lifecycle.initialized p' = false
              /\ Lifecycle._can_run p' = Lifecycle._can_run p
              /\ Lifecycle._refresh_timestamp p' = Lifecycle._refresh_timestamp p)).
Proof.
  intros interval start_commands. subst start_commands.
  unfold Lifecycle.initialize, Lifecycle._cancel_all_orders, Lifecycle._market_withdraw,
    Lifecycle._get_market, Lifecycle.exit, Lifecycle.ignore, ignore_exception, emit,
    Lifecycle.attempt, Lifecycle.and_then, Lifecycle.of_result, Lifecycle.of_worker,
    Lifecycle.get_market, Lifecycle.unit_, Lifecycle.send, Lifecycle.set_initialized,
    Lifecycle.set_market, Lifecycle.set_can_run, Lifecycle.set_refresh_timestamp,
    _calculate_waiting_time.
  fold interval.
  destruct (Lifecycle.kujira_get_market venue) as [market | e]; simpl.
  - destruct (Lifecycle.cancel_all_orders_on_start switches),
      (Lifecycle.withdraw_market_on_start switches),
      (Lifecycle.kujira_delete_orders_all venue),
      (Lifecycle.kujira_post_market_withdraw venue),
      (Z.eqb_spec interval 0) as [Hz | Hz]; simpl;
      (eexists; split; [reflexivity |]; split; [intros ? [=] |];
       intros ? [= <-]; simpl; rewrite ?app_nil_r, <- ?app_assoc;
       repeat split; intros; try reflexivity; try contradiction; try lia).
  - eexists. split; [reflexivity |]. split; [| intros ? [=]].
    intros ? [= <-]. simpl. auto.
Qed.

Lemma initialize_needs_market_and_interval_witness :
  exists p',
    Lifecycle.initialize
      (Lifecycle.mkVenue (Ok Scenario.market) (Raise (GatewayError "down")) (Ok tt))
      (Scenario.configuration None None [])
      (Lifecycle.mkSwitches true true false false false false)
      1699999999345 1700000000 Lifecycle.new_process
    = (Ok tt, p')
    /\ Lifecycle.initialized p' = true
    /\ Lifecycle._refresh_timestamp p' = 655 + 1700000000
    /\ Lifecycle.commands p' = [Lifecycle.DeleteOrdersAll; Lifecycle.PostMarketWithdraw].
Proof.
  destruct (initialize_needs_market_and_interval
              (Lifecycle.mkVenue (Ok Scenario.market) (Raise (GatewayError "down")) (Ok tt))
              (Scenario.configuration None None [])
              (Lifecycle.mkSwitches true true false false false false)
              1699999999345 1700000000 Lifecycle.new_process) as (p' & Hrun & _ & H).
  destruct (H Scenario.market eq_refl) as (_ & Hcommands & Hinterval & _).
  destruct Hinterval as (Hinit & _ & Hrefresh); [discriminate |].
  exists p'. split; [exact Hrun |]. split; [exact Hinit |].
  split; [exact Hrefresh | exact Hcommands].
Defined.

(** What the guarded part of [on_tick] does before the finalizer runs. *)
Lemma tick_guarded_part vwap_threshold gateway venue configuration switches p :
  let withdraws := Lifecycle.withdraw_market_on_tick switches in
  exists p1,
    Lifecycle.attempt
      (Lifecycle.and_then (Lifecycle.set_is_busy true) (fun _ =>
       Lifecycle.and_then
         (if withdraws
          then Lifecycle.attempt (Lifecycle._market_withdraw venue) Lifecycle.ignore
          else Lifecycle.unit_ tt) (fun _ =>
       Lifecycle.and_then Lifecycle.get_market (fun market =>
       Lifecycle.and_then (Lifecycle.of_worker (_get_open_orders gateway false))
         (fun open_orders =>
       Lifecycle.and_then (Lifecycle.of_worker (_get_filled_orders gateway false)) (fun _ =>
       Lifecycle.and_then (Lifecycle.of_worker (_get_balances gateway false)) (fun _ =>
       Lifecycle.and_then
         (Lifecycle.of_worker
            (_cancel_currently_untracked_orders gateway (map fst open_orders)))
         (fun _ =>
       Lifecycle.and_then
         (Lifecycle.of_worker (_create_proposal vwap_threshold gateway configuration market))
         (fun proposed_orders =>
       Lifecycle.and_then
         (Lifecycle.of_worker (_adjust_proposal_to_budget gateway market proposed_orders))
         (fun candidate_orders =>
       Lifecycle.and_then
         (Lifecycle.of_worker (_replace_orders gateway configuration market candidate_orders))
         (fun _ => Lifecycle.unit_ tt)))))))))))
      Lifecycle.ignore p
    = (Ok tt, p1)
    /\ Lifecycle._is_busy p1 = true
    /\ Lifecycle._market p1 = Lifecycle._market p
    /\ Lifecycle.initialized p1 = Lifecycle.initialized p
    /\ Lifecycle._can_run p1 = Lifecycle._can_run p
    /\ Lifecycle._refresh_timestamp p1 = Lifecycle._refresh_timestamp p
    /\ match Lifecycle._market p with
       | Some market =>
           Lifecycle.commands p1
           = Lifecycle.commands p ++ (if withdraws then [Lifecycle.PostMarketWithdraw] else [])
           /\ on_tick vwap_threshold gateway configuration market
                (log_events (Lifecycle.worker p)
                   (if withdraws
                    then match Lifecycle.kujira_post_market_withdraw venue with
                         | Ok _ => []
                         | Raise e => [IgnoredException e]
                         end
                    else []))
              = (Ok tt, Lifecycle.worker p1)
       | None =>
           Lifecycle.commands p1 = Lifecycle.commands p
           /\ Lifecycle.worker p1
              = log_events (Lifecycle.worker p)
                  ((if withdraws then [IgnoredException AttributeError] else [])
                   ++ [IgnoredException AttributeError])
       end.
Proof.
  intros withdraws.
  (* the state after the optional withdraw *)
  set (p0 := Lifecycle.mkProcess (Lifecycle.worker p) (Lifecycle._market p)
               (Lifecycle.initialized p) (Lifecycle._can_run p) true
               (Lifecycle._refresh_timestamp p) (Lifecycle.commands p)).
  assert (Hwithdraw : exists pw,
            (if withdraws
             then Lifecycle.attempt (Lifecycle._market_withdraw venue) Lifecycle.ignore
             else Lifecycle.unit_ tt) p0 = (Ok tt, pw)
            /\ Lifecycle._is_busy pw = true
            /\ Lifecycle._market pw = Lifecycle._market p
            /\ Lifecycle.initialized pw = Lifecycle.initialized p
            /\ Lifecycle._can_run pw = Lifecycle._can_run p
            /\ Lifecycle._refresh_timestamp pw = Lifecycle._refresh_timestamp p
            /\ match Lifecycle._market p with
               | Some market =>
                   Lifecycle.commands pw
                   = Lifecycle.commands p
                       ++ (if withdraws then [Lifecycle.PostMarketWithdraw] else [])
                   /\ Lifecycle.worker pw
                      = log_events (Lifecycle.worker p)
                          (if withdraws
                           then match Lifecycle.kujira_post_market_withdraw venue with
                                | Ok _ => []
                                | Raise e => [IgnoredException e]
                                end
                           else [])
               | None =>
                   Lifecycle.commands pw = Lifecycle.commands p
                   /\ Lifecycle.worker pw
                      = log_events (Lifecycle.worker p)
                          (if withdraws then [IgnoredException AttributeError] else [])
               end).
  { unfold Lifecycle._market_withdraw, Lifecycle.attempt, Lifecycle.and_then,
      Lifecycle.get_market, Lifecycle.send, Lifecycle.of_result, Lifecycle.ignore,
      Lifecycle.of_worker, Lifecycle.unit_, ignore_exception, emit.
    subst p0. simpl.
    destruct withdraws, (Lifecycle._market p) as [market |]; simpl;
      try destruct (Lifecycle.kujira_post_market_withdraw venue) as [[] | e]; simpl;
      eexists; (split; [reflexivity |]); simpl;
      rewrite ?app_nil_r, ?log_events_nil; repeat split; reflexivity. }
  destruct Hwithdraw as (pw & Hpw & Hbusy & Hmarket & Hinit & Hrun & Hrefresh & Hrest).
  unfold Lifecycle.attempt at 1. unfold Lifecycle.and_then at 1.
  unfold Lifecycle.set_is_busy at 1. fold p0.
  unfold Lifecycle.and_then at 1. rewrite Hpw.
  destruct (Lifecycle._market p) as [market |] eqn:Hm.
  - destruct Hrest as [Hcommands Hworker].
    pose proof (tick_body_with_market vwap_threshold gateway configuration market pw Hmarket)
      as Hbody.
    unfold Lifecycle.attempt at 1 in Hbody. cbv beta in Hbody.
    destruct (on_tick_run vwap_threshold gateway configuration market (Lifecycle.worker pw))
      as (w' & _ & _ & _ & Htick & _).
    assert (Hof : Lifecycle.of_worker (on_tick vwap_threshold gateway configuration market) pw
                  = (Ok tt, Lifecycle.mkProcess w' (Lifecycle._market pw)
                              (Lifecycle.initialized pw) (Lifecycle._can_run pw)
                              (Lifecycle._is_busy pw) (Lifecycle._refresh_timestamp pw)
                              (Lifecycle.commands pw))).
    { unfold Lifecycle.of_worker. rewrite Htick. reflexivity. }
    rewrite Hof in Hbody.
    destruct (Lifecycle.and_then Lifecycle.get_market _ pw) as [[[] | e] p2] eqn:Hchain.
    + injection Hbody as ->. eexists. split; [reflexivity |]. simpl.
      rewrite <- Hworker. repeat split; auto.
    + eexists. split; [exact Hbody |]. simpl. rewrite <- Hworker. repeat split; auto.
  - destruct Hrest as [Hcommands Hworker].
    unfold Lifecycle.and_then at 1. unfold Lifecycle.get_market. rewrite Hmarket.
    unfold Lifecycle.ignore, Lifecycle.of_worker, ignore_exception, emit.
    eexists. split; [reflexivity |]. simpl. rewrite Hworker. simpl.
    rewrite <- app_assoc. repeat split; auto.
Qed.

(** X23. The finalizer of [on_tick] runs whatever the tick did.  With a tick
    interval other than zero the tick never raises, the worker is no longer
    busy and its refresh timestamp is re-armed from the clock; [run_only_once]
    does not stop it.  With a tick interval of zero the finalizer itself raises
    a division by zero: the tick raises and leaves the worker busy. *)
Theorem tick_rearms_or_raises
    (vwap_threshold : Q) (gateway : Gateway) (venue : Lifecycle.Venue)
    (configuration : Configuration.t) (switches : Lifecycle.Switches)
    (now_ms timestamp : Z) (p : Lifecycle.Process) :
  let interval := Strategy.tick_interval (Configuration.strategy configuration) in
  (interval <> 0 ->
   exists p',
     Lifecycle.on_tick vwap_threshold gateway venue configuration switches now_ms timestamp p
     = (Ok tt, p')
     /\ Lifecycle._is_busy p' = false
     /\ Lifecycle._refresh_timestamp p' = interval - now_ms mod interval + timestamp
     /\ Lifecycle._can_run p' = Lifecycle._can_run p
     /\ Lifecycle.initialized p' = Lifecycle.initialized p
     /\ Lifecycle._market p' = Lifecycle._market p)
  /\ (interval = 0 ->
      exists p',
        Lifecycle.on_tick vwap_threshold gateway venue configuration switches now_ms timestamp p
        = (Raise ZeroDivisionError, p')
        /\ Lifecycle._is_busy p' = true
        /\ Lifecycle._refresh_timestamp p' = Lifecycle._refresh_timestamp p).
Proof.
  intros interval.
  destruct (tick_guarded_part vwap_threshold gateway venue configuration switches p)
    as (p1 & Hguarded & Hbusy & Hmarket & Hinit & Hrun & Hrefresh & _).
  unfold Lifecycle.on_tick, Lifecycle.finally_. rewrite Hguarded.
  unfold Lifecycle.and_then, Lifecycle.of_result, Lifecycle.set_refresh_timestamp,
    Lifecycle.set_is_busy, Lifecycle.exit, Lifecycle.unit_, _calculate_waiting_time.
  fold interval. split; intros Hinterval.
  - destruct (Z.eqb_spec interval 0) as [Hz | _]; [contradiction |].
    destruct (Lifecycle.run_only_once switches);
      (eexists; split; [reflexivity |]; simpl; auto).
  - rewrite Hinterval. simpl. eexists. split; [reflexivity |]. auto.
Qed.

Lemma tick_rearms_or_raises_witness :
  exists p',
    Lifecycle.on_tick 30 Scenario.down_gateway
      (Lifecycle.mkVenue (Ok Scenario.market) (Ok tt) (Ok tt))
      (Scenario.configuration None None [])
      (Lifecycle.mkSwitches false false false false false true)
      1699999999345 1700000000 Lifecycle.new_process
    = (Ok tt, p')
    /\ Lifecycle._is_busy p' = false
    /\ Lifecycle._refresh_timestamp p' = 655 + 1700000000.
Proof.
  destruct (tick_rearms_or_raises 30 Scenario.down_gateway
              (Lifecycle.mkVenue (Ok Scenario.market) (Ok tt) (Ok tt))
              (Scenario.configuration None None [])
              (Lifecycle.mkSwitches false false false false false true)
              1699999999345 1700000000 Lifecycle.new_process) as [H _].
  destruct H as (p' & Hrun & Hbusy & Hrefresh & _); [discriminate |].
  exists p'. split; [exact Hrun |]. split; [exact Hbusy | exact Hrefresh].
Defined.

(** X24. What a whole tick does to the worker.  When the market is known, the
    tick first sends the withdraw request if the configuration asks for one,
    logging its failure, and then runs the body of the tick on the worker with
    that market.  When the market was never fetched, because [initialize]
    failed, the tick sends nothing to the venue: it only logs an attribute
    error, once more when a withdraw was asked for. *)
Theorem tick_runs_body_on_market
    (vwap_threshold : Q) (gateway : Gateway) (venue : Lifecycle.Venue)
    (configuration : Configuration.t) (switches : Lifecycle.Switches)
    (now_ms timestamp : Z) (p : Lifecycle.Process) :
  Strategy.tick_interval (Configuration.strategy configuration) <> 0 ->
  let withdraws := Lifecycle.withdraw_market_on_tick switches in
  exists p',
    Lifecycle.on_tick vwap_threshold gateway venue configuration switches now_ms timestamp p
    = (Ok tt, p')
    /\ (forall market,
          Lifecycle._market p = Some market ->
          Lifecycle.commands p'
          = Lifecycle.commands p ++ (if withdraws then [Lifecycle.PostMarketWithdraw] else [])
          /\ on_tick vwap_threshold gateway configuration market
               (log_events (Lifecycle.worker p)
                  (if withdraws
                   then match Lifecycle.kujira_post_market_withdraw venue with
                        | Ok _ => []
                        | Raise e => [IgnoredException e]
                        end
                   else []))
             = (Ok tt, Lifecycle.worker p'))
    /\ (Lifecycle._market p = None ->
        Lifecycle.commands p' = Lifecycle.commands p
        /\ Lifecycle.worker p'
           = log_events (Lifecycle.worker p)
               ((if withdraws then [IgnoredException AttributeError] else [])
                ++ [IgnoredException AttributeError])).
Proof.
  intros Hinterval withdraws.
  destruct (tick_guarded_part vwap_threshold gateway venue configuration switches p)
    as (p1 & Hguarded & _ & _ & _ & _ & _ & Hrest).
  fold withdraws in Hrest.
  unfold Lifecycle.on_tick, Lifecycle.finally_. rewrite Hguarded.
  unfold Lifecycle.and_then, Lifecycle.of_result, Lifecycle.set_refresh_timestamp,
    Lifecycle.set_is_busy, Lifecycle.exit, Lifecycle.unit_, _calculate_waiting_time.
  destruct (Z.eqb_spec (Strategy.tick_interval (Configuration.strategy configuration)) 0)
    as [Hz | _]; [contradiction |].
  assert (Hgoal : forall p',
            Lifecycle.worker p' = Lifecycle.worker p1 ->
            Lifecycle.commands p' = Lifecycle.commands p1 ->
            (forall market,
               Lifecycle._market p = Some market ->
               Lifecycle.commands p'
               = Lifecycle.commands p
                   ++ (if withdraws then [Lifecycle.PostMarketWithdraw] else [])
               /\ on_tick vwap_threshold gateway configuration market
                    (log_events (Lifecycle.worker p)
                       (if withdraws
                        then match Lifecycle.kujira_post_market_withdraw venue with
                             | Ok _ => []
                             | Raise e => [IgnoredException e]
                             end
                        else []))
                  = (Ok tt, Lifecycle.worker p'))
            /\ (Lifecycle._market p = None ->
                Lifecycle.commands p' = Lifecycle.commands p
                /\ Lifecycle.worker p'
                   = log_events (Lifecycle.worker p)
                       ((if withdraws then [IgnoredException AttributeError] else [])
                        ++ [IgnoredException AttributeError]))).
  { intros p' -> ->. split.
    - intros market Hmarket. rewrite Hmarket in Hrest. exact Hrest.
    - intros Hmarket. rewrite Hmarket in Hrest. exact Hrest. }
  destruct (Lifecycle.run_only_once switches);
    (eexists; split; [reflexivity |]; apply Hgoal; reflexivity).
Qed.

Lemma tick_runs_body_on_market_witness :
  exists p',
    Lifecycle.on_tick 30 (Scenario.gateway Scenario.book)
      (Lifecycle.mkVenue (Ok Scenario.market) (Ok tt) (Ok tt))
      (Scenario.configuration None None [])
      (Lifecycle.mkSwitches false false false false true false)
      1699999999345 1700000000 Lifecycle.new_process
    = (Ok tt, p')
    /\ Lifecycle.commands p' = []
    /\ trace (Lifecycle.worker p')
       = [IgnoredException AttributeError; IgnoredException AttributeError].
Proof.
  destruct (tick_runs_body_on_market 30 (Scenario.gateway Scenario.book)
              (Lifecycle.mkVenue (Ok Scenario.market) (Ok tt) (Ok tt))
              (Scenario.configuration None None [])
              (Lifecycle.mkSwitches false false false false true false)
              1699999999345 1700000000 Lifecycle.new_process) as (p' & Hrun & _ & Hnone);
    [discriminate |].
  destruct (Hnone eq_refl) as [Hcommands Hworker].
  exists p'. split; [exact Hrun |]. split; [exact Hcommands |].
  rewrite Hworker. reflexivity.
Defined.

(** X25. [stop], called while no tick is in flight, never raises and clears
    [_can_run].  Cancelling the tick that is not there is logged as an
    attribute error.  Then the requests to cancel every order and to withdraw
    are sent in this order, as the configuration asks, when the market is
    known; their failures are logged and ignored. *)
Theorem stop_clears_can_run
    (venue : Lifecycle.Venue) (switches : Lifecycle.Switches) (p : Lifecycle.Process) :
  exists p' events,
    Lifecycle.stop venue switches p = (Ok tt, p')
    /\ Lifecycle._can_run p' = false
    /\ Lifecycle.worker p'
       = log_events (Lifecycle.worker p) (IgnoredException AttributeError :: events)
    /\ Forall is_ignored events
    /\ (Lifecycle._market p = None -> Lifecycle.commands p' = Lifecycle.commands p)
    /\ (forall market,
          Lifecycle._market p = Some market ->
          Lifecycle.commands p'
          = Lifecycle.commands p
              ++ (if Lifecycle.cancel_all_orders_on_stop switches
                  then [Lifecycle.DeleteOrdersAll] else [])
              ++ (if Lifecycle.withdraw_market_on_stop switches
                  then [Lifecycle.PostMarketWithdraw] else [])).
Proof.
  unfold Lifecycle.stop, Lifecycle.finally_, Lifecycle._cancel_all_orders,
    Lifecycle._market_withdraw, Lifecycle.exit, Lifecycle.ignore, ignore_exception, emit,
    Lifecycle.attempt, Lifecycle.and_then, Lifecycle.of_result, Lifecycle.of_worker,
    Lifecycle.get_market, Lifecycle.unit_, Lifecycle.send, Lifecycle.set_can_run.
  simpl.
  destruct (Lifecycle.cancel_all_orders_on_stop switches),
    (Lifecycle.withdraw_market_on_stop switches),
    (Lifecycle._market p) as [market |],
    (Lifecycle.kujira_delete_orders_all venue) as [[] | e1],
    (Lifecycle.kujira_post_market_withdraw venue) as [[] | e2]; simpl;
    (eexists _, _; split; [reflexivity |]; simpl;
     split; [reflexivity |];
     split; [unfold log_events; simpl; rewrite <- ?app_assoc; simpl; reflexivity |];
     split; [repeat constructor |];
     split; [try discriminate; intros _; reflexivity |];
     intros ? [=]; rewrite ?app_nil_r, <- ?app_assoc; reflexivity).
Qed.

Lemma stop_clears_can_run_witness :
  exists p',
    Lifecycle.stop (Lifecycle.mkVenue (Ok Scenario.market) (Ok tt) (Ok tt))
      (Lifecycle.mkSwitches false false true true false false) Lifecycle.new_process
    = (Ok tt, p')
    /\ Lifecycle._can_run p' = false
    /\ Lifecycle.commands p' = [].
Proof.
  destruct (stop_clears_can_run (Lifecycle.mkVenue (Ok Scenario.market) (Ok tt) (Ok tt))
              (Lifecycle.mkSwitches false false true true false false) Lifecycle.new_process)
    as (p' & events & Hrun & Hcan & _ & _ & Hnone & _).
  exists p'. split; [exact Hrun |]. split; [exact Hcan |]. apply Hnone. reflexivity.
Defined.

(** ** Caches, auxiliary scans and the clock *)

(** X26. A refresh stores what it returns: after a successful refresh of the
    open orders, the filled orders or the balances, reading through the cache
    gives the same answer without asking the venue; a failed refresh leaves the
    worker as it was.  Before the first refresh, reading the cached open or
    filled orders raises an attribute error, while reading the cached balances
    returns the empty bag without asking the venue. *)
Theorem refreshed_cache_is_read_back (gateway other_gateway : Gateway) (w : Worker) :
  (forall response w1,
     _get_open_orders gateway false w = (Ok response, w1) ->
     _get_open_orders other_gateway true w1 = (Ok response, w1))
  /\ (forall response w1,
        _get_filled_orders gateway false w = (Ok response, w1) ->
        _get_filled_orders other_gateway true w1 = (Ok response, w1))
  /\ (forall response w1,
        _get_balances gateway false w = (Ok response, w1) ->
        _get_balances other_gateway true w1 = (Ok response, w1))
  /\ (forall e w1,
        _get_open_orders gateway false w = (Raise e, w1)
        \/ _get_filled_orders gateway false w = (Raise e, w1)
        \/ _get_balances gateway false w = (Raise e, w1) ->
        w1 = w)
  /\ (_open_orders w = None -> _get_open_orders gateway true w = (Raise AttributeError, w))
  /\ (_filled_orders w = None -> _get_filled_orders gateway true w = (Raise AttributeError, w))
  /\ (_balances w = None -> _get_balances gateway true w = (Ok None, w)).
Proof.
  unfold _get_open_orders, _get_filled_orders, _get_balances, bind, get, lift, ret, raise,
    set_open_orders, set_filled_orders, set_balances.
  repeat split.
  - intros response w1. destruct (kujira_get_open_orders gateway); [| discriminate].
    intros [= <- <-]. reflexivity.
  - intros response w1. destruct (kujira_get_filled_orders gateway); [| discriminate].
    intros [= <- <-]. reflexivity.
  - intros response w1. destruct (kujira_get_balances gateway); [| discriminate].
    intros [= <- <-]. reflexivity.
  - intros e w1 [H | [H | H]].
    + destruct (kujira_get_open_orders gateway); [discriminate |]. now injection H.
    + destruct (kujira_get_filled_orders gateway); [discriminate |]. now injection H.
    + destruct (kujira_get_balances gateway); [discriminate |]. now injection H.
  - intros ->. reflexivity.
  - intros ->. reflexivity.
  - intros ->. reflexivity.
Qed.

Lemma refreshed_cache_is_read_back_witness :
  exists w1,
    _get_open_orders (Scenario.gateway Scenario.book) false Scenario.worker = (Ok [], w1)
    /\ _get_open_orders Scenario.down_gateway true w1 = (Ok [], w1).
Proof.
  destruct (_get_open_orders (Scenario.gateway Scenario.book) false Scenario.worker)
    as [r w1] eqn:Hrun.
  assert (Hr : r = Ok []) by (vm_compute in Hrun; inversion Hrun; reflexivity).
  subst r. exists w1. split; [reflexivity |].
  apply (refreshed_cache_is_read_back (Scenario.gateway Scenario.book) Scenario.down_gateway
           Scenario.worker).
  exact Hrun.
Defined.

(** X27. The duplicate scan reports nothing when no two open orders that were
    not placed by hand share a client id, and it needs the open orders to have
    been fetched: on a worker that never fetched them it raises an attribute
    error. *)
Theorem duplicate_scan_no_false_positive
    (gateway : Gateway) (w : Worker) :
  (forall open_orders,
     _open_orders w = Some open_orders ->
     NoDup (map VenueOrder.id (map snd open_orders)) ->
     (forall order other,
        In order (map snd open_orders) -> In other (map snd open_orders) ->
        VenueOrder.clientId order <> "0"%string ->
        VenueOrder.clientId other = VenueOrder.clientId order ->
        VenueOrder.id other = VenueOrder.id order) ->
     _get_duplicated_orders_ids gateway w = (Ok [], w))
  /\ (_open_orders w = None ->
      _get_duplicated_orders_ids gateway w = (Raise AttributeError, w)).
Proof.
  unfold _get_duplicated_orders_ids, _get_open_orders, bind, get, ret, raise. split.
  - intros open_orders -> Hids Hdistinct. f_equal. f_equal.
    destruct (duplicated_orders_ids_of (map snd open_orders)) as [| x l] eqn:Hscan;
      [reflexivity |].
    exfalso.
    assert (Hin : In x (duplicated_orders_ids_of (map snd open_orders)))
      by (rewrite Hscan; left; reflexivity).
    apply (duplicated_orders_ids_spec _ _ Hids) in Hin
      as (order & Horder & _ & Hmanual & other & Hother & Hclient & Hne & _).
    apply Hne. apply Hdistinct; assumption.
  - intros ->. reflexivity.
Qed.

Lemma duplicate_scan_no_false_positive_witness :
  _get_duplicated_orders_ids Scenario.down_gateway
    (mkWorker [] [] None
       (Some [("a1"%string, VenueOrder.mk "a1" "1" 9); ("m1"%string, VenueOrder.mk "m1" "0" 9);
              ("m2"%string, VenueOrder.mk "m2" "0" 9); ("a2"%string, VenueOrder.mk "a2" "2" 9)])
       None [])
  = (Ok [],
     mkWorker [] [] None
       (Some [("a1"%string, VenueOrder.mk "a1" "1" 9); ("m1"%string, VenueOrder.mk "m1" "0" 9);
              ("m2"%string, VenueOrder.mk "m2" "0" 9); ("a2"%string, VenueOrder.mk "a2" "2" 9)])
       None []).
Proof.
  eapply (proj1 (duplicate_scan_no_false_positive Scenario.down_gateway _)).
  - reflexivity.
  - apply (bool_decide_unpack _). vm_compute. exact I.
  - simpl. intros order other Ho Hother Hmanual Hclient.
    destruct Ho as [<- | [<- | [<- | [<- | []]]]];
      destruct Hother as [<- | [<- | [<- | [<- | []]]]];
      simpl in *; try reflexivity; try discriminate; try (exfalso; apply Hmanual; reflexivity).
Defined.

(** X28. [_get_remaining_orders_ids] always returns the empty list: it keeps
    the created orders whose client id is a candidate's client id that no
    created order has. *)
Theorem remaining_orders_ids_is_empty
    (candidate_orders : list Order.t) (created_orders : list (string * VenueOrder.t)) :
  _get_remaining_orders_ids candidate_orders created_orders = [].
Proof.
  unfold _get_remaining_orders_ids.
  set (remaining := elements _).
  assert (Hnone : forall order, In order (map snd created_orders) ->
            bool_decide (VenueOrder.clientId order ∈ remaining) = false).
  { intros order Hin. apply bool_decide_eq_false. unfold remaining.
    rewrite elem_of_elements, elem_of_difference, !elem_of_list_to_set.
    intros [_ Hnot]. apply Hnot. apply list_elem_of_In.
    apply (in_map (fun order => VenueOrder.clientId order)). exact Hin. }
  clearbody remaining.
  induction (map snd created_orders) as [| order orders IH]; [reflexivity |].
  simpl. rewrite Hnone by (left; reflexivity).
  apply IH. intros other Hother. apply Hnone. right. exact Hother.
Qed.

(** X29. The waiting time at the edges of its domain: an interval of zero
    raises a division by zero; a negative interval gives a negative delay, at
    least the interval; for any other interval the delay only depends on the
    clock modulo the interval, and on a point of the grid it is the whole
    interval, never zero. *)
Theorem waiting_time_edges (interval now : Z) :
  _calculate_waiting_time 0 now = Raise ZeroDivisionError
  /\ (interval < 0 ->
      exists delay,
        _calculate_waiting_time interval now = Ok delay /\ interval <= delay < 0)
  /\ (forall k,
        _calculate_waiting_time interval (now + k * interval)
        = _calculate_waiting_time interval now)
  /\ (interval <> 0 -> now mod interval = 0 ->
      _calculate_waiting_time interval now = Ok interval).
Proof.
  unfold _calculate_waiting_time. split; [reflexivity |]. split; [| split].
  - intros Hneg. destruct (Z.eqb_spec interval 0) as [Hz | _]; [lia |].
    eexists. split; [reflexivity |].
    pose proof (Z.mod_neg_bound now interval Hneg). lia.
  - intros k. destruct (Z.eqb_spec interval 0) as [Hz | Hne]; [reflexivity |].
    rewrite Z.mod_add by exact Hne. reflexivity.
  - intros Hne Hmod. destruct (Z.eqb_spec interval 0) as [Hz | _]; [contradiction |].
    rewrite Hmod. f_equal. lia.
Qed.

Lemma waiting_time_edges_witness :
  exists delay,
    _calculate_waiting_time (-1000) 1699999999345 = Ok delay /\ -1000 <= delay < 0.
Proof.
  apply (waiting_time_edges (-1000) 1699999999345). reflexivity.
Defined.
